(** * renderstim: the scene-configuration sampler [latents/dataset.py]

    A shallow embedding of [latent_dataset] (and of [get_hdri_id] from
    [latents/hdri.py]) together with the properties of the sampler that
    the specification states.

    Modelling conventions.
    - Python floats are modelled by rationals [Q]; a decimal literal of
      the source stands for the rational it denotes, and [np.pi] for the
      exact value of the double.
    - A [latents] dict is a [gmap string value]: an absent key is a
      lookup returning [None], the Python value [None] is [VNone].
    - A raised exception is [inl e], a returned value is [inr v].
    - numpy and the helper modules that [dataset.py] imports
      ([textures], [materials], [utils]) are taken as an interface
      ([External]); what the development relies on is stated in
      [numpy_contract] and [texture_contract]. *)

From Stdlib Require Import ZArith QArith Lqa.
From stdpp Require Import gmap strings list fin_maps.

Open Scope Z_scope.

(** ** Exceptions and the result of a call *)

(** The classes the sampler's own code raises or that the theorems
    tell apart, and [OtherError] for an exception of any other class
    (OverflowError, MemoryError, KeyError, ...), by its name. *)
Inductive exn : Type :=
| ValueError (msg : string)
| IndexError (msg : string)
| FileNotFoundError (path : string)
| OtherError (class : string) (msg : string).

Definition result (A : Type) : Type := (exn + A)%type.

#[global] Instance result_ret : MRet result := λ A x, inr x.
#[global] Instance result_bind : MBind result := λ A B f m,
  match m with
  | inl e => inl e
  | inr x => f x
  end.

Definition is_ValueError (e : exn) : Prop := ∃ msg, e = ValueError msg.

(** ** Module-level constants of [dataset.py] *)

Definition KUBASIC_IDS : list string :=
  ["cube"; "cylinder"; "sphere"; "cone"; "torus"; "gear";
   "torus_knot"; "sponge"; "spot"; "suzanne"].

Definition TEXTURES : list string :=
  ["NONE"; "CLOUDS"; "DISTORTED_NOISE"; "MAGIC"; "MARBLE";
   "MUSGRAVE"; "STUCCI"; "VORONOI"; "WOOD"].

(** [np.pi]: the double nearest to pi, exactly. *)
Definition np_pi : Q := 884279719003555 # 281474976710656.

Definition Qltb (x y : Q) : bool := negb (Qle_bool y x).

(** ** Floats

    A Python float is a double: a number, an infinity or NaN.  The
    numbers are read as rationals.  A comparison with [<] or [>] is
    false as soon as one operand is NaN. *)
Inductive pyfloat : Type :=
| Finite (q : Q)
| PosInf
| NegInf
| NaN.

Coercion Finite : Q >-> pyfloat.

(** [x < y] *)
Definition float_lt (x y : pyfloat) : bool :=
  match x, y with
  | NaN, _ | _, NaN => false
  | NegInf, NegInf => false
  | NegInf, _ => true
  | Finite _, NegInf => false
  | Finite a, Finite b => Qltb a b
  | Finite _, PosInf => true
  | PosInf, _ => false
  end.

(** [x > y] *)
Definition float_gt (x y : pyfloat) : bool := float_lt y x.

(** [bool(x)] *)
Definition float_truth (x : pyfloat) : bool :=
  match x with
  | Finite q => negb (Qeq_bool q 0)
  | _ => true
  end.

(** ** What the sampler imports

    [rng] is a [numpy.random.RandomState]; every draw returns the value
    together with the advanced generator.  [gen_choice_no_replace] is
    [np.random.default_rng().choice(U, size=N, replace=False)], a draw
    from operating-system entropy.  [get_material], [get_texture],
    [get_quaternion] and [GSO_IDS] come from modules of the package that
    are not part of the sources at hand.  [HDRI_haven_json] is what
    lines 7-9 of [hdri.py] evaluate to: the list of the keys of the
    manifest's "assets", or the exception that opening the file,
    parsing it, indexing it with "assets" or asking for its keys
    raises. *)

Record External : Type := {
  rng : Type;
  entropy : Type;
  material : Type;
  texture : Type;
  quaternion : Type;
  RandomState : Z → rng;
  rs_uniform : Q → Q → rng → Q * rng;
  rs_uniform_size : Q → Q → Z → rng → result (list Q * rng);
  rs_randint : Z → Z → rng → result (Z * rng);
  rs_choice : list string → rng → result (string * rng);
  rs_choice_size : list string → Z → rng → result (list string * rng);
  gen_choice_no_replace : entropy → Z → Z → result (list Z);
  get_material : rng → material * rng;
  get_texture : string → rng → bool → texture * rng;
  texture_kind : texture → string;
  get_quaternion : string → Q → quaternion;
  GSO_IDS : list string;
  HDRI_haven_json : result (list string)
}.

(** [np.prod(size, dtype=np.intp)]: a size that fits a C long. *)
Definition fits_intp (n : Z) : Prop :=
  -9223372036854775808 ≤ n ≤ 9223372036854775807.

(** The documented behaviour of the numpy calls the sampler makes.
    Where a draw returns: the range and size of what it returns.  Where
    it raises: [randint] (low >= high, or a bound out of the range of
    the integer type) and [choice] from a list (an empty one) raise
    [ValueError]; so does the seed draw for a negative size or one
    above the population, as long as the size fits a C long (a larger
    one is an OverflowError).  How the sized draws of the loop body
    fail is left open: [ValueError] for a negative size, MemoryError
    for one too large.  [seeds_total] is the draw for a size within the
    population, exhaustion of memory aside. *)
Record numpy_contract (E : External) : Prop := {
  uniform_range : ∀ lo hi r,
    (lo < hi)%Q →
    (lo <= (rs_uniform E lo hi r).1)%Q ∧ ((rs_uniform E lo hi r).1 < hi)%Q;
  uniform_size_ok : ∀ lo hi n r xs r',
    rs_uniform_size E lo hi n r = inr (xs, r') →
    0 ≤ n ∧ length xs = Z.to_nat n ∧
    ((lo < hi)%Q → Forall (λ x, (lo <= x)%Q ∧ (x < hi)%Q) xs);
  randint_ok : ∀ lo hi r v r',
    rs_randint E lo hi r = inr (v, r') → lo ≤ v < hi;
  choice_ok : ∀ pop r x r',
    rs_choice E pop r = inr (x, r') → x ∈ pop;
  choice_size_ok : ∀ pop n r xs r',
    rs_choice_size E pop n r = inr (xs, r') →
    0 ≤ n ∧ length xs = Z.to_nat n ∧ Forall (λ x, x ∈ pop) xs;
  seeds_ok : ∀ en U N seeds,
    gen_choice_no_replace E en U N = inr seeds →
    0 ≤ N ∧ length seeds = Z.to_nat N ∧ NoDup seeds ∧
    Forall (λ s, 0 ≤ s < U) seeds;
  seeds_total : ∀ en U N,
    0 ≤ N ≤ U → ∃ seeds, gen_choice_no_replace E en U N = inr seeds;
  randint_raises : ∀ lo hi r e,
    rs_randint E lo hi r = inl e → is_ValueError e;
  choice_raises : ∀ pop r e,
    rs_choice E pop r = inl e → is_ValueError e;
  seeds_raises : ∀ en U N e,
    gen_choice_no_replace E en U N = inl e → fits_intp N → is_ValueError e
}.

(** Modelled from the spec: [textures.get_texture] is not among the
    sources; the specification (section 4.6) describes its result as a
    record holding the requested kind and kind-specific parameters.
    [texture_kind] reads that kind back. *)
Definition texture_contract (E : External) : Prop :=
  ∀ kind r bg, texture_kind E (get_texture E kind r bg).1 = kind.

(** ** Arguments of [latent_dataset]

    The float arguments are [pyfloat]s.  The entries of the list
    arguments are stored, or overwritten by a draw, and never compared:
    they are read as rationals. *)

Record DatasetParameters : Type := {
  num_scenes : Z;
  resolution : list Z;
  min_num_objects : Z;
  max_num_objects : Z;
  spawn_region : list (list Q);
  lighting : string;
  sun_position : list Q;
  hdri_world : bool;
  camera_position : list Q;
  camera_look_at : list Q;
  camera_focal_length : pyfloat;
  camera_sensor_width : pyfloat;
  floor_scale : list Q;
  floor_position : list Q;
  floor_friction : pyfloat;
  floor_restitution : pyfloat;
  background_type : string;
  asset_source : string;
  velocity_range : list (list Q);
  dataset_comment : string
}.

(** The default arguments of the signature (lines 42-61). *)
Definition default_parameters : DatasetParameters := {|
  num_scenes := 100;
  resolution := [256; 144];
  min_num_objects := 3;
  max_num_objects := 6;
  spawn_region := [[-2.5; -3.0; 0.2]; [2.5; 3.0; 1.5]]%Q;
  lighting := "sun";
  sun_position := [0.0; 0.0; 7.0]%Q;
  hdri_world := false;
  camera_position := [0.0; -8.0; 3.6]%Q;
  camera_look_at := [0.0; 0.0; 0.5]%Q;
  camera_focal_length := 32.0%Q;
  camera_sensor_width := 30.0%Q;
  floor_scale := [20.0; 40.0; 0.01]%Q;
  floor_position := [0.0; 0.0; 0.0]%Q;
  floor_friction := 0.3%Q;
  floor_restitution := 0.5%Q;
  background_type := "artificial";
  asset_source := "kubasic";
  velocity_range := [[-4; -4; 0]; [4; 4; 0]]%Q;
  dataset_comment := "test"
|}.

(** ** Parameter checks (lines 98-147) *)

Definition validate (p : DatasetParameters) : result unit :=
  if negb (length (resolution p) =? 2)%nat then
    inl (ValueError "resolution should be a list of ints of length=2, e.g., [256, 256]")
  else if negb (length (spawn_region p) =? 2)%nat then
    inl (ValueError "spawn region should be a list of lists of length 3, e.g., [[-2.5, -3.0, 0.2], [2.5, 3.0, 1.5]]")
  else if negb (forallb (λ sr, (length sr =? 3)%nat) (spawn_region p)) then
    inl (ValueError "spawn region should be a list of 2 lists of length 3, e.g., [[-2.5, -3.0, 0.2], [2.5, 3.0, 1.5]]")
  else if negb (length (sun_position p) =? 3)%nat then
    inl (ValueError "sun position should be a list of length 3, e.g., [0.0, 0.0, 7.0]")
  else if negb (length (camera_position p) =? 3)%nat then
    inl (ValueError "camera position should be a list of length 3, e.g., [0.0, -8.0, 3.6]")
  else if negb (length (camera_look_at p) =? 3)%nat then
    inl (ValueError "camera look at should be a list of length 3, e.g., [0.0, 0.0, 0.5]")
  else if negb (length (floor_scale p) =? 3)%nat then
    inl (ValueError "floor scale should be a list of length 3, e.g., [20.0, 40.0, 0.01]")
  else if negb (length (floor_position p) =? 3)%nat then
    inl (ValueError "floor position should be a list of length 3, e.g., [0.0, 0.0, 0.0]")
  else if float_gt (floor_friction p) 1.0%Q || float_lt (floor_friction p) 0.0%Q then
    inl (ValueError "floor friction value should be a floating point number between 0.0 and 1.0, e.g., 0.3")
  else if float_gt (floor_restitution p) 1.0%Q || float_lt (floor_restitution p) 0.0%Q then
    inl (ValueError "floor restitution value should be a floating point number between 0.0 and 1.0, e.g., 0.5")
  else inr tt.

(** ** The loop body: one scene *)

Section Sampler.
Context (E : External).

(** Values stored in a [latents] dict.  [VSunRef] is a reference to the
    list object bound to the argument [sun_position]: the sampler stores
    that object itself (line 199) and assigns into it (lines 200-201),
    so every dict holding it sees the later assignments.  The other list
    arguments are stored but never assigned into, and are represented by
    their contents. *)
Inductive value : Type :=
| VNone
| VBool (b : bool)
| VInt (z : Z)
| VFloat (x : pyfloat)
| VStr (s : string)
| VInts (zs : list Z)
| VFloats (qs : list Q)
| VFloatss (qss : list (list Q))
| VStrs (ss : list string)
| VSunRef
| VMaterial (m : material E)
| VTexture (t : texture E)
| VQuaternions (qs : list (quaternion E))
| VTextures (ts : list (texture E))
| VMaterials (ms : list (material E)).

(** The state a scene's sampling runs in: the scene's generator, the
    dict under construction, and the contents of the shared
    [sun_position] list. *)
Record state : Type := {
  st_rng : rng E;
  st_latents : gmap string value;
  st_sun : list Q
}.

Definition M (A : Type) : Type := state → result (A * state).

#[global] Instance M_ret : MRet M := λ A x st, inr (x, st).
#[global] Instance M_bind : MBind M := λ A B f m st,
  match m st with
  | inl e => inl e
  | inr (x, st') => f x st'
  end.

Definition raise {A} (e : exn) : M A := λ _, inl e.

(** [latents[k] = v] *)
Definition setitem (k : string) (v : value) : M unit := λ st,
  inr (tt, {| st_rng := st_rng st;
              st_latents := <[k := v]> (st_latents st);
              st_sun := st_sun st |}).

(** [latents["sun_position"][i] = x], an assignment into the shared
    list; Python raises [IndexError] out of range. *)
Definition sun_setitem (i : nat) (x : Q) : M unit := λ st,
  if (i <? length (st_sun st))%nat then
    inr (tt, {| st_rng := st_rng st;
                st_latents := st_latents st;
                st_sun := <[i := x]> (st_sun st) |})
  else inl (IndexError "list assignment index out of range").

Definition with_rng {A} (f : rng E → A * rng E) : M A := λ st,
  let '(x, r) := f (st_rng st) in
  inr (x, {| st_rng := r; st_latents := st_latents st; st_sun := st_sun st |}).

Definition with_rng_result {A} (f : rng E → result (A * rng E)) : M A := λ st,
  match f (st_rng st) with
  | inl e => inl e
  | inr (x, r) =>
      inr (x, {| st_rng := r; st_latents := st_latents st; st_sun := st_sun st |})
  end.

Definition rng_uniform (lo hi : Q) : M Q := with_rng (rs_uniform E lo hi).
Definition rng_uniform_size (lo hi : Q) (n : Z) : M (list Q) :=
  with_rng_result (rs_uniform_size E lo hi n).
Definition rng_randint (lo hi : Z) : M Z := with_rng_result (rs_randint E lo hi).
Definition rng_choice (pop : list string) : M string :=
  with_rng_result (rs_choice E pop).
Definition rng_choice_size (pop : list string) (n : Z) : M (list string) :=
  with_rng_result (rs_choice_size E pop n).

(** [a[k]] on a sequence *)
Definition getitem {A} (a : list A) (k : nat) : M A :=
  match a !! k with
  | Some x => mret x
  | None => raise (IndexError "index out of bounds")
  end.

(** [[f(k) for k in ks]], the elements evaluated in order. *)
Fixpoint comprehension {A B} (f : A → M B) (ks : list A) : M (list B) :=
  match ks with
  | [] => mret []
  | k :: ks' => x ← f k; xs ← comprehension f ks'; mret (x :: xs)
  end.

(** [range(n)] *)
Definition range (n : Z) : list nat := seq 0 (Z.to_nat n).

(** [hdri.get_hdri_id] *)
Definition get_hdri_id : M string :=
  match HDRI_haven_json E with
  | inl e => raise e
  | inr hdri_ids => rng_choice hdri_ids
  end.

Section Body.
Context (p : DatasetParameters).

(** Lines 166-194: the world the objects are placed in. *)
Definition set_world : M unit :=
  setitem "hdri_world" (VBool (hdri_world p));;
  if hdri_world p then
    hdri_id ← get_hdri_id;
    setitem "hdri_id" (VStr hdri_id)
  else
    setitem "hdri_id" VNone;;
    m ← with_rng (get_material E);
    setitem "bg_material" (VMaterial m);;
    setitem "floor_position" (VFloats (floor_position p));;
    if String.eqb (background_type p) "artificial" then
      kind ← rng_choice TEXTURES;
      t ← with_rng (λ r, get_texture E kind r true);
      setitem "bg_texture" (VTexture t)
    else if String.eqb (background_type p) "realistic" then
      t ← with_rng (λ r, get_texture E "IMAGE" r true);
      setitem "bg_texture" (VTexture t)
    else
      raise (ValueError "Invalid background type: background_type can be either 'artificial' or 'realistic'").

(** Lines 197-220: lighting. *)
Definition set_lighting : M unit :=
  if String.eqb (lighting p) "sun" then
    setitem "sun_position" VSunRef;;
    x ← rng_uniform (-1) 1;
    sun_setitem 0 x;;
    y ← rng_uniform (-1) 1;
    sun_setitem 1 y;;
    a ← rng_uniform 0.4 0.7;
    setitem "ambient_illumination" (VFloat (Finite a));;
    setitem "lighting" (VStr (lighting p))
  else if String.eqb (lighting p) "ambient_hdri" then
    setitem "sun_position" VNone;;
    setitem "ambient_illumination" VNone;;
    setitem "lighting" (VStr (lighting p))
  else
    raise (ValueError "Invalid lighting type: lighting can be either 'sun' or 'ambient_hdri'").

(** Lines 223-241: camera, floor and physics. *)
Definition set_camera_floor : M unit :=
  setitem "camera_position" (VFloats (camera_position p));;
  setitem "camera_look_at" (VFloats (camera_look_at p));;
  setitem "camera_focal_length" (VFloat (camera_focal_length p));;
  setitem "camera_sensor_width" (VFloat (camera_sensor_width p));;
  setitem "floor_scale" (VFloats (floor_scale p));;
  setitem "floor_friction" (VFloat (floor_friction p));;
  setitem "floor_restitution" (VFloat (floor_restitution p));;
  setitem "velocity_range" (VFloatss (velocity_range p)).

(** Lines 253-264: shapes and scales by asset source. *)
Definition set_shapes (n : Z) : M unit :=
  if String.eqb (asset_source p) "kubasic" then
    shapes ← rng_choice_size KUBASIC_IDS n;
    setitem "object_shapes" (VStrs shapes);;
    scales ← rng_uniform_size 0.6 1.2 n;
    setitem "object_scales" (VFloats scales)
  else if String.eqb (asset_source p) "GSO" then
    shapes ← rng_choice_size (GSO_IDS E) n;
    setitem "object_shapes" (VStrs shapes);;
    scales ← rng_uniform_size 6.0 10.0 n;
    setitem "object_scales" (VFloats scales)
  else
    raise (ValueError "Invalid asset source type: asset sources either be 'kubasic' or 'GSO'").

(** Lines 266-290: rotations, textures and materials of the objects. *)
Definition set_object_properties (n : Z) : M unit :=
  angles ← rng_uniform_size 0 (2 * np_pi) n;
  setitem "object_angles_of_rotation" (VFloats angles);;
  axes ← rng_choice_size ["x"; "y"; "z"] n;
  setitem "object_axes_of_rotation" (VStrs axes);;
  quats ← comprehension (λ k,
             axis ← getitem axes k;
             angle ← getitem angles k;
             mret (get_quaternion E axis angle)) (range n);
  setitem "object_quaternions" (VQuaternions quats);;
  textures ← comprehension (λ _ : nat,
                kind ← rng_choice TEXTURES;
                with_rng (λ r, get_texture E kind r false)) (range n);
  setitem "object_textures" (VTextures textures);;
  materials ← comprehension (λ _ : nat, with_rng (get_material E)) (range n);
  setitem "object_materials" (VMaterials materials).

(** Lines 247-290. *)
Definition set_objects : M unit :=
  n ← rng_randint (min_num_objects p) (max_num_objects p + 1);
  setitem "num_objects" (VInt n);;
  setitem "asset_source" (VStr (asset_source p));;
  set_shapes n;;
  set_object_properties n.

(** Lines 155-290, after the generator has been seeded. *)
Definition scene_body (seed : Z) : M unit :=
  setitem "seed" (VInt seed);;
  setitem "resolution" (VInts (resolution p));;
  setitem "spawn_region" (VFloatss (spawn_region p));;
  set_world;;
  set_lighting;;
  set_camera_floor;;
  set_objects.

(** One iteration of the loop: [sun] is the contents of the shared
    [sun_position] list when the iteration starts; the result is the
    dict built and the contents of the list afterwards. *)
Definition sample_scene (seed : Z) (sun : list Q)
  : result (gmap string value * list Q) :=
  match scene_body seed {| st_rng := RandomState E seed;
                           st_latents := ∅;
                           st_sun := sun |} with
  | inl e => inl e
  | inr (_, st) => inr (st_latents st, st_sun st)
  end.

(** Lines 152-295: the loop over the seeds. *)
Fixpoint scenes_loop (seeds : list Z) (sun : list Q)
    (scenes : list (gmap string value))
  : result (list (gmap string value) * list Q) :=
  match seeds with
  | [] => inr (scenes, sun)
  | seed :: seeds' =>
      '(latents, sun') ← sample_scene seed sun;
      scenes_loop seeds' sun' (scenes ++ [latents])
  end.

(** Lines 150-151. *)
Definition seed_generation (en : entropy E) (n : Z) : result (list Z) :=
  gen_choice_no_replace E en 2147483647 n.

(** [latent_dataset]: the list of dicts returned, and the contents of
    the caller's [sun_position] list when the call returns. *)
Definition latent_dataset (en : entropy E)
  : result (list (gmap string value) * list Q) :=
  validate p;;
  seeds ← seed_generation en (num_scenes p);
  scenes_loop seeds (sun_position p) [].

End Body.

(** What a reader of the dict sees: the reference to the shared list
    replaced by the list's contents [sun]. *)
Definition deref (sun : list Q) (v : value) : value :=
  match v with
  | VSunRef => VFloats sun
  | _ => v
  end.

Definition snapshot (sun : list Q) (latents : gmap string value)
  : gmap string value := deref sun <$> latents.

(** The scene as observed when its sampling returns. *)
Definition scene_value (p : DatasetParameters) (seed : Z) (sun : list Q)
  : result (gmap string value) :=
  '(latents, sun') ← sample_scene p seed sun;
  mret (snapshot sun' latents).

End Sampler.

Arguments VNone {E}.
Arguments VBool {E} b.
Arguments VInt {E} z.
Arguments VFloat {E} x.
Arguments VStr {E} s.
Arguments VInts {E} zs.
Arguments VFloats {E} qs.
Arguments VFloatss {E} qss.
Arguments VStrs {E} ss.
Arguments VSunRef {E}.

(** ** A small deterministic stand-in for the imports

    A linear congruential generator in place of the Mersenne Twister,
    and records of the simplest shape for materials, textures and
    quaternions.  It satisfies [numpy_contract] and [texture_contract],
    so the hypotheses of the theorems below can be met, and it makes the
    model executable on concrete arguments. *)

Module Standin.

Definition next (r : Z) : Z := (r * 1103515245 + 12345) mod 2147483648.

(** A number in [0, 1). *)
Definition unit_draw (r : Z) : Q := (r mod 16) # 16.

Definition uniform (lo hi : Q) (r : Z) : Q * Z :=
  ((lo + (hi - lo) * unit_draw r)%Q, next r).

Fixpoint draws {A} (f : Z → A * Z) (n : nat) (r : Z) : list A * Z :=
  match n with
  | O => ([], r)
  | S n' => let '(x, r1) := f r in
            let '(xs, r2) := draws f n' r1 in
            (x :: xs, r2)
  end.

Definition uniform_size (lo hi : Q) (n : Z) (r : Z) : result (list Q * Z) :=
  if n <? 0 then inl (ValueError "negative dimensions are not allowed")
  else inr (draws (uniform lo hi) (Z.to_nat n) r).

Definition randint (lo hi : Z) (r : Z) : result (Z * Z) :=
  if lo <? hi then inr (lo + r mod (hi - lo), next r)
  else inl (ValueError "low >= high").

Definition pick (pop : list string) (d : string) (r : Z) : string * Z :=
  (nth (Z.to_nat (r mod Z.of_nat (length pop))) pop d, next r).

Definition choice (pop : list string) (r : Z) : result (string * Z) :=
  match pop with
  | [] => inl (ValueError "'a' cannot be empty unless no samples are taken")
  | d :: _ => inr (pick pop d r)
  end.

Definition choice_size (pop : list string) (n : Z) (r : Z)
  : result (list string * Z) :=
  if n <? 0 then inl (ValueError "negative dimensions are not allowed")
  else match pop with
       | [] => if n =? 0 then inr ([], r)
               else inl (ValueError "'a' cannot be empty unless no samples are taken")
       | d :: _ => inr (draws (pick pop d) (Z.to_nat n) r)
       end.

(** Seeds [en, en+1, ...] wrapped into [0, U). *)
Definition choice_no_replace (en : Z) (U N : Z) : result (list Z) :=
  if (0 <=? N) && (N <=? U) then
    inr ((λ i : nat, (en + Z.of_nat i) mod U) <$> seq 0 (Z.to_nat N))
  else if (N <? -9223372036854775808) || (9223372036854775807 <? N) then
    inl (OtherError "OverflowError" "Python int too large to convert to C long")
  else if N <? 0 then inl (ValueError "negative dimensions are not allowed")
  else inl (ValueError "Cannot take a larger sample than population when replace is False").

Definition env : External := {|
  rng := Z;
  entropy := Z;
  material := Q;
  texture := string * Q;
  quaternion := string * Q;
  RandomState := λ seed, seed;
  rs_uniform := uniform;
  rs_uniform_size := uniform_size;
  rs_randint := randint;
  rs_choice := choice;
  rs_choice_size := choice_size;
  gen_choice_no_replace := choice_no_replace;
  get_material := λ r, (unit_draw r, next r);
  get_texture := λ kind r bg, ((kind, unit_draw r), next r);
  texture_kind := fst;
  get_quaternion := λ axis angle, (axis, angle);
  GSO_IDS := ["mug"; "shoe"; "toy_train"];
  HDRI_haven_json := inr ["forest_path"; "studio_small"; "sunset_pier"]
|}.

End Standin.

(** ** Concrete calls

    The default arguments with the fields that the examples vary. *)

Module Examples.

Definition call (n : Z) (res : list Z) (lo hi : Z) (region : list (list Q))
    (light : string) (hdri : bool) (friction : pyfloat) (source : string)
  : DatasetParameters := {|
  num_scenes := n;
  resolution := res;
  min_num_objects := lo;
  max_num_objects := hi;
  spawn_region := region;
  lighting := light;
  sun_position := [0.0; 0.0; 7.0]%Q;
  hdri_world := hdri;
  camera_position := [0.0; -8.0; 3.6]%Q;
  camera_look_at := [0.0; 0.0; 0.5]%Q;
  camera_focal_length := 32.0%Q;
  camera_sensor_width := 30.0%Q;
  floor_scale := [20.0; 40.0; 0.01]%Q;
  floor_position := [0.0; 0.0; 0.0]%Q;
  floor_friction := friction;
  floor_restitution := 0.5%Q;
  background_type := "artificial";
  asset_source := source;
  velocity_range := [[-4; -4; 0]; [4; 4; 0]]%Q;
  dataset_comment := "test"
|}.

Definition default_region : list (list Q) :=
  [[-2.5; -3.0; 0.2]; [2.5; 3.0; 1.5]]%Q.

(** Two scenes, everything else as the defaults. *)
Definition two_scenes : DatasetParameters :=
  call 2 [256; 144] 3 6 default_region "sun" false 0.3%Q "kubasic".

(** Two scenes in an HDRI world lit by the HDRI. *)
Definition hdri_scenes : DatasetParameters :=
  call 2 [256; 144] 3 6 default_region "ambient_hdri" true 0.3%Q "GSO".

(** The corners of the spawn region exchanged. *)
Definition inverted_region : DatasetParameters :=
  call 2 [256; 144] 3 6 [[2.5; 3.0; 1.5]; [-2.5; -3.0; 0.2]]%Q
       "sun" false 0.3%Q "kubasic".

(** [min_num_objects] above [max_num_objects]. *)
Definition inverted_counts : DatasetParameters :=
  call 2 [256; 144] 6 3 default_region "sun" false 0.3%Q "kubasic".

Definition short_resolution : DatasetParameters :=
  call 2 [256] 3 6 default_region "sun" false 0.3%Q "kubasic".

Definition moonlight : DatasetParameters :=
  call 2 [256; 144] 3 6 default_region "moonlight" false 0.3%Q "kubasic".


(** A floor friction that is not a number. *)
Definition nan_friction : DatasetParameters :=
  call 2 [256; 144] 3 6 default_region "sun" false NaN "kubasic".

End Examples.

Arguments VMaterial {E} m.
Arguments VTexture {E} t.
Arguments VQuaternions {E} qs.
Arguments VTextures {E} ts.
Arguments VMaterials {E} ms.
Arguments st_rng {E} s.
Arguments st_latents {E} s.
Arguments st_sun {E} s.
Arguments raise {E A} e _.
Arguments setitem {E} k v _.
Arguments sun_setitem {E} i x _.
Arguments with_rng {E A} f _.
Arguments with_rng_result {E A} f _.
Arguments getitem {E A} a k _.
Arguments comprehension {E A B} f ks _.
Arguments deref {E} sun v.
Arguments snapshot {E} sun latents.

(** ** The shape of a finished dict

    The dicts a successful run can build, written as data: which world
    branch ran, which lighting branch ran, and what was drawn for the
    objects.  [scene_dict] replays the assignments of the loop body in
    their order. *)

Section Shape.
Context {E : External} (p : DatasetParameters).

Inductive world : Type :=
| HdriWorld (hdri_id : string)
| FloorWorld (bg_material : material E) (bg_texture : texture E).

Inductive light : Type :=
| SunLit (ambient_illumination : Q)
| AmbientHdriLit.

Record objects : Type := {
  ob_num : Z;
  ob_shapes : list string;
  ob_scales : list Q;
  ob_angles : list Q;
  ob_axes : list string;
  ob_quaternions : list (quaternion E);
  ob_textures : list (texture E);
  ob_materials : list (material E)
}.

Definition base_fields (seed : Z) : gmap string (value E) :=
  <["spawn_region" := VFloatss (spawn_region p)]>
  (<["resolution" := VInts (resolution p)]>
  (<["seed" := VInt seed]> ∅)).

Definition world_fields (w : world) (d : gmap string (value E))
  : gmap string (value E) :=
  match w with
  | HdriWorld id =>
      <["hdri_id" := VStr id]> (<["hdri_world" := VBool true]> d)
  | FloorWorld m t =>
      <["bg_texture" := VTexture t]>
      (<["floor_position" := VFloats (floor_position p)]>
      (<["bg_material" := VMaterial m]>
      (<["hdri_id" := VNone]>
      (<["hdri_world" := VBool false]> d))))
  end.

Definition lighting_fields (lt : light) (d : gmap string (value E))
  : gmap string (value E) :=
  match lt with
  | SunLit a =>
      <["lighting" := VStr "sun"]>
      (<["ambient_illumination" := VFloat (Finite a)]>
      (<["sun_position" := VSunRef]> d))
  | AmbientHdriLit =>
      <["lighting" := VStr "ambient_hdri"]>
      (<["ambient_illumination" := VNone]>
      (<["sun_position" := VNone]> d))
  end.

Definition camera_floor_fields (d : gmap string (value E))
  : gmap string (value E) :=
  <["velocity_range" := VFloatss (velocity_range p)]>
  (<["floor_restitution" := VFloat (floor_restitution p)]>
  (<["floor_friction" := VFloat (floor_friction p)]>
  (<["floor_scale" := VFloats (floor_scale p)]>
  (<["camera_sensor_width" := VFloat (camera_sensor_width p)]>
  (<["camera_focal_length" := VFloat (camera_focal_length p)]>
  (<["camera_look_at" := VFloats (camera_look_at p)]>
  (<["camera_position" := VFloats (camera_position p)]> d))))))).

Definition object_fields (o : objects) (d : gmap string (value E))
  : gmap string (value E) :=
  <["object_materials" := VMaterials (ob_materials o)]>
  (<["object_textures" := VTextures (ob_textures o)]>
  (<["object_quaternions" := VQuaternions (ob_quaternions o)]>
  (<["object_axes_of_rotation" := VStrs (ob_axes o)]>
  (<["object_angles_of_rotation" := VFloats (ob_angles o)]>
  (<["object_scales" := VFloats (ob_scales o)]>
  (<["object_shapes" := VStrs (ob_shapes o)]>
  (<["asset_source" := VStr (asset_source p)]>
  (<["num_objects" := VInt (ob_num o)]> d)))))))).

Definition scene_dict (seed : Z) (w : world) (lt : light) (o : objects)
  : gmap string (value E) :=
  object_fields o
    (camera_floor_fields (lighting_fields lt (world_fields w (base_fields seed)))).

(** What is known of the pieces when the run succeeded. *)
Definition world_ok (w : world) : Prop :=
  match w with
  | HdriWorld id =>
      hdri_world p = true ∧
      ∃ hdri_ids, HDRI_haven_json E = inr hdri_ids ∧ id ∈ hdri_ids
  | FloorWorld _ _ =>
      hdri_world p = false ∧
      (background_type p = "artificial" ∨ background_type p = "realistic")
  end.

Definition light_ok (lt : light) (sun sun' : list Q) : Prop :=
  match lt with
  | SunLit a =>
      lighting p = "sun" ∧ (0.4 <= a)%Q ∧ (a < 0.7)%Q ∧
      (2 ≤ length sun)%nat ∧
      ∃ x y, sun' = <[1%nat := y]> (<[0%nat := x]> sun) ∧
             ((-1 <= x)%Q ∧ (x < 1)%Q) ∧ ((-1 <= y)%Q ∧ (y < 1)%Q)
  | AmbientHdriLit => lighting p = "ambient_hdri" ∧ sun' = sun
  end.

Record objects_ok (o : objects) : Prop := {
  num_range : min_num_objects p ≤ ob_num o ≤ max_num_objects p;
  num_nonneg : 0 ≤ ob_num o;
  shapes_length : length (ob_shapes o) = Z.to_nat (ob_num o);
  scales_length : length (ob_scales o) = Z.to_nat (ob_num o);
  angles_length : length (ob_angles o) = Z.to_nat (ob_num o);
  axes_length : length (ob_axes o) = Z.to_nat (ob_num o);
  quaternions_length : length (ob_quaternions o) = Z.to_nat (ob_num o);
  textures_length : length (ob_textures o) = Z.to_nat (ob_num o);
  materials_length : length (ob_materials o) = Z.to_nat (ob_num o);
  source_cases :
    (asset_source p = "kubasic" ∧
     Forall (λ s, s ∈ KUBASIC_IDS) (ob_shapes o) ∧
     Forall (λ x, (0.6 <= x)%Q ∧ (x < 1.2)%Q) (ob_scales o)) ∨
    (asset_source p = "GSO" ∧
     Forall (λ s, s ∈ GSO_IDS E) (ob_shapes o) ∧
     Forall (λ x, (6.0 <= x)%Q ∧ (x < 10.0)%Q) (ob_scales o));
  angles_range :
    Forall (λ x, (0 <= x)%Q ∧ (x < 2 * np_pi)%Q) (ob_angles o);
  axes_range : Forall (λ a, a ∈ ["x"; "y"; "z"]) (ob_axes o);
  textures_drawn :
    Forall (λ t, ∃ kind r, kind ∈ TEXTURES ∧ t = (get_texture E kind r false).1)
           (ob_textures o)
}.

End Shape.

(** What the two range checks let through: a value that is neither
    greater than 1.0 nor less than 0.0. *)
Definition range_checked (x : pyfloat) : Prop :=
  float_gt x 1.0%Q = false ∧ float_lt x 0.0%Q = false.

(** A number of the interval [0, 1]. *)
Definition in_unit_interval (x : pyfloat) : Prop :=
  ∃ q : Q, x = Finite q ∧ (0 <= q)%Q ∧ (q <= 1)%Q.

(** What has been checked when the parameter checks pass. *)
Record validated (p : DatasetParameters) : Prop := {
  resolution_length : length (resolution p) = 2%nat;
  spawn_region_length : length (spawn_region p) = 2%nat;
  spawn_region_corners : Forall (λ sr, length sr = 3%nat) (spawn_region p);
  sun_position_length : length (sun_position p) = 3%nat;
  camera_position_length : length (camera_position p) = 3%nat;
  camera_look_at_length : length (camera_look_at p) = 3%nat;
  floor_scale_length : length (floor_scale p) = 3%nat;
  floor_position_length : length (floor_position p) = 3%nat;
  floor_friction_range : range_checked (floor_friction p);
  floor_restitution_range : range_checked (floor_restitution p)
}.

(** A dict is generated for [p] when some run of the loop body returns it. *)
Definition generated (E : External) (p : DatasetParameters)
    (d : gmap string (value E)) : Prop :=
  ∃ seed sun sun', sample_scene E p seed sun = inr (d, sun').

(** Observations of a run: whether it returned, and a key of the dict
    it returned. *)
Definition returns {A} (r : result A) : bool :=
  match r with
  | inr _ => true
  | inl _ => false
  end.

Definition field {E} (k : string) (r : result (gmap string (value E) * list Q))
  : option (value E) :=
  match r with
  | inr (d, _) => d !! k
  | inl _ => None
  end.

(** Observations of a call of [latent_dataset]: the number of dicts
    returned, a key of the [i]-th dict, and the contents of the caller's
    [sun_position] list afterwards. *)
Definition scene_count {E}
    (r : result (list (gmap string (value E)) * list Q)) : nat :=
  match r with
  | inr (scenes, _) => length scenes
  | inl _ => O
  end.

Definition scene_field {E} (i : nat) (k : string)
    (r : result (list (gmap string (value E)) * list Q)) : option (value E) :=
  match r with
  | inr (scenes, _) => d ← scenes !! i; d !! k
  | inl _ => None
  end.

Definition final_sun {A} (r : result (A * list Q)) : list Q :=
  match r with
  | inr (_, sun) => sun
  | inl _ => []
  end.

(** The manifest can be read, or is not needed: it is consulted only
    when [hdri_world] is set. *)
Definition manifest_available (E : External) (p : DatasetParameters) : Prop :=
  hdri_world p = false ∨ ∃ hdri_ids, HDRI_haven_json E = inr hdri_ids.

(** The exception is the one reading the manifest raised, in a call
    that reads it. *)
Definition raised_by_manifest (E : External) (p : DatasetParameters)
    (e : exn) : Prop :=
  hdri_world p = true ∧ HDRI_haven_json E = inl e.

(** The loop body stops before it draws the arrays of the objects:
    at the lighting, at the number of objects or at the asset source. *)
Definition early_stop (p : DatasetParameters) : Prop :=
  (lighting p ≠ "sun" ∧ lighting p ≠ "ambient_hdri") ∨
  max_num_objects p < min_num_objects p ∨
  (asset_source p ≠ "kubasic" ∧ asset_source p ≠ "GSO").

(** A dict without a reference to the shared list. *)
Definition ref_free {E} (d : gmap string (value E)) : Prop :=
  map_Forall (λ _ v, v ≠ VSunRef) d.

(** Two contents of the shared list that differ at most in x and y. *)
Definition agree_beyond_xy (s1 s2 : list Q) : Prop :=
  (2 ≤ length s1)%nat ∧ (2 ≤ length s2)%nat ∧ drop 2 s1 = drop 2 s2.

(** Two states of a scene's sampling that differ at most in the x and y
    of the shared list, and only while no dict entry refers to it. *)
Record similar {E} (st1 st2 : state E) : Prop := {
  sim_rng : st_rng st1 = st_rng st2;
  sim_latents : st_latents st1 = st_latents st2;
  sim_sun : agree_beyond_xy (st_sun st1) (st_sun st2);
  sim_ref : st_sun st1 = st_sun st2 ∨ ref_free (st_latents st1)
}.

(** A computation that, run from similar states, raises the same
    exception or returns the same value in similar states. *)
Definition lockstep {E A} (m : M E A) : Prop :=
  ∀ st1 st2, similar st1 st2 →
    match m st1, m st2 with
    | inl e1, inl e2 => e1 = e2
    | inr (x1, st1'), inr (x2, st2') => x1 = x2 ∧ similar st1' st2'
    | _, _ => False
    end.

(** ** Further calls and variations *)

(** [p] with another [background_type]. *)
Definition with_background_type (bt : string) (p : DatasetParameters)
  : DatasetParameters := {|
  num_scenes := num_scenes p;
  resolution := resolution p;
  min_num_objects := min_num_objects p;
  max_num_objects := max_num_objects p;
  spawn_region := spawn_region p;
  lighting := lighting p;
  sun_position := sun_position p;
  hdri_world := hdri_world p;
  camera_position := camera_position p;
  camera_look_at := camera_look_at p;
  camera_focal_length := camera_focal_length p;
  camera_sensor_width := camera_sensor_width p;
  floor_scale := floor_scale p;
  floor_position := floor_position p;
  floor_friction := floor_friction p;
  floor_restitution := floor_restitution p;
  background_type := bt;
  asset_source := asset_source p;
  velocity_range := velocity_range p;
  dataset_comment := dataset_comment p
|}.

(** The state the world branch starts from: the generator just seeded,
    and the three keys assigned before it. *)
Definition seeded_state (E : External) (p : DatasetParameters) (seed : Z)
    (sun : list Q) : state E :=
  {| st_rng := RandomState E seed;
     st_latents := base_fields p seed;
     st_sun := sun |}.

(** The stand-in with another outcome of reading the manifest: the
    file missing, no "assets" in it, or no asset listed. *)
Definition env_with_manifest (m : result (list string)) : External := {|
  rng := Z;
  entropy := Z;
  material := Q;
  texture := string * Q;
  quaternion := string * Q;
  RandomState := λ seed, seed;
  rs_uniform := Standin.uniform;
  rs_uniform_size := Standin.uniform_size;
  rs_randint := Standin.randint;
  rs_choice := Standin.choice;
  rs_choice_size := Standin.choice_size;
  gen_choice_no_replace := Standin.choice_no_replace;
  get_material := λ r, (Standin.unit_draw r, Standin.next r);
  get_texture := λ kind r bg, ((kind, Standin.unit_draw r), Standin.next r);
  texture_kind := fst;
  get_quaternion := λ axis angle, (axis, angle);
  GSO_IDS := ["mug"; "shoe"; "toy_train"];
  HDRI_haven_json := m
|}.

(** The keys every scene configuration has, and those only a floor
    world has. *)
Definition common_keys : list string :=
  ["seed"; "resolution"; "spawn_region"; "hdri_world"; "hdri_id";
   "sun_position"; "ambient_illumination"; "lighting";
   "camera_position"; "camera_look_at"; "camera_focal_length";
   "camera_sensor_width"; "floor_scale"; "floor_friction";
   "floor_restitution"; "velocity_range"; "num_objects"; "asset_source";
   "object_shapes"; "object_scales"; "object_angles_of_rotation";
   "object_axes_of_rotation"; "object_quaternions"; "object_textures";
   "object_materials"].

Definition floor_keys : list string :=
  ["bg_material"; "floor_position"; "bg_texture"].

Module MoreExamples.

(** No scene requested, with a lighting, an asset source and an
    object-count range that no scene could be sampled with. *)
Definition no_scenes : DatasetParameters :=
  Examples.call 0 [256; 144] 6 3 Examples.default_region "moonlight" false
    0.3%Q "primitives".

Definition negative_count : DatasetParameters :=
  Examples.call (-1) [256; 144] 3 6 Examples.default_region "sun" false
    0.3%Q "kubasic".

(** Two scenes on a textured floor, with scanned objects. *)
Definition realistic_floor : DatasetParameters :=
  with_background_type "realistic"
    (Examples.call 2 [256; 144] 3 6 Examples.default_region "sun" false
       0.3%Q "GSO").

Definition unknown_background : DatasetParameters :=
  with_background_type "photographic" Examples.two_scenes.

(** A floor world lit by an HDRI it does not have. *)
Definition floor_ambient : DatasetParameters :=
  Examples.call 2 [256; 144] 3 6 Examples.default_region "ambient_hdri" false
    0.3%Q "kubasic".



(** An HDRI world lit by the sun. *)
Definition hdri_sun : DatasetParameters :=
  Examples.call 2 [256; 144] 3 6 Examples.default_region "sun" true
    0.3%Q "kubasic".

End MoreExamples.

(** ** The renderer's use of a scene configuration
    [generators/render.py]

    [render_scene] drives kubric, Blender and PyBullet.  What these do
    is not modelled: every call into them, and every operation on the
    objects they return, is one uninterpreted [call] of the interface
    [Engine], named after the source expression and given its arguments
    in their order of evaluation.  What is modelled is what
    [render_scene] itself decides: which keys of [config] it reads and
    when, its branches, its loop over the objects, the local variable
    [background_hdri] that only one branch assigns, and its two
    assignments into [config].  A call receives values: that it does
    not assign into a list of [config] it is passed is taken for
    granted. *)

Section RenderModel.
Context {E : External}.

(** An argument of a call: a value read from [config], an object of
    the engine, a literal, or a formatted string. *)
#[warnings="-register-all"]
Inductive arg (H : Type) : Type :=
| AValue (v : value E)
| AQuaternion (q : quaternion E)
| AObject (h : H)
| AObjects (hs : list H)
| AStr (s : string)
| ABool (b : bool)
| AIndex (i : nat)
| AFormat (template : string) (parts : list (arg H)).

Record Engine : Type := {
  engine : Type;
  handle : Type;
  call : string → list (arg handle) → engine → string + (handle * engine)
}.

Context (G : Engine).

(** What [config] holds: what the sampler stored, or what
    [render_scene] adds. *)
Inductive rvalue : Type :=
| Sampled (v : value E)
| Positions (ps : list (handle G))
| DepthScaling (min_depth max_depth : handle G).

(** Exceptions of [render_scene].  [EngineError] is whatever a call
    raises.  [Unmodelled] marks a value of a type whose behaviour under
    Python's dynamic typing the model does not fix (a sequence where a
    truth value, a string or a count is expected). *)
Inductive render_exn : Type :=
| KeyError (key : string)
| UnboundLocalError (name : string)
| TypeError
| Builtin (e : exn)
| Unmodelled
| EngineError (msg : string).

Record rstate : Type := {
  r_engine : engine G;
  r_config : gmap string rvalue
}.

(** The state is kept when an exception is raised: what was assigned
    into [config] before stays assigned. *)
Definition RM (A : Type) : Type := rstate → (render_exn + A) * rstate.

#[global] Instance RM_ret : MRet RM := λ A x s, (inr x, s).
#[global] Instance RM_bind : MBind RM := λ A B f m s,
  match m s with
  | (inl e, s') => (inl e, s')
  | (inr x, s') => f x s'
  end.

Definition rraise {A} (e : render_exn) : RM A := λ s, (inl e, s).

(** [config[k]] *)
Definition config_get (k : string) : RM rvalue := λ s,
  match r_config s !! k with
  | Some v => (inr v, s)
  | None => (inl (KeyError k), s)
  end.

(** [config[k] = v] *)
Definition config_set (k : string) (v : rvalue) : RM unit := λ s,
  (inr tt, {| r_engine := r_engine s; r_config := <[k := v]> (r_config s) |}).

Definition engine_call (name : string) (args : list (arg (handle G)))
  : RM (handle G) := λ s,
  match call G name args (r_engine s) with
  | inl msg => (inl (EngineError msg), s)
  | inr (h, en) => (inr h, {| r_engine := en; r_config := r_config s |})
  end.

(** A value of [config] passed on to a call. *)
Definition as_arg (v : rvalue) : arg (handle G) :=
  match v with
  | Sampled v => AValue _ v
  | Positions ps => AObjects _ ps
  | DepthScaling lo hi => AObjects _ [lo; hi]
  end.

(** [if v:] *)
Definition truth (v : rvalue) : RM bool :=
  match v with
  | Sampled VNone => mret false
  | Sampled (VBool b) => mret b
  | Sampled (VInt z) => mret (negb (z =? 0))
  | Sampled (VFloat x) => mret (float_truth x)
  | Sampled (VStr s) => mret (negb (String.eqb s ""))
  | _ => rraise Unmodelled
  end.

(** [v == s] for a string literal [s] *)
Definition equals (v : rvalue) (s : string) : RM bool :=
  match v with
  | Sampled (VStr t) => mret (String.eqb t s)
  | Sampled VNone | Sampled (VBool _) | Sampled (VInt _) | Sampled (VFloat _) =>
      mret false
  | _ => rraise Unmodelled
  end.

(** [range(v)] *)
Definition range_of (v : rvalue) : RM (list nat) :=
  match v with
  | Sampled (VInt n) => mret (range n)
  | Sampled (VBool b) => mret (if b then [0%nat] else [])
  | Sampled VNone | Sampled (VFloat _) | Sampled (VStr _) => rraise TypeError
  | _ => rraise Unmodelled
  end.

Definition at_index {A} (xs : list A) (i : nat) (f : A → arg (handle G))
  : RM (arg (handle G)) :=
  match xs !! i with
  | Some x => mret (f x)
  | None => rraise (Builtin (IndexError "index out of range"))
  end.

(** [v[i]] for an index [i] of a [range] *)
Definition item (v : rvalue) (i : nat) : RM (arg (handle G)) :=
  match v with
  | Sampled (VInts zs) => at_index zs i (λ z, AValue _ (VInt z))
  | Sampled (VFloats qs) => at_index qs i (λ q, AValue _ (VFloat (Finite q)))
  | Sampled (VFloatss qss) => at_index qss i (λ qs, AValue _ (VFloats qs))
  | Sampled (VStrs ss) => at_index ss i (λ s, AValue _ (VStr s))
  | Sampled (VQuaternions qs) => at_index qs i (AQuaternion _)
  | Sampled (VTextures ts) => at_index ts i (λ t, AValue _ (VTexture t))
  | Sampled (VMaterials ms) => at_index ms i (λ m, AValue _ (VMaterial m))
  | Positions ps => at_index ps i (AObject _)
  | Sampled VNone | Sampled (VBool _) | Sampled (VInt _) | Sampled (VFloat _) =>
      rraise TypeError
  | _ => rraise Unmodelled
  end.

(** A local variable that a branch may have left unassigned. *)
Definition local {A} (name : string) (x : option A) : RM A :=
  match x with
  | Some a => mret a
  | None => rraise (UnboundLocalError name)
  end.

(** The handles the function holds from line 79 on. *)
Record session : Type := {
  rng_obj : handle G;
  scene : handle G;
  scratch_dir : arg (handle G);
  sim : handle G;
  renderer : handle G;
  kubasic : handle G;
  hdri_source : handle G;
  gso_texmod : handle G
}.

(** Lines 62-79. *)
Definition render_open : RM session :=
  seed ← config_get "seed";
  rng ← engine_call "np.random.RandomState" [as_arg seed];
  resolution ← config_get "resolution";
  scene ← engine_call "core.scene.Scene" [as_arg resolution];
  seed ← config_get "seed";
  let scratch_dir := AFormat _ "./scratch_dir/{}" [as_arg seed] in
  engine_call "os.makedirs" [scratch_dir; ABool _ true];;
  sim ← engine_call "PyBullet" [AObject _ scene; scratch_dir];
  renderer ← engine_call "Blender" [AObject _ scene; scratch_dir];
  kubasic ← engine_call "kb.AssetSource.from_manifest"
               [AStr _ "gs://kubric-public/assets/KuBasic/KuBasic.json"];
  hdri_source ← engine_call "kb.AssetSource.from_manifest"
               [AStr _ "gs://kubric-public/assets/HDRI_haven/HDRI_haven.json"];
  gso_texmod ← engine_call "kb.AssetSource.from_manifest"
               [AStr _ "gs://kubric-public/assets/GSO/GSO.json"];
  mret {| rng_obj := rng; scene := scene; scratch_dir := scratch_dir;
          sim := sim; renderer := renderer; kubasic := kubasic;
          hdri_source := hdri_source; gso_texmod := gso_texmod |}.

(** Lines 83-88. *)
Definition render_camera (w : session) : RM unit :=
  focal_length ← config_get "camera_focal_length";
  sensor_width ← config_get "camera_sensor_width";
  camera ← engine_call "kb.PerspectiveCamera"
             [as_arg focal_length; as_arg sensor_width];
  engine_call "scene.camera =" [AObject _ (scene w); AObject _ camera];;
  position ← config_get "camera_position";
  engine_call "scene.camera.position ="
    [AObject _ (scene w); as_arg position];;
  look_at ← config_get "camera_look_at";
  engine_call "scene.camera.look_at" [AObject _ (scene w); as_arg look_at];;
  mret tt.

(** Lines 92-132: the dome or the floor.  The result is the local
    variable [background_hdri], assigned in the first branch only. *)
Definition render_world (w : session) : RM (option (handle G)) :=
  hdri_world ← config_get "hdri_world";
  b ← truth hdri_world;
  if b : bool then
    hdri_id ← config_get "hdri_id";
    background_hdri ← engine_call "hdri_source.create"
                        [AObject _ (hdri_source w); as_arg hdri_id];
    friction ← config_get "floor_friction";
    restitution ← config_get "floor_restitution";
    dome ← engine_call "kubasic.create"
             [AObject _ (kubasic w); AStr _ "dome"; AStr _ "dome";
              as_arg friction; as_arg restitution;
              ABool _ true; ABool _ true];
    engine_call "scene +=" [AObject _ (scene w); AObject _ dome];;
    dome_blender ← engine_call "dome.linked_objects[renderer]"
                     [AObject _ dome; AObject _ (renderer w)];
    texture_node ← engine_call
                     "dome_blender.data.materials[0].node_tree.nodes[Image Texture]"
                     [AObject _ dome_blender];
    filename ← engine_call "background_hdri.filename"
                 [AObject _ background_hdri];
    image ← engine_call "bpy.data.images.load" [AObject _ filename];
    engine_call "texture_node.image ="
      [AObject _ texture_node; AObject _ image];;
    mret (Some background_hdri)
  else
    bg_material ← config_get "bg_material";
    floor_material ← engine_call "kb.PrincipledBSDFMaterial"
                       [as_arg bg_material];
    seed ← config_get "seed";
    scale ← config_get "floor_scale";
    position ← config_get "floor_position";
    floor ← engine_call "kb.Cube"
              [AFormat _ "floor_{}" [as_arg seed]; AObject _ floor_material;
               as_arg scale; as_arg position; ABool _ true; ABool _ true];
    engine_call "scene +=" [AObject _ (scene w); AObject _ floor];;
    seed1 ← config_get "seed";
    seed2 ← config_get "seed";
    bg_texture ← config_get "bg_texture";
    engine_call "apply_texture"
      [AFormat _ "floor_{}" [as_arg seed1];
       AFormat _ "floor_material_{}" [as_arg seed2]; as_arg bg_texture];;
    mret None.

(** Lines 136-142: the lights. *)
Definition render_lights (w : session) (background_hdri : option (handle G))
  : RM unit :=
  lighting ← config_get "lighting";
  ambient ← equals lighting "ambient_hdri";
  if ambient : bool then
    hdri ← local "background_hdri" background_hdri;
    filename ← engine_call "background_hdri.filename" [AObject _ hdri];
    engine_call "renderer._set_ambient_light_hdri"
      [AObject _ (renderer w); AObject _ filename];;
    mret tt
  else
    sun_position ← config_get "sun_position";
    lights ← engine_call "get_scene_lights" [as_arg sun_position];
    engine_call "scene.add" [AObject _ (scene w); AObject _ lights];;
    ambient_illumination ← config_get "ambient_illumination";
    color ← engine_call "kb.Color"
              [as_arg ambient_illumination; as_arg ambient_illumination;
               as_arg ambient_illumination];
    engine_call "scene.ambient_illumination ="
      [AObject _ (scene w); AObject _ color];;
    mret tt.

(** Lines 149-198: one object; the result is its position. *)
Definition render_object (w : session) (i : nat) : RM (handle G) :=
  seed ← config_get "seed";
  let obj_name := AFormat _ "obj{}_{}" [AIndex _ i; as_arg seed] in
  asset_source ← config_get "asset_source";
  gso ← equals asset_source "GSO";
  shapes ← config_get "object_shapes";
  asset_id ← item shapes i;
  scales ← config_get "object_scales";
  scale ← item scales i;
  obj ← engine_call (if gso : bool then "gso_texmod.create" else "kubasic.create")
          [AObject _ (if gso : bool then gso_texmod w else kubasic w);
           asset_id; scale; obj_name];
  materials ← config_get "object_materials";
  material ← item materials i;
  obj_material ← engine_call "kb.PrincipledBSDFMaterial" [material];
  engine_call "obj.material =" [AObject _ obj; AObject _ obj_material];;
  engine_call "scene +=" [AObject _ (scene w); AObject _ obj];;
  textures ← config_get "object_textures";
  texture ← item textures i;
  engine_call "apply_texture"
    [obj_name; AFormat _ "{}_material" [obj_name]; texture];;
  quaternions ← config_get "object_quaternions";
  quaternion ← item quaternions i;
  engine_call "obj.quaternion =" [AObject _ obj; quaternion];;
  spawn_region ← config_get "spawn_region";
  engine_call "figure_out_overlap"
    [AObject _ obj; AObject _ (sim w); as_arg spawn_region;
     AObject _ (rng_obj w)];;
  engine_call "obj.position" [AObject _ obj].

(** Lines 145-198: [positions] grows by one per object. *)
Fixpoint render_objects (w : session) (indices : list nat)
    (positions : list (handle G)) : RM (list (handle G)) :=
  match indices with
  | [] => mret positions
  | i :: indices' =>
      position ← render_object w i;
      render_objects w indices' (positions ++ [position])
  end.

(** Lines 202-257: simulation, rendering and the work on the frame,
    one call for each source line. *)
Definition render_frame (w : session) : RM (handle G) :=
  engine_call "sim.run" [AObject _ (sim w)];;
  frame ← engine_call "renderer.render_still"
            [AObject _ (renderer w); AStr _ "rgba"; AStr _ "segmentation";
             AStr _ "object_coordinates"; AStr _ "normal"; AStr _ "depth"];
  engine_call "frame[grayscale] = frame[rgba]" [AObject _ frame];;
  engine_call "frame[grayscale] = rgb2gray(frame[grayscale]).astype(np.uint8)"
    [AObject _ frame];;
  engine_call "frame[segmentation] = frame[segmentation].astype(np.uint8)"
    [AObject _ frame];;
  engine_call "frame[segmentation] -= np.min(frame[segmentation])"
    [AObject _ frame];;
  engine_call "frame[object_coordinates] = get_array_from_png"
    [AObject _ frame;
     AFormat _ "{}/object_coordinates.png" [scratch_dir w]];;
  engine_call "frame[normal] = get_array_from_png"
    [AObject _ frame; AFormat _ "{}/normal.png" [scratch_dir w]];;
  min_value ← engine_call "np.min(frame[depth])" [AObject _ frame];
  max_value ← engine_call "np.max(frame[depth])" [AObject _ frame];
  engine_call
    "frame[depth] = (frame[depth] - min_value) * 65535 / (max_value - min_value)"
    [AObject _ frame; AObject _ min_value; AObject _ max_value];;
  engine_call "frame[depth] = frame[depth].astype(np.uint16)"
    [AObject _ frame];;
  engine_call "frame[depth] = get_array_from_png"
    [AObject _ frame; AFormat _ "{}/depth.png" [scratch_dir w]];;
  min_depth ← engine_call "min_value.item" [AObject _ min_value];
  max_depth ← engine_call "max_value.item" [AObject _ max_value];
  config_set "depth_scaling" (DepthScaling min_depth max_depth);;
  engine_call "kb.done" [];;
  engine_call "shutil.rmtree" [scratch_dir w];;
  engine_call "gc.collect" [];;
  mret frame.

(** [render_scene]: the frame returned; the [config] returned with it
    is the one in the final state. *)
Definition render_scene : RM (handle G) :=
  w ← render_open;
  render_camera w;;
  background_hdri ← render_world w;
  render_lights w background_hdri;;
  num_objects ← config_get "num_objects";
  indices ← range_of num_objects;
  positions ← render_objects w indices [];
  config_set "object_positions" (Positions positions);;
  render_frame w.

End RenderModel.

Arguments arg E H : clear implicits.
Arguments Engine E : clear implicits.
Arguments r_engine {E G} _.
Arguments r_config {E G} _.

(** The scene configuration as [render_scene] receives it: the dict of
    the list, read with the contents [sun] of the shared list. *)
Definition config_of {E} (G : Engine E) (sun : list Q)
    (d : gmap string (value E)) : gmap string (rvalue G) :=
  Sampled G <$> snapshot sun d.

(** [m] run from [s] raises only exceptions that [Err] allows, and
    returns only what [Post] allows. *)
Definition outcome {E} {G : Engine E} {A} (m : RM G A) (s : rstate G)
    (Err : render_exn → rstate G → Prop) (Post : A → rstate G → Prop)
  : Prop :=
  match m s with
  | (inl e, s') => Err e s'
  | (inr x, s') => Post x s'
  end.

(** An engine in which every call returns: the calls are counted and
    each returns its name and number. *)
Definition counting_engine (E : External) : Engine E := {|
  engine := nat;
  handle := string * nat;
  call := λ name args n, inr ((name, n), S n)
|}.

(** An exception that some call of the engine raised. *)
Definition raised_by_call {E} (G : Engine E) (e : render_exn) : Prop :=
  ∃ name args en msg, call G name args en = inl msg ∧ e = EngineError msg.

Definition every_call_returns {E} (G : Engine E) : Prop :=
  ∀ name args en, ∃ h en', call G name args en = inr (h, en').

(** What [render_scene] needs of a [config] to get through its own
    reads: the keys it reads on its path present, the three it
    branches on or counts with of the type it uses them at, and the
    per-object sequences as long as [num_objects]. *)
Record renderable {E} {G : Engine E} (C : gmap string (rvalue G))
    (hdri : bool) (lit : string) (n : Z) : Prop := {
  rd_seed : is_Some (C !! "seed");
  rd_resolution : is_Some (C !! "resolution");
  rd_camera_focal_length : is_Some (C !! "camera_focal_length");
  rd_camera_sensor_width : is_Some (C !! "camera_sensor_width");
  rd_camera_position : is_Some (C !! "camera_position");
  rd_camera_look_at : is_Some (C !! "camera_look_at");
  rd_hdri_world : C !! "hdri_world" = Some (Sampled G (VBool hdri));
  rd_hdri_id : hdri = true → is_Some (C !! "hdri_id");
  rd_floor_friction : hdri = true → is_Some (C !! "floor_friction");
  rd_floor_restitution : hdri = true → is_Some (C !! "floor_restitution");
  rd_bg_material : hdri = false → is_Some (C !! "bg_material");
  rd_floor_scale : hdri = false → is_Some (C !! "floor_scale");
  rd_floor_position : hdri = false → is_Some (C !! "floor_position");
  rd_bg_texture : hdri = false → is_Some (C !! "bg_texture");
  rd_lighting : C !! "lighting" = Some (Sampled G (VStr lit));
  rd_sun_position : lit ≠ "ambient_hdri" → is_Some (C !! "sun_position");
  rd_ambient_illumination :
    lit ≠ "ambient_hdri" → is_Some (C !! "ambient_illumination");
  rd_num_objects : C !! "num_objects" = Some (Sampled G (VInt n));
  rd_asset_source : ∃ s, C !! "asset_source" = Some (Sampled G (VStr s));
  rd_object_shapes :
    ∃ xs, C !! "object_shapes" = Some (Sampled G (VStrs xs)) ∧
          length xs = Z.to_nat n;
  rd_object_scales :
    ∃ xs, C !! "object_scales" = Some (Sampled G (VFloats xs)) ∧
          length xs = Z.to_nat n;
  rd_object_materials :
    ∃ xs, C !! "object_materials" = Some (Sampled G (VMaterials xs)) ∧
          length xs = Z.to_nat n;
  rd_object_textures :
    ∃ xs, C !! "object_textures" = Some (Sampled G (VTextures xs)) ∧
          length xs = Z.to_nat n;
  rd_object_quaternions :
    ∃ xs, C !! "object_quaternions" = Some (Sampled G (VQuaternions xs)) ∧
          length xs = Z.to_nat n;
  rd_spawn_region : is_Some (C !! "spawn_region")
}.

(** The keys [render_scene] names: those it reads and the two it
    assigns. *)
Definition render_keys : list string :=
  ["seed"; "resolution"; "camera_focal_length"; "camera_sensor_width";
   "camera_position"; "camera_look_at"; "hdri_world"; "hdri_id";
   "floor_friction"; "floor_restitution"; "bg_material"; "floor_scale";
   "floor_position"; "bg_texture"; "lighting"; "sun_position";
   "ambient_illumination"; "num_objects"; "asset_source"; "object_shapes";
   "object_scales"; "object_materials"; "object_textures";
   "object_quaternions"; "spawn_region"; "object_positions";
   "depth_scaling"].

(** The state with [config[k] = v] assigned beforehand. *)
Definition with_key {E} {G : Engine E} (k : string) (v : rvalue G)
    (s : rstate G) : rstate G :=
  {| r_engine := r_engine s; r_config := <[k := v]> (r_config s) |}.

(** Run from [s], [m] does not depend on the key [k]: whatever is
    assigned to [k] beforehand, the outcome and the engine are the
    same, and [k] holds that value afterwards. *)
Definition ignores_at {E} {G : Engine E} {A} (k : string) (m : RM G A)
    (s : rstate G) : Prop :=
  ∀ v, m (with_key k v s) = ((m s).1, with_key k v (m s).2).

(** [m] assigns to no key of [config] outside [K]. *)
Definition touches_only {E} {G : Engine E} {A} (K : list string)
    (m : RM G A) : Prop :=
  ∀ s k, k ∉ K → r_config (m s).2 !! k = r_config s !! k.

(** A call of the engine raised, with [config] still [C]. *)
Definition engine_raised {E} (G : Engine E) (C : gmap string (rvalue G))
  : render_exn → rstate G → Prop :=
  λ e s', raised_by_call G e ∧ r_config s' = C.

(** [m] neither reads nor changes the state. *)
Definition stateless {E} {G : Engine E} {A} (m : RM G A) : Prop :=
  ∃ r, ∀ s, m s = (r, s).

(** ** The stand-in meets the contracts *)

Module StandinFacts.
Import Standin.

Lemma unit_draw_range r : (0 <= unit_draw r)%Q ∧ (unit_draw r < 1)%Q.
Proof.
  unfold unit_draw, Qle, Qlt. simpl.
  pose proof (Z.mod_pos_bound r 16 eq_refl). lia.
Qed.

Lemma uniform_in_range lo hi r :
  (lo < hi)%Q → (lo <= (uniform lo hi r).1)%Q ∧ ((uniform lo hi r).1 < hi)%Q.
Proof.
  intros Hlt. simpl. destruct (unit_draw_range r) as [H0 H1].
  split; nra.
Qed.

Lemma draws_spec {A} (f : Z → A * Z) (P : A → Prop) n r :
  (∀ r, P (f r).1) →
  length (draws f n r).1 = n ∧ Forall P (draws f n r).1.
Proof.
  intros Hf. revert r. induction n as [|n IH]; intros r; simpl.
  - split; [done | constructor].
  - specialize (Hf r). destruct (f r) as [x r1].
    specialize (IH r1). destruct (draws f n r1) as [xs r2].
    simpl in *. destruct IH as [-> IH]. split; [done | by constructor].
Qed.

Lemma pick_in pop d r : d ∈ pop → (pick pop d r).1 ∈ pop.
Proof.
  intros Hd. unfold pick. simpl.
  destruct pop as [|x pop']; [by apply elem_of_nil in Hd|].
  apply list_elem_of_In, nth_In.
  pose proof (Z.mod_pos_bound r (Z.of_nat (length (x :: pop')))) as Hb.
  simpl length in *. lia.
Qed.

Lemma seeds_distinct en U n :
  Z.of_nat n ≤ U →
  NoDup ((λ i : nat, (en + Z.of_nat i) mod U) <$> seq 0 n).
Proof.
  intros Hn. apply NoDup_fmap_2_strong; [|apply NoDup_seq].
  intros i j Hi Hj Heq.
  apply elem_of_seq in Hi, Hj.
  assert (HU : 0 < U) by lia.
  pose proof (Z.div_mod (en + Z.of_nat i) U) as Di.
  pose proof (Z.div_mod (en + Z.of_nat j) U) as Dj.
  rewrite Heq in Di.
  assert (Z.of_nat i - Z.of_nat j =
          U * ((en + Z.of_nat i) / U - (en + Z.of_nat j) / U)) as Hd by lia.
  assert ((en + Z.of_nat i) / U - (en + Z.of_nat j) / U = 0) by nia.
  lia.
Qed.

Lemma env_numpy : numpy_contract env.
Proof.
  split; simpl.
  - apply uniform_in_range.
  - intros lo hi n r xs r'. unfold uniform_size.
    destruct (Z.ltb_spec n 0); [discriminate|]. intros [= Heq].
    pose proof (draws_spec (uniform lo hi) (λ _, True) (Z.to_nat n) r
                  (λ _, I)) as [Hlen _].
    rewrite Heq in Hlen. split; [lia|]. split; [done|].
    intros Hlt.
    pose proof (draws_spec (uniform lo hi)
                  (λ x, (lo <= x)%Q ∧ (x < hi)%Q) (Z.to_nat n) r
                  (λ r, uniform_in_range lo hi r Hlt)) as [_ HF].
    by rewrite Heq in HF.
  - intros lo hi r v r'. unfold randint.
    destruct (Z.ltb_spec lo hi); [|discriminate]. intros [= <- _].
    pose proof (Z.mod_pos_bound r (hi - lo)). lia.
  - intros pop r x r'. unfold choice.
    destruct pop as [|d pop']; [discriminate|]. intros [= <- _].
    exact (pick_in (d :: pop') d r (list_elem_of_here _ _)).
  - intros pop n r xs r'. unfold choice_size.
    destruct (Z.ltb_spec n 0); [discriminate|].
    destruct pop as [|d pop'].
    + destruct (Z.eqb_spec n 0); [|discriminate].
      intros [= <- _]. subst n. split; [lia|]. split; [done | constructor].
    + intros [= Heq].
      pose proof (draws_spec (pick (d :: pop') d) (λ x, x ∈ d :: pop')
                    (Z.to_nat n) r
                    (λ r, pick_in (d :: pop') d r (list_elem_of_here _ _)))
        as [Hlen HF].
      rewrite Heq in Hlen, HF. split; [lia|]. done.
  - intros en U N seeds. unfold choice_no_replace.
    destruct ((0 <=? N) && (N <=? U)) eqn:Hb;
      [|by repeat case_match].
    apply andb_prop in Hb as [H0%Z.leb_le HU%Z.leb_le]. intros [= <-].
    split; [done|]. split; [by rewrite length_fmap, length_seq|].
    split; [apply seeds_distinct; lia|].
    apply Forall_fmap, Forall_forall. intros i Hi. simpl.
    apply elem_of_seq in Hi. apply Z.mod_pos_bound. lia.
  - intros en U N [H0 HU]. unfold choice_no_replace.
    destruct (Z.leb_spec 0 N); [|lia].
    destruct (Z.leb_spec N U); [|lia]. simpl. eauto.
  - intros lo hi r e. unfold randint.
    destruct (lo <? hi); [discriminate|]. intros [= <-]. by eexists.
  - intros pop r e. unfold choice.
    destruct pop; [|discriminate]. intros [= <-]. by eexists.
  - intros en U N e. unfold choice_no_replace, fits_intp.
    destruct (_ && _); [discriminate|].
    destruct (Z.ltb_spec N (-9223372036854775808));
      destruct (Z.ltb_spec 9223372036854775807 N); simpl; try (intros; lia).
    destruct (N <? 0); intros [= <-] _; by eexists.
Qed.

Lemma env_texture : texture_contract env.
Proof. by intros kind r bg. Qed.

End StandinFacts.

(** ** Running the monad *)

Section Execution.
Context {E : External}.

Lemma M_bind_inr {A B} (m : M E A) (f : A → M E B) st y st' :
  (m ≫= f) st = inr (y, st') →
  ∃ x st1, m st = inr (x, st1) ∧ f x st1 = inr (y, st').
Proof.
  unfold mbind, M_bind. destruct (m st) as [e | [x st1]]; [discriminate|].
  eauto.
Qed.

Lemma M_bind_inl_inv {A B} (m : M E A) (f : A → M E B) st e :
  (m ≫= f) st = inl e →
  m st = inl e ∨ ∃ x st1, m st = inr (x, st1) ∧ f x st1 = inl e.
Proof.
  unfold mbind, M_bind. destruct (m st) as [e' | [x st1]]; [|by eauto].
  intros [= ->]. by left.
Qed.

Lemma setitem_inr k v (st : state E) x st' :
  setitem k v st = inr (x, st') →
  st_rng st' = st_rng st ∧ st_latents st' = <[k := v]> (st_latents st) ∧
  st_sun st' = st_sun st.
Proof. unfold setitem. by intros [= _ <-]. Qed.

Lemma sun_setitem_inr i q (st : state E) x st' :
  sun_setitem i q st = inr (x, st') →
  (i < length (st_sun st))%nat ∧
  st_rng st' = st_rng st ∧ st_latents st' = st_latents st ∧
  st_sun st' = <[i := q]> (st_sun st).
Proof.
  unfold sun_setitem.
  destruct (Nat.ltb_spec i (length (st_sun st))); [|discriminate].
  by intros [= _ <-].
Qed.

Lemma with_rng_inr {A} (f : rng E → A * rng E) st x st' :
  with_rng f st = inr (x, st') →
  f (st_rng st) = (x, st_rng st') ∧ st_latents st' = st_latents st ∧
  st_sun st' = st_sun st.
Proof.
  unfold with_rng. destruct (f (st_rng st)) as [y r]. by intros [= -> <-].
Qed.

Lemma with_rng_result_inr {A} (f : rng E → result (A * rng E)) st x st' :
  with_rng_result f st = inr (x, st') →
  f (st_rng st) = inr (x, st_rng st') ∧ st_latents st' = st_latents st ∧
  st_sun st' = st_sun st.
Proof.
  unfold with_rng_result.
  destruct (f (st_rng st)) as [e | [y r]]; [discriminate|].
  by intros [= -> <-].
Qed.

Lemma with_rng_result_inl {A} (f : rng E → result (A * rng E)) st e :
  with_rng_result f st = inl e → f (st_rng st) = inl e.
Proof.
  unfold with_rng_result.
  destruct (f (st_rng st)) as [e' | [y r]]; [|discriminate].
  by intros [= ->].
Qed.

Lemma mret_inr {A} (a x : A) (st st' : state E) :
  (mret a : M E A) st = inr (x, st') → x = a ∧ st' = st.
Proof. by intros [= -> ->]. Qed.

Lemma getitem_inr {A} (a : list A) k (st : state E) x st' :
  getitem a k st = inr (x, st') → a !! k = Some x ∧ st' = st.
Proof.
  unfold getitem. destruct (a !! k) as [y|]; [|discriminate].
  by intros [= -> ->].
Qed.

Lemma with_rng_inl {A} (f : rng E → A * rng E) st e :
  with_rng f st = inl e → False.
Proof. unfold with_rng. by destruct (f (st_rng st)). Qed.

Lemma sun_setitem_inl i q (st : state E) e :
  sun_setitem i q st = inl e → (length (st_sun st) ≤ i)%nat.
Proof.
  unfold sun_setitem.
  by destruct (Nat.ltb_spec i (length (st_sun st))).
Qed.

Lemma getitem_inl {A} (a : list A) k (st : state E) e :
  getitem a k st = inl e → a !! k = None.
Proof. unfold getitem. by destruct (a !! k). Qed.

Lemma raise_inl {A} (e e' : exn) (st : state E) :
  @raise E A e st = inl e' → e' = e.
Proof. by intros [= ->]. Qed.

(** A comprehension whose element computation leaves the dict and the
    shared list alone yields one element per index. *)
Lemma comprehension_inr {A B} (f : A → M E B) (P : B → Prop) ks :
  (∀ k st x st', f k st = inr (x, st') →
     P x ∧ st_latents st' = st_latents st ∧ st_sun st' = st_sun st) →
  ∀ st xs st', comprehension f ks st = inr (xs, st') →
  length xs = length ks ∧ Forall P xs ∧
  st_latents st' = st_latents st ∧ st_sun st' = st_sun st.
Proof.
  intros Hf. induction ks as [|k ks IH]; intros st xs st' H; simpl in H.
  - apply mret_inr in H as [-> ->]. by repeat split.
  - apply M_bind_inr in H as (x & st1 & Hx & H).
    apply M_bind_inr in H as (ys & st2 & Hys & H).
    apply mret_inr in H as [-> ->].
    apply Hf in Hx as (HP & Hl1 & Hs1).
    apply IH in Hys as (Hlen & HF & Hl2 & Hs2).
    simpl. repeat split; [by f_equal | by constructor | congruence..].
Qed.

(** An error of a comprehension is an error of one of its elements. *)
Lemma comprehension_inl {A B} (f : A → M E B) ks :
  ∀ st e, comprehension f ks st = inl e →
  ∃ k st1, k ∈ ks ∧ f k st1 = inl e.
Proof.
  induction ks as [|k ks IH]; intros st e H; simpl in H; [discriminate|].
  apply M_bind_inl_inv in H as [H | (x & st1 & Hx & H)].
  - exists k, st. split; [apply list_elem_of_here | done].
  - apply M_bind_inl_inv in H as [H | (ys & st2 & Hys & H)]; [|discriminate].
    apply IH in H as (k' & st' & Hin & H).
    exists k', st'. split; [by apply list_elem_of_further | done].
Qed.

End Execution.

(** Symbolic execution of a successful run [H : m st = inr (x, st')]. *)
Ltac exec_step H :=
  match type of H with
  | (_ ≫= _) _ = inr _ =>
      let x := fresh "x" in
      let st := fresh "st" in
      let H1 := fresh "Hstep" in
      apply M_bind_inr in H as (x & st & H1 & H); exec_step H1
  | setitem _ _ _ = inr _ => apply setitem_inr in H as (? & ? & ?)
  | sun_setitem _ _ _ = inr _ => apply sun_setitem_inr in H as (? & ? & ? & ?)
  | rng_uniform _ _ _ _ = inr _ => apply with_rng_inr in H as (H & ? & ?)
  | with_rng _ _ = inr _ => apply with_rng_inr in H as (H & ? & ?)
  | rng_uniform_size _ _ _ _ _ = inr _ =>
      apply with_rng_result_inr in H as (H & ? & ?)
  | rng_randint _ _ _ _ = inr _ => apply with_rng_result_inr in H as (H & ? & ?)
  | rng_choice _ _ _ = inr _ => apply with_rng_result_inr in H as (H & ? & ?)
  | rng_choice_size _ _ _ _ = inr _ =>
      apply with_rng_result_inr in H as (H & ? & ?)
  | with_rng_result _ _ = inr _ => apply with_rng_result_inr in H as (H & ? & ?)
  | getitem _ _ _ = inr _ => apply getitem_inr in H as (H & ?)
  | raise _ _ = inr _ => discriminate H
  | mret _ _ = inr _ => apply mret_inr in H as (? & ?)
  | _ => idtac
  end.

Ltac exec H := repeat (progress exec_step H).

(** Symbolic execution of every run in the context, failed ones too:
    a failed sequence failed at its first step or at a later one. *)
Ltac run :=
  repeat match goal with
         | H : _ = inr _ |- _ => progress exec_step H
         | H : (_ ≫= _) _ = inl _ |- _ =>
             apply M_bind_inl_inv in H as [H | (? & ? & ? & H)]
         | H : setitem _ _ _ = inl _ |- _ => discriminate H
         | H : mret _ _ = inl _ |- _ => discriminate H
         | H : rng_uniform _ _ _ _ = inl _ |- _ => by apply with_rng_inl in H
         | H : with_rng _ _ = inl _ |- _ => by apply with_rng_inl in H
         | H : raise _ _ = inl _ |- _ => apply raise_inl in H
         | H : sun_setitem _ _ _ = inl _ |- _ => apply sun_setitem_inl in H
         | H : getitem _ _ _ = inl _ |- _ => apply getitem_inl in H
         | H : rng_uniform_size _ _ _ _ _ = inl _ |- _ =>
             apply with_rng_result_inl in H
         | H : rng_randint _ _ _ _ = inl _ |- _ => apply with_rng_result_inl in H
         | H : rng_choice _ _ _ = inl _ |- _ => apply with_rng_result_inl in H
         | H : rng_choice_size _ _ _ _ = inl _ |- _ =>
             apply with_rng_result_inl in H
         | H : with_rng_result _ _ = inl _ |- _ => apply with_rng_result_inl in H
         end.

(** Replace every intermediate state by its three components. *)
Ltac flatten_states :=
  repeat match goal with
         | st : state _ |- _ => destruct st
         end;
  cbn [st_rng st_latents st_sun] in *; subst.

(** Turn every recorded draw into what the contract says of its value. *)
Ltac use_contract OK :=
  repeat match goal with
         | Hu : rs_uniform _ ?lo ?hi ?r = (_, _) |- _ =>
             let Hr := fresh "Hrange" in
             pose proof (uniform_range _ OK lo hi r eq_refl) as Hr;
             rewrite Hu in Hr; cbn [fst] in Hr; clear Hu
         | Hu : rs_uniform_size _ _ _ _ _ = inr _ |- _ =>
             apply (uniform_size_ok _ OK) in Hu as (? & ? & Hu);
             try specialize (Hu eq_refl)
         | Hu : rs_randint _ _ _ _ = inr _ |- _ =>
             apply (randint_ok _ OK) in Hu
         | Hu : rs_choice _ _ _ = inr _ |- _ =>
             apply (choice_ok _ OK) in Hu
         | Hu : rs_choice_size _ _ _ _ = inr _ |- _ =>
             apply (choice_size_ok _ OK) in Hu as (? & ? & Hu)
         end.

(** ** The phases of the loop body, when they return *)

Section Phases.
Context {E : External} (OK : numpy_contract E) (p : DatasetParameters).

Lemma get_hdri_id_inr (st : state E) id st' :
  get_hdri_id E st = inr (id, st') →
  (∃ hdri_ids, HDRI_haven_json E = inr hdri_ids ∧ id ∈ hdri_ids) ∧
  st_latents st' = st_latents st ∧ st_sun st' = st_sun st.
Proof.
  unfold get_hdri_id. destruct (HDRI_haven_json E) as [e | ids]; [discriminate|].
  intros H. exec H. use_contract OK. eauto.
Qed.

Lemma set_world_inr (st : state E) x st' :
  set_world E p st = inr (x, st') →
  ∃ w, world_ok p w ∧ st_latents st' = world_fields p w (st_latents st) ∧
       st_sun st' = st_sun st.
Proof.
  unfold set_world. intros H. exec H.
  destruct (hdri_world p) eqn:Hw.
  - exec H.
    match goal with
    | Hid : get_hdri_id _ _ = inr _ |- _ =>
        apply get_hdri_id_inr in Hid as (Hid & ? & ?)
    end.
    flatten_states. by eexists (HdriWorld _).
  - exec H. destruct (String.eqb_spec (background_type p) "artificial").
    + exec H. flatten_states. eexists (FloorWorld _ _). simpl. eauto.
    + destruct (String.eqb_spec (background_type p) "realistic"); exec H.
      flatten_states. eexists (FloorWorld _ _). simpl. eauto.
Qed.

Lemma set_lighting_inr (st : state E) x st' :
  set_lighting E p st = inr (x, st') →
  ∃ lt, light_ok p lt (st_sun st) (st_sun st') ∧
        st_latents st' = lighting_fields lt (st_latents st).
Proof.
  unfold set_lighting. intros H.
  destruct (String.eqb_spec (lighting p) "sun") as [Hsun|].
  - exec H. flatten_states. use_contract OK.
    rewrite length_insert in *.
    eexists (SunLit _). simpl. rewrite Hsun.
    split; [|reflexivity].
    split; [done|]. split; [tauto|]. split; [tauto|]. split; [lia|].
    eexists _, _. split; [reflexivity|]. by split.
  - destruct (String.eqb_spec (lighting p) "ambient_hdri") as [Ha|]; exec H.
    flatten_states. exists AmbientHdriLit. simpl. by rewrite Ha.
Qed.

Lemma set_camera_floor_inr (st : state E) x st' :
  set_camera_floor E p st = inr (x, st') →
  st_latents st' = camera_floor_fields p (st_latents st) ∧
  st_sun st' = st_sun st.
Proof.
  unfold set_camera_floor. intros H. exec H. by flatten_states.
Qed.

Lemma set_shapes_inr n (st : state E) x st' :
  set_shapes E p n st = inr (x, st') →
  ∃ shapes scales,
    st_latents st' =
      <["object_scales" := VFloats scales]>
        (<["object_shapes" := VStrs shapes]> (st_latents st)) ∧
    st_sun st' = st_sun st ∧
    length shapes = Z.to_nat n ∧ length scales = Z.to_nat n ∧ 0 ≤ n ∧
    ((asset_source p = "kubasic" ∧
      Forall (λ s, s ∈ KUBASIC_IDS) shapes ∧
      Forall (λ x, (0.6 <= x)%Q ∧ (x < 1.2)%Q) scales) ∨
     (asset_source p = "GSO" ∧
      Forall (λ s, s ∈ GSO_IDS E) shapes ∧
      Forall (λ x, (6.0 <= x)%Q ∧ (x < 10.0)%Q) scales)).
Proof.
  unfold set_shapes. intros H.
  destruct (String.eqb_spec (asset_source p) "kubasic") as [Hk|].
  - exec H. flatten_states. use_contract OK.
    eexists _, _. repeat split; [done.. | left]. auto.
  - destruct (String.eqb_spec (asset_source p) "GSO") as [Hg|]; exec H.
    flatten_states. use_contract OK.
    eexists _, _. repeat split; [done.. | right]. auto.
Qed.

Lemma quaternions_inr (axes : list string) (angles : list Q) ks
    (st : state E) xs st' :
  comprehension (λ k : nat,
      axis ← getitem axes k;
      angle ← getitem angles k;
      mret (get_quaternion E axis angle)) ks st = inr (xs, st') →
  length xs = length ks ∧
  st_latents st' = st_latents st ∧ st_sun st' = st_sun st.
Proof.
  intros H.
  apply (comprehension_inr _ (λ _, True)) in H as (? & _ & ? & ?); [done|].
  clear. intros k st x st' H. exec H. by subst.
Qed.

Lemma textures_inr ks (st : state E) xs st' :
  comprehension (λ _ : nat,
      kind ← rng_choice E TEXTURES;
      with_rng (λ r, get_texture E kind r false)) ks st = inr (xs, st') →
  length xs = length ks ∧
  Forall (λ t, ∃ kind r, kind ∈ TEXTURES ∧ t = (get_texture E kind r false).1) xs ∧
  st_latents st' = st_latents st ∧ st_sun st' = st_sun st.
Proof.
  apply comprehension_inr.
  clear ks st xs st'. intros _ st x st' H. exec H. use_contract OK.
  split; [|split; congruence].
  eexists _, _. split; [eassumption|]. by rewrite H.
Qed.

Lemma materials_inr ks (st : state E) xs st' :
  comprehension (λ _ : nat, with_rng (get_material E)) ks st = inr (xs, st') →
  length xs = length ks ∧
  st_latents st' = st_latents st ∧ st_sun st' = st_sun st.
Proof.
  intros H.
  apply (comprehension_inr _ (λ _, True)) in H as (? & _ & ? & ?); [done|].
  clear. intros k st x st' H. by exec H.
Qed.

Lemma length_range n : length (range n) = Z.to_nat n.
Proof. apply length_seq. Qed.

Lemma set_objects_inr (st : state E) x st' :
  set_objects E p st = inr (x, st') →
  ∃ o, objects_ok p o ∧ st_latents st' = object_fields p o (st_latents st) ∧
       st_sun st' = st_sun st.
Proof.
  unfold set_objects, set_object_properties. intros H. exec H.
  repeat match goal with
         | Hs : set_shapes _ _ _ _ = inr _ |- _ =>
             apply set_shapes_inr in Hs
               as (shapes & scales & ? & ? & ? & ? & ? & Hsource)
         | Hc : comprehension _ _ _ = inr _ |- _ =>
             first [ apply quaternions_inr in Hc as (? & ? & ?)
                   | apply textures_inr in Hc as (? & ? & ? & ?)
                   | apply materials_inr in Hc as (? & ? & ?) ]
         end.
  rewrite length_range in *.
  flatten_states. use_contract OK.
  eexists {| ob_num := _; ob_shapes := shapes; ob_scales := scales |}.
  split; [|split; [reflexivity | done]].
  split; simpl; try done; lia.
Qed.

(** The loop body as a whole. *)
Lemma sample_scene_inr seed sun d sun' :
  sample_scene E p seed sun = inr (d, sun') →
  ∃ w lt o, d = scene_dict p seed w lt o ∧
            world_ok p w ∧ light_ok p lt sun sun' ∧ objects_ok p o.
Proof.
  unfold sample_scene.
  destruct (scene_body _ _ _ _) as [e | [[] st']] eqn:H; [discriminate|].
  intros [= <- <-]. unfold scene_body in H. exec H.
  repeat match goal with
         | Hw : set_world _ _ _ = inr _ |- _ =>
             apply set_world_inr in Hw as (w & ? & ? & ?)
         | Hl : set_lighting _ _ _ = inr _ |- _ =>
             apply set_lighting_inr in Hl as (lt & ? & ?)
         | Hc : set_camera_floor _ _ _ = inr _ |- _ =>
             apply set_camera_floor_inr in Hc as (? & ?)
         end.
  apply set_objects_inr in H as (o & ? & ? & ?).
  flatten_states. by exists w, lt, o.
Qed.

End Phases.

(** ** The phases of the loop body, when they raise *)

Section Failures.
Context {E : External} (OK : numpy_contract E) (p : DatasetParameters).

Lemma is_ValueError_intro msg : is_ValueError (ValueError msg).
Proof. by exists msg. Qed.

Ltac value_error :=
  subst;
  first [ apply is_ValueError_intro
        | eapply (randint_raises E OK); eassumption
        | eapply (choice_raises E OK); eassumption ].

(** The world branch raises a [ValueError], or what reading the
    manifest raised. *)
Lemma set_world_inl (st : state E) e :
  set_world E p st = inl e → is_ValueError e ∨ raised_by_manifest E p e.
Proof.
  unfold set_world, raised_by_manifest. intros H. run.
  destruct (hdri_world p).
  - run. unfold get_hdri_id in H.
    destruct (HDRI_haven_json E) as [e' | ids]; run.
    + right. by subst.
    + left. value_error.
  - left. run. destruct (String.eqb (background_type p) "artificial").
    + run. value_error.
    + destruct (String.eqb (background_type p) "realistic"); run.
      value_error.
Qed.

Lemma set_lighting_inl (st : state E) e :
  set_lighting E p st = inl e → (2 ≤ length (st_sun st))%nat → is_ValueError e.
Proof.
  unfold set_lighting. intros H Hlen.
  destruct (String.eqb (lighting p) "sun").
  - run; flatten_states; try rewrite length_insert in *; lia.
  - destruct (String.eqb (lighting p) "ambient_hdri"); run. value_error.
Qed.

Lemma set_camera_floor_inl (st : state E) e :
  set_camera_floor E p st = inl e → False.
Proof. unfold set_camera_floor. intros H. run. Qed.

(** With an unknown asset source the branch on it raises at once. *)
Lemma set_shapes_unknown n (st : state E) :
  asset_source p ≠ "kubasic" → asset_source p ≠ "GSO" →
  ∃ msg, set_shapes E p n st = inl (ValueError msg).
Proof.
  intros Hk Hg. unfold set_shapes.
  destruct (String.eqb_spec (asset_source p) "kubasic"); [done|].
  destruct (String.eqb_spec (asset_source p) "GSO"); [done|].
  by eexists.
Qed.

(** The objects phase raises [ValueError] when it stops at the count
    or at the asset source, before any array is drawn. *)
Lemma set_objects_inl (st : state E) e :
  set_objects E p st = inl e →
  max_num_objects p < min_num_objects p ∨
  (asset_source p ≠ "kubasic" ∧ asset_source p ≠ "GSO") →
  is_ValueError e.
Proof.
  unfold set_objects. intros H Hc.
  apply M_bind_inl_inv in H as [H | (n & st1 & Hn & H)]; [run; value_error|].
  destruct Hc as [Hc | [Hk Hg]].
  { exfalso. exec_step Hn. use_contract OK. lia. }
  run;
    match goal with
    | Hs : set_shapes _ _ ?k ?s = _ |- _ =>
        destruct (set_shapes_unknown k s Hk Hg) as [msg Hm];
        rewrite Hm in Hs;
        first [injection Hs as <-; value_error | discriminate Hs]
    end.
Qed.

Lemma sample_scene_inl seed sun e :
  sample_scene E p seed sun = inl e →
  early_stop p → (2 ≤ length sun)%nat →
  is_ValueError e ∨ raised_by_manifest E p e.
Proof.
  unfold sample_scene. intros H Hearly Hlen.
  destruct (scene_body _ _ _ _) as [e' | [[] st']] eqn:Hb; [|discriminate].
  injection H as ->. unfold scene_body in Hb.
  run;
    try match goal with
        | Hf : set_world _ _ _ = inl _ |- _ => by apply set_world_inl in Hf
        | Hf : set_camera_floor _ _ _ = inl _ |- _ =>
            by apply set_camera_floor_inl in Hf
        end.
  - left.
    match goal with
    | Hw : set_world _ _ _ = inr _ |- _ =>
        apply (set_world_inr OK) in Hw as (w & _ & _ & Hs)
    end.
    eapply set_lighting_inl; [eassumption|].
    by flatten_states.
  - left.
    match goal with
    | Hl : set_lighting _ _ _ = inr _ |- _ =>
        apply (set_lighting_inr OK) in Hl as (lt & Hlt & _)
    end.
    eapply set_objects_inl; [eassumption|].
    destruct Hearly as [[Hs Ha] | Hearly]; [|done].
    exfalso. destruct lt; simpl in Hlt; destruct Hlt as [? _]; done.
Qed.

End Failures.

(** ** Validation and the loop over the seeds *)

Section Dataset.
Context {E : External} (OK : numpy_contract E) (p : DatasetParameters).

Lemma Qltb_false x y : Qltb x y = false ↔ (y <= x)%Q.
Proof.
  unfold Qltb. rewrite negb_false_iff. apply Qle_bool_iff.
Qed.

Lemma validate_inr u : validate p = inr u → validated p.
Proof.
  unfold validate.
  repeat match goal with
         | |- context [if ?c then _ else _] =>
             let Hc := fresh "Hc" in
             destruct c eqn:Hc; [discriminate|]
         end.
  intros _.
  repeat match goal with
         | Hc : negb _ = false |- _ => apply negb_false_iff in Hc
         | Hc : (_ =? _)%nat = true |- _ => apply Nat.eqb_eq in Hc
         | Hc : _ || _ = false |- _ => apply orb_false_iff in Hc as [? ?]
         | Hc : Qltb _ _ = false |- _ => apply Qltb_false in Hc
         end.
  split; try done.
  apply Forall_forall. intros sr Hsr.
  match goal with
  | Hc : forallb _ _ = true |- _ =>
      rewrite forallb_forall in Hc; apply Nat.eqb_eq, Hc
  end.
  by apply list_elem_of_In.
Qed.

Lemma validate_inl e : validate p = inl e → is_ValueError e.
Proof.
  unfold validate.
  repeat match goal with
         | |- context [if ?c then _ else _] =>
             destruct c; [intros [= <-]; by eexists|]
         end.
  discriminate.
Qed.

Lemma sample_scene_sun_length seed sun d sun' :
  sample_scene E p seed sun = inr (d, sun') → length sun' = length sun.
Proof.
  intros H. apply (sample_scene_inr OK) in H as (w & lt & o & _ & _ & Hlt & _).
  destruct lt; simpl in Hlt.
  - destruct Hlt as (_ & _ & _ & _ & x & y & -> & _).
    by rewrite !length_insert.
  - by destruct Hlt as [_ ->].
Qed.

(** Every dict of the list was returned by one run of the body on the
    seed at the same position. *)
Lemma scenes_loop_inr seeds : ∀ sun acc scenes sun',
  scenes_loop E p seeds sun acc = inr (scenes, sun') →
  ∃ new, scenes = acc ++ new ∧
         Forall2 (λ d seed, ∃ s0 s1, sample_scene E p seed s0 = inr (d, s1))
                 new seeds.
Proof.
  induction seeds as [|seed seeds IH]; intros sun acc scenes sun' H; simpl in H.
  - injection H as <- <-. exists []. by rewrite app_nil_r.
  - unfold mbind, result_bind in H.
    destruct (sample_scene E p seed sun) as [e | [d s1]] eqn:Hs; [discriminate|].
    apply IH in H as (new & -> & HF).
    exists (d :: new). rewrite <- app_assoc. split; [done|].
    constructor; eauto.
Qed.

Lemma scenes_loop_inl seeds : ∀ sun acc e,
  scenes_loop E p seeds sun acc = inl e →
  early_stop p → (2 ≤ length sun)%nat →
  is_ValueError e ∨ raised_by_manifest E p e.
Proof.
  induction seeds as [|seed seeds IH]; intros sun acc e H Hm Hlen; simpl in H;
    [discriminate|].
  unfold mbind, result_bind in H.
  destruct (sample_scene E p seed sun) as [e' | [d s1]] eqn:Hs.
  - injection H as <-. by eapply sample_scene_inl.
  - apply sample_scene_sun_length in Hs. eapply IH; [done.. | lia].
Qed.

(** A loop over at least one seed fails when the body always does. *)
Lemma scenes_loop_fails seed seeds sun acc :
  (∀ s, ∃ e, sample_scene E p seed s = inl e) →
  ∃ e, scenes_loop E p (seed :: seeds) sun acc = inl e.
Proof.
  intros Hf. destruct (Hf sun) as [e He]. exists e.
  simpl. unfold mbind, result_bind. by rewrite He.
Qed.

Lemma latent_dataset_inr en scenes sun' :
  latent_dataset E p en = inr (scenes, sun') →
  validated p ∧
  ∃ seeds, seed_generation E en (num_scenes p) = inr seeds ∧
           Forall2 (λ d seed, ∃ s0 s1, sample_scene E p seed s0 = inr (d, s1))
                   scenes seeds.
Proof.
  unfold latent_dataset, mbind, result_bind.
  destruct (validate p) as [e | u] eqn:Hv; [discriminate|].
  destruct (seed_generation E en (num_scenes p)) as [e | seeds]; [discriminate|].
  intros H. split; [by eapply validate_inr|].
  apply scenes_loop_inr in H as (new & -> & HF). eauto.
Qed.

Lemma latent_dataset_generated en scenes sun' :
  latent_dataset E p en = inr (scenes, sun') → Forall (generated E p) scenes.
Proof.
  intros H. apply latent_dataset_inr in H as (_ & seeds & _ & HF).
  induction HF as [|d seed ds ss (s0 & s1 & Hd) _ IH]; constructor; [|done].
  by exists seed, s0, s1.
Qed.

Lemma latent_dataset_inl en e :
  latent_dataset E p en = inl e →
  early_stop p → fits_intp (num_scenes p) →
  is_ValueError e ∨ raised_by_manifest E p e.
Proof.
  unfold latent_dataset, mbind, result_bind. intros H Hm Hfit.
  destruct (validate p) as [e' | u] eqn:Hv.
  - injection H as <-. left. by apply validate_inl.
  - destruct (seed_generation E en (num_scenes p)) as [e' | seeds] eqn:Hg.
    + injection H as <-. left. by apply (seeds_raises E OK) in Hg.
    + apply scenes_loop_inl in H; [done..|].
      apply validate_inr in Hv.
      rewrite (sun_position_length p Hv). lia.
Qed.

(** With at least one scene requested, a body that always fails makes
    the call fail. *)
Lemma latent_dataset_fails en :
  1 ≤ num_scenes p →
  (∀ seed s, ∃ e, sample_scene E p seed s = inl e) →
  ∃ e, latent_dataset E p en = inl e.
Proof.
  intros HN Hf. unfold latent_dataset, mbind, result_bind.
  destruct (validate p) as [e | u]; [by eauto|].
  destruct (seed_generation E en (num_scenes p)) as [e | seeds] eqn:Hg;
    [by eauto|].
  apply (seeds_ok E OK) in Hg as (_ & Hlen & _).
  destruct seeds as [|seed seeds]; [simpl in Hlen; lia|].
  apply scenes_loop_fails. auto.
Qed.

End Dataset.

(** ** Properties of the generated scene configurations *)

Section Lookups.
Context {E : External} (p : DatasetParameters).

(** The keys of a finished dict are literal strings: a lookup in
    [scene_dict] evaluates. *)
Lemma scene_dict_generated (OK : numpy_contract E) d :
  generated E p d →
  ∃ seed w lt o, d = scene_dict p seed w lt o ∧
                 world_ok p w ∧ objects_ok p o ∧
                 match lt with
                 | SunLit a => lighting p = "sun" ∧ (0.4 <= a)%Q ∧ (a < 0.7)%Q
                 | AmbientHdriLit => lighting p = "ambient_hdri"
                 end.
Proof.
  intros (seed & sun & sun' & H).
  apply (sample_scene_inr OK) in H as (w & lt & o & -> & Hw & Hlt & Ho).
  exists seed, w, lt, o.
  split; [done|]. split; [done|]. split; [done|].
  destruct lt; unfold light_ok in Hlt; tauto.
Qed.

Lemma returns_generated seed sun :
  returns (sample_scene E p seed sun) = true →
  ∃ d sun', sample_scene E p seed sun = inr (d, sun') ∧ generated E p d ∧
            ∀ k, d !! k = field k (sample_scene E p seed sun).
Proof.
  destruct (sample_scene E p seed sun) as [e | [d sun']] eqn:Hd; [discriminate|].
  intros _. exists d, sun'. split; [done|]. split; [|done].
  by exists seed, sun, sun'.
Qed.

End Lookups.

(** C4. In every generated scene configuration: [hdri_world] true
    implies [hdri_id] is a string (non-null) and the keys [bg_material],
    [bg_texture] are absent; [hdri_world] false implies [hdri_id] is
    [None] and both keys are present; [lighting] "sun" implies
    [sun_position] is the (non-null) position list and
    [ambient_illumination] is a number in [0.4, 0.7]; [lighting]
    "ambient_hdri" implies both are [None]. *)
Theorem C4_mutual_exclusivity (E : External) (OK : numpy_contract E)
    (p : DatasetParameters) (d : gmap string (value E)) :
  generated E p d →
  (d !! "hdri_world" = Some (VBool true) →
     (∃ id, d !! "hdri_id" = Some (VStr id)) ∧
     d !! "bg_material" = None ∧ d !! "bg_texture" = None) ∧
  (d !! "hdri_world" = Some (VBool false) →
     d !! "hdri_id" = Some VNone ∧
     (∃ m, d !! "bg_material" = Some (VMaterial m)) ∧
     (∃ t, d !! "bg_texture" = Some (VTexture t))) ∧
  (d !! "lighting" = Some (VStr "sun") →
     d !! "sun_position" = Some VSunRef ∧
     ∃ a : Q, d !! "ambient_illumination" = Some (VFloat a) ∧
          (0.4 <= a)%Q ∧ (a <= 0.7)%Q) ∧
  (d !! "lighting" = Some (VStr "ambient_hdri") →
     d !! "sun_position" = Some VNone ∧
     d !! "ambient_illumination" = Some VNone) ∧
  d !! "hdri_world" = Some (VBool (hdri_world p)) ∧
  d !! "lighting" = Some (VStr (lighting p)).
Proof.
  intros Hd.
  apply (scene_dict_generated p OK) in Hd
    as (seed & w & lt & o & -> & Hw & _ & Hlt).
  destruct w as [id | m t], lt as [a|]; simpl in Hw; destruct Hw as [Hhw Hw];
    split_and!;
    try (intros H; vm_compute in H; discriminate H); intros;
    split_and?;
    try reflexivity;
    try (by eexists);
    try (rewrite Hhw; reflexivity);
    try (rewrite (proj1 Hlt); reflexivity);
    try (rewrite Hlt; reflexivity).
  all: exists a; split; [reflexivity|]; split; [tauto|].
  all: apply Qlt_le_weak; tauto.
Qed.

Lemma C4_witness :
  numpy_contract Standin.env ∧
  ∃ d, generated Standin.env Examples.two_scenes d ∧
       d !! "hdri_id" = Some VNone ∧
       d !! "sun_position" = Some VSunRef ∧
       ∃ a : Q, d !! "ambient_illumination" = Some (VFloat a) ∧
            (0.4 <= a)%Q ∧ (a <= 0.7)%Q.
Proof.
  split; [exact StandinFacts.env_numpy|].
  destruct (returns_generated (E:=Standin.env) Examples.two_scenes 5
              [0.0; 0.0; 7.0]%Q) as (d & sun' & _ & Hg & _);
    [vm_compute; reflexivity|].
  exists d. split; [exact Hg|].
  destruct (C4_mutual_exclusivity Standin.env StandinFacts.env_numpy
              Examples.two_scenes d Hg) as (_ & Hfloor & Hsun & _ & Hw & Hl).
  split; [exact (proj1 (Hfloor Hw))|]. exact (Hsun Hl).
Defined.




(** C7.  In every generated scene configuration [num_objects] is an
    integer between [min_num_objects] and [max_num_objects] inclusive,
    and each of [object_shapes], [object_scales],
    [object_angles_of_rotation], [object_axes_of_rotation],
    [object_quaternions], [object_textures] and [object_materials] has
    exactly [num_objects] entries. *)
Theorem C7_object_counts (E : External) (OK : numpy_contract E)
    (p : DatasetParameters) (d : gmap string (value E)) :
  generated E p d →
  ∃ n, d !! "num_objects" = Some (VInt n) ∧
       min_num_objects p ≤ n ≤ max_num_objects p ∧
       (∃ xs, d !! "object_shapes" = Some (VStrs xs) ∧
              Z.of_nat (length xs) = n) ∧
       (∃ xs, d !! "object_scales" = Some (VFloats xs) ∧
              Z.of_nat (length xs) = n) ∧
       (∃ xs, d !! "object_angles_of_rotation" = Some (VFloats xs) ∧
              Z.of_nat (length xs) = n) ∧
       (∃ xs, d !! "object_axes_of_rotation" = Some (VStrs xs) ∧
              Z.of_nat (length xs) = n) ∧
       (∃ xs, d !! "object_quaternions" = Some (VQuaternions xs) ∧
              Z.of_nat (length xs) = n) ∧
       (∃ xs, d !! "object_textures" = Some (VTextures xs) ∧
              Z.of_nat (length xs) = n) ∧
       (∃ xs, d !! "object_materials" = Some (VMaterials xs) ∧
              Z.of_nat (length xs) = n).
Proof.
  intros Hd.
  apply (scene_dict_generated p OK) in Hd
    as (seed & w & lt & o & -> & _ & Ho & _).
  destruct Ho. exists (ob_num o).
  destruct w, lt;
    (split; [reflexivity|]); (split; [done|]);
    split_and!; eexists; (split; [reflexivity | lia]).
Qed.

Lemma C7_witness :
  numpy_contract Standin.env ∧
  ∃ d, generated Standin.env Examples.two_scenes d ∧
       ∃ n, d !! "num_objects" = Some (VInt n) ∧ 3 ≤ n ≤ 6 ∧
            ∃ xs, d !! "object_textures" = Some (VTextures xs) ∧
                  Z.of_nat (length xs) = n.
Proof.
  split; [exact StandinFacts.env_numpy|].
  destruct (returns_generated (E:=Standin.env) Examples.two_scenes 5
              [0.0; 0.0; 7.0]%Q) as (d & sun' & _ & Hg & _);
    [vm_compute; reflexivity|].
  exists d. split; [exact Hg|].
  destruct (C7_object_counts Standin.env StandinFacts.env_numpy
              Examples.two_scenes d Hg)
    as (n & Hn & Hrange & _ & _ & _ & _ & _ & Htex & _).
  exists n. split; [exact Hn|]. split; [exact Hrange | exact Htex].
Defined.

Lemma IMAGE_not_in_TEXTURES : "IMAGE" ∉ TEXTURES.
Proof.
  unfold TEXTURES. intros H.
  repeat (apply elem_of_cons in H as [H | H]; [discriminate H|]).
  by apply elem_of_nil in H.
Qed.

(** C10.  In every generated scene configuration, whatever
    [background_type] and [asset_source] are, each entry of
    [object_textures] is a texture requested with a kind drawn from the
    palette [TEXTURES] (NONE, CLOUDS, DISTORTED_NOISE, MAGIC, MARBLE,
    MUSGRAVE, STUCCI, VORONOI, WOOD), never with the kind IMAGE; so, the
    texture record carrying the kind requested, the kind of every
    per-object texture lies in the palette and is not IMAGE. *)
Theorem C10_object_texture_palette (E : External) (OK : numpy_contract E)
    (p : DatasetParameters) (d : gmap string (value E)) :
  generated E p d →
  ∃ ts, d !! "object_textures" = Some (VTextures ts) ∧
        Forall (λ t, ∃ kind r, kind ∈ TEXTURES ∧ kind ≠ "IMAGE" ∧
                               t = (get_texture E kind r false).1) ts ∧
        (texture_contract E →
         Forall (λ t, texture_kind E t ∈ TEXTURES ∧ texture_kind E t ≠ "IMAGE")
                ts).
Proof.
  intros Hd.
  apply (scene_dict_generated p OK) in Hd
    as (seed & w & lt & o & -> & _ & Ho & _).
  exists (ob_textures o). split; [by destruct w, lt|].
  pose proof (textures_drawn p o Ho) as Hdrawn.
  split.
  - eapply Forall_impl; [exact Hdrawn|].
    intros t (kind & r & Hin & ->). exists kind, r.
    split; [done|]. split; [|done].
    intros ->. by apply IMAGE_not_in_TEXTURES.
  - intros TK. eapply Forall_impl; [exact Hdrawn|].
    intros t (kind & r & Hin & ->). rewrite TK. split; [done|].
    intros ->. by apply IMAGE_not_in_TEXTURES.
Qed.

Lemma C10_witness :
  numpy_contract Standin.env ∧ texture_contract Standin.env ∧
  ∃ d, generated Standin.env Examples.two_scenes d ∧
       ∃ ts, d !! "object_textures" = Some (VTextures ts) ∧
             Forall (λ t, texture_kind Standin.env t ∈ TEXTURES ∧
                          texture_kind Standin.env t ≠ "IMAGE") ts.
Proof.
  split; [exact StandinFacts.env_numpy|].
  split; [exact StandinFacts.env_texture|].
  destruct (returns_generated (E:=Standin.env) Examples.two_scenes 5
              [0.0; 0.0; 7.0]%Q) as (d & sun' & _ & Hg & _);
    [vm_compute; reflexivity|].
  exists d. split; [exact Hg|].
  destruct (C10_object_texture_palette Standin.env StandinFacts.env_numpy
              Examples.two_scenes d Hg) as (ts & Hts & _ & Hkinds).
  exists ts. split; [exact Hts | exact (Hkinds StandinFacts.env_texture)].
Defined.

(** ** Validation *)

Lemma validated_validate (p : DatasetParameters) :
  validated p → validate p = inr tt.
Proof.
  intros [Hres Hsp Hcorners Hsun Hcam Hlook Hscale Hpos [Hf1 Hf0] [Hr1 Hr0]].
  unfold validate.
  rewrite Hres, Hsp, Hsun, Hcam, Hlook, Hscale, Hpos, Hf1, Hf0, Hr1, Hr0.
  simpl.
  assert (forallb (λ sr : list Q, (length sr =? 3)%nat) (spawn_region p) = true)
    as ->.
  { apply forallb_forall. intros sr Hsr. apply Nat.eqb_eq.
    rewrite Forall_forall in Hcorners. by apply Hcorners, list_elem_of_In. }
  reflexivity.
Qed.

(** Each parameter check that fails stops the call: when [resolution]
    has length other than 2, or [spawn_region] is not two points of
    length 3, or one of [sun_position], [camera_position],
    [camera_look_at], [floor_position], [floor_scale] has length other
    than 3, or [floor_friction] or [floor_restitution] is greater than
    1.0 or less than 0.0, the dataset call raises the [ValueError] of
    the checks, whatever seed generation and sampling would have done:
    the checks run first and nothing is returned. *)
Lemma checks_reject (p : DatasetParameters) :
  (length (resolution p) ≠ 2%nat ∨
   ¬ (length (spawn_region p) = 2%nat ∧
      Forall (λ sr, length sr = 3%nat) (spawn_region p)) ∨
   length (sun_position p) ≠ 3%nat ∨
   length (camera_position p) ≠ 3%nat ∨
   length (camera_look_at p) ≠ 3%nat ∨
   length (floor_position p) ≠ 3%nat ∨
   length (floor_scale p) ≠ 3%nat ∨
   ¬ range_checked (floor_friction p) ∨
   ¬ range_checked (floor_restitution p)) →
  ∃ msg, validate p = inl (ValueError msg) ∧
         ∀ (E : External) (en : entropy E),
           latent_dataset E p en = inl (ValueError msg).
Proof.
  intros Hbad.
  destruct (validate p) as [e | u] eqn:Hv.
  - destruct (validate_inl p e Hv) as [msg ->]. exists msg.
    split; [done|]. intros E en.
    unfold latent_dataset, mbind, result_bind. by rewrite Hv.
  - apply validate_inr in Hv as [].
    exfalso. destruct Hbad as [?|[?|[?|[?|[?|[?|[?|[?|?]]]]]]]]; tauto.
Qed.

(** The two range checks let through the numbers of [0, 1] and NaN,
    and nothing else. *)
Lemma range_checked_cases (x : pyfloat) :
  range_checked x ↔ x = NaN ∨ in_unit_interval x.
Proof.
  unfold range_checked, in_unit_interval, float_gt.
  destruct x as [q | | |]; simpl.
  - rewrite !Qltb_false. split.
    + intros [H1 H0]. right. exists q. split; [done|]. split; lra.
    + intros [? | (q' & [= <-] & H0 & H1)]; [discriminate | split; lra].
  - split; [by intros [? _] | intros [? | (? & ? & _)]; discriminate].
  - split; [by intros [_ ?] | intros [? | (? & ? & _)]; discriminate].
  - split; [by left | done].
Qed.

(** A call whose [floor_friction] is NaN returns its scene
    configurations, with NaN stored in each. *)
Lemma nan_friction_returns :
  ∃ scenes sun',
    latent_dataset Standin.env Examples.nan_friction 5
      = inr (scenes, sun') ∧
    length scenes = 2%nat ∧
    Forall (λ d, d !! "floor_friction" = Some (VFloat NaN)) scenes.
Proof.
  destruct (latent_dataset Standin.env Examples.nan_friction 5)
    as [e | [scenes sun']] eqn:Hd.
  - exfalso.
    assert (returns (latent_dataset Standin.env Examples.nan_friction 5)
            = true) as Hr by (vm_compute; reflexivity).
    rewrite Hd in Hr. discriminate Hr.
  - exists scenes, sun'. split; [reflexivity|]. split.
    { assert (scene_count
                (latent_dataset Standin.env Examples.nan_friction 5)
              = 2%nat) as Hc by (vm_compute; reflexivity).
      rewrite Hd in Hc. exact Hc. }
    pose proof (latent_dataset_generated (E:=Standin.env)
                  Examples.nan_friction 5 scenes sun' Hd) as Hgen.
    eapply Forall_impl; [exact Hgen|].
    intros d Hg.
    apply (scene_dict_generated Examples.nan_friction
             StandinFacts.env_numpy) in Hg
      as (seed & w & lt & o & -> & _).
    by destruct w, lt.
Qed.

(** C9.  The claim holds for the lengths and for every
    [floor_friction] and [floor_restitution] that is greater than 1.0
    or less than 0.0, infinities included: the call raises the
    [ValueError] of the checks (the specification's
    InvalidParameterError) before seed generation.  It fails for NaN:
    [x > 1.0 or x < 0.0] is false there, so a [floor_friction] that is
    not in [0, 1] passes the checks written to keep it "between 0.0 and
    1.0", and the call returns its scene configurations with NaN
    stored in them. *)
Theorem C9_nan_passes_the_range_check :
  (∀ p : DatasetParameters,
     (length (resolution p) ≠ 2%nat ∨
      ¬ (length (spawn_region p) = 2%nat ∧
         Forall (λ sr, length sr = 3%nat) (spawn_region p)) ∨
      length (sun_position p) ≠ 3%nat ∨
      length (camera_position p) ≠ 3%nat ∨
      length (camera_look_at p) ≠ 3%nat ∨
      length (floor_position p) ≠ 3%nat ∨
      length (floor_scale p) ≠ 3%nat ∨
      (floor_friction p ≠ NaN ∧ ¬ in_unit_interval (floor_friction p)) ∨
      (floor_restitution p ≠ NaN ∧
       ¬ in_unit_interval (floor_restitution p))) →
     ∃ msg, validate p = inl (ValueError msg) ∧
            ∀ (E : External) (en : entropy E),
              latent_dataset E p en = inl (ValueError msg)) ∧
  (floor_friction Examples.nan_friction = NaN ∧
   ¬ in_unit_interval (floor_friction Examples.nan_friction) ∧
   validate Examples.nan_friction = inr tt ∧
   ∃ scenes sun',
     latent_dataset Standin.env Examples.nan_friction 5
       = inr (scenes, sun') ∧
     length scenes = 2%nat ∧
     Forall (λ d, d !! "floor_friction" = Some (VFloat NaN)) scenes).
Proof.
  split.
  - intros p Hbad. apply checks_reject.
    repeat (destruct Hbad as [? | Hbad]; [tauto|]).
    destruct Hbad as [[Hn Hu] | [Hn Hu]]; [do 7 right; left | do 8 right];
      rewrite range_checked_cases; tauto.
  - split; [reflexivity|]. split.
    { intros (q & Hq & _). discriminate Hq. }
    split; [reflexivity|]. exact nan_friction_returns.
Qed.

(** ** Seeds *)

Lemma seed_carried {E : External} (OK : numpy_contract E)
    (p : DatasetParameters) seed s0 d s1 :
  sample_scene E p seed s0 = inr (d, s1) → d !! "seed" = Some (VInt seed).
Proof.
  intros H. apply (sample_scene_inr OK) in H as (w & lt & o & -> & _).
  by destruct w, lt.
Qed.

(** C2.  For a requested scene count N between 0 and 2147483647 the
    seed generation step returns N pairwise distinct integers, each in
    [0, 2147483647); and when the call returns, the i-th scene
    configuration carries the i-th of these seeds under the key seed. *)
Theorem C2_seeds (E : External) (OK : numpy_contract E)
    (p : DatasetParameters) (en : entropy E) :
  (0 ≤ num_scenes p ≤ 2147483647 →
   ∃ seeds, seed_generation E en (num_scenes p) = inr seeds ∧
            Z.of_nat (length seeds) = num_scenes p ∧ NoDup seeds ∧
            Forall (λ s, 0 ≤ s < 2147483647) seeds) ∧
  (∀ scenes sun', latent_dataset E p en = inr (scenes, sun') →
   ∃ seeds, seed_generation E en (num_scenes p) = inr seeds ∧
            Z.of_nat (length seeds) = num_scenes p ∧ NoDup seeds ∧
            Forall (λ s, 0 ≤ s < 2147483647) seeds ∧
            Forall2 (λ d s, d !! "seed" = Some (VInt s)) scenes seeds).
Proof.
  split.
  - intros HN. destruct (seeds_total E OK en _ _ HN) as [seeds Hs].
    exists seeds. split; [exact Hs|].
    apply (seeds_ok E OK) in Hs as (? & ? & ? & ?).
    split; [lia|]. by split.
  - intros scenes sun' H.
    apply latent_dataset_inr in H as (_ & seeds & Hs & HF).
    exists seeds. split; [exact Hs|].
    apply (seeds_ok E OK) in Hs as (? & ? & ? & ?).
    split; [lia|]. split; [done|]. split; [done|].
    eapply Forall2_impl; [exact HF|].
    intros d s (s0 & s1 & Hd). by eapply seed_carried.
Qed.

Lemma C2_witness :
  numpy_contract Standin.env ∧
  ∃ seeds, seed_generation Standin.env 5 2 = inr seeds ∧
           Z.of_nat (length seeds) = 2 ∧ NoDup seeds ∧
           Forall (λ s, 0 ≤ s < 2147483647) seeds.
Proof.
  split; [exact StandinFacts.env_numpy|].
  apply (proj1 (C2_seeds Standin.env StandinFacts.env_numpy
                  Examples.two_scenes 5)).
  simpl. lia.
Defined.

(** ** Ranges *)

(** The loop body returns nothing when [lighting] is neither "sun" nor
    "ambient_hdri", when [min_num_objects] exceeds [max_num_objects],
    and when [asset_source] is neither "kubasic" nor "GSO". *)
Lemma sample_scene_stops {E : External} (OK : numpy_contract E)
    (p : DatasetParameters) seed sun :
  early_stop p → ∃ e, sample_scene E p seed sun = inl e.
Proof.
  intros Hearly.
  destruct (sample_scene E p seed sun) as [e | [d sun']] eqn:H; [by eauto|].
  apply (sample_scene_inr OK) in H as (w & lt & o & _ & _ & Hlt & Ho).
  destruct Hearly as [[Hs Ha] | [Hc | [Hk Hg]]].
  - destruct lt; simpl in Hlt; tauto.
  - pose proof (num_range p o Ho). lia.
  - destruct (source_cases p o Ho) as [[? _] | [? _]]; done.
Qed.

(** A call that requests at least one scene and whose loop body stops
    early raises: a [ValueError], or what reading the manifest raised. *)
Lemma latent_dataset_raises {E : External} (OK : numpy_contract E)
    (p : DatasetParameters) (en : entropy E) :
  1 ≤ num_scenes p → fits_intp (num_scenes p) → early_stop p →
  ∃ e, latent_dataset E p en = inl e ∧
       (is_ValueError e ∨ raised_by_manifest E p e).
Proof.
  intros HN Hfit Hearly.
  destruct (latent_dataset_fails OK p en HN) as [e He].
  { intros seed s. by apply sample_scene_stops. }
  exists e. split; [exact He|]. by eapply latent_dataset_inl.
Qed.

Lemma latent_dataset_raises_ValueError {E : External} (OK : numpy_contract E)
    (p : DatasetParameters) (en : entropy E) :
  1 ≤ num_scenes p → fits_intp (num_scenes p) → early_stop p →
  manifest_available E p →
  ∃ msg, latent_dataset E p en = inl (ValueError msg).
Proof.
  intros HN Hfit Hearly Hm.
  destruct (latent_dataset_raises OK p en HN Hfit Hearly)
    as (e & He & [[msg ->] | [Hh Hr]]); [by eauto|].
  destruct Hm as [Hm | [ids Hm]]; congruence.
Qed.




(** C3, for the checks the code makes.  The parameter checks look at
    the lengths of the list arguments and reject a [floor_friction] or
    [floor_restitution] greater than 1.0 or less than 0.0, and that is
    all: they compare neither the corners of [spawn_region] nor
    [min_num_objects] with [max_num_objects].  When [min_num_objects]
    exceeds [max_num_objects] the loop body cannot return a scene
    configuration, and a call that requests at least one scene raises
    [ValueError] and returns no list. *)
Theorem C3_range_fields (E : External) (OK : numpy_contract E)
    (p : DatasetParameters) (en : entropy E) :
  (validate p = inr tt ↔ validated p) ∧
  (max_num_objects p < min_num_objects p →
     (∀ seed sun, ∃ e, sample_scene E p seed sun = inl e) ∧
     (1 ≤ num_scenes p → fits_intp (num_scenes p) →
      manifest_available E p →
        ∃ msg, latent_dataset E p en = inl (ValueError msg))).
Proof.
  split.
  - split; [apply validate_inr | apply validated_validate].
  - intros Hlt.
    assert (early_stop p) as Hearly by (right; by left).
    split.
    + intros seed sun. by apply sample_scene_stops.
    + intros HN Hfit Hm. by apply latent_dataset_raises_ValueError.
Qed.

Lemma C3_witness :
  numpy_contract Standin.env ∧
  validate Examples.inverted_counts = inr tt ∧
  ∃ msg, latent_dataset Standin.env Examples.inverted_counts 5
         = inl (ValueError msg).
Proof.
  split; [exact StandinFacts.env_numpy|].
  split; [reflexivity|].
  apply (proj2 (C3_range_fields Standin.env StandinFacts.env_numpy
                  Examples.inverted_counts 5)).
  - simpl. lia.
  - simpl. lia.
  - unfold fits_intp. simpl. lia.
  - by left.
Defined.

(** C3 as stated fails: with the corners of the spawn region exchanged
    the checks pass and the call returns its two scene configurations;
    with [min_num_objects] above [max_num_objects] the checks pass too. *)
Lemma C3_counterexample :
  spawn_region Examples.inverted_region
    = [[2.5; 3.0; 1.5]; [-2.5; -3.0; 0.2]]%Q ∧
  validate Examples.inverted_region = inr tt ∧
  (∃ scenes sun',
     latent_dataset Standin.env Examples.inverted_region 5
       = inr (scenes, sun') ∧ length scenes = 2%nat) ∧
  (max_num_objects Examples.inverted_counts
     < min_num_objects Examples.inverted_counts ∧
   validate Examples.inverted_counts = inr tt).
Proof.
  split; [reflexivity|]. split; [reflexivity|]. split; [|by split].
  destruct (latent_dataset Standin.env Examples.inverted_region 5)
    as [e | [scenes sun']] eqn:Hd.
  - exfalso.
    assert (returns (latent_dataset Standin.env Examples.inverted_region 5)
            = true) as Hr by (vm_compute; reflexivity).
    rewrite Hd in Hr. discriminate Hr.
  - exists scenes, sun'. split; [reflexivity|].
    assert (scene_count (latent_dataset Standin.env Examples.inverted_region 5)
            = 2%nat) as Hc by (vm_compute; reflexivity).
    rewrite Hd in Hc. exact Hc.
Qed.

(** ** The shared [sun_position] list *)

(** With sun lighting every dict of the returned list refers to the one
    list object, so after the call they all show the same position:
    the contents the last scene left. *)
Lemma sun_position_aliased {E : External} (OK : numpy_contract E)
    (p : DatasetParameters) (en : entropy E) scenes sun' :
  latent_dataset E p en = inr (scenes, sun') → lighting p = "sun" →
  Forall (λ d, d !! "sun_position" = Some VSunRef ∧
               snapshot sun' d !! "sun_position" = Some (VFloats sun'))
         scenes.
Proof.
  intros H Hsun.
  apply latent_dataset_generated in H.
  eapply Forall_impl; [exact H|]. intros d Hd. simpl.
  apply (scene_dict_generated p OK) in Hd
    as (seed & w & lt & o & -> & _ & _ & Hlt).
  unfold snapshot. rewrite lookup_fmap.
  destruct lt as [a|]; [|rewrite Hsun in Hlt; discriminate Hlt].
  by destruct w.
Qed.

(** C5, evaluated on a call with two scenes and sun lighting.  The
    scenes have seeds 5 and 6.  Sampled on its own, the scene of seed 5
    draws x = 0 and y = -14/16 for the sun.  In the list the call
    returns, both dicts hold the same list object as [sun_position], and
    that list holds 10/16 and -12/16, the draws of seed 6: the first
    scene configuration does not carry the components drawn for it. *)
Lemma C5_sun_position_shared :
  ∃ d0 d1 sun',
    latent_dataset Standin.env Examples.two_scenes 5 = inr ([d0; d1], sun') ∧
    d0 !! "seed" = Some (VInt 5) ∧ d1 !! "seed" = Some (VInt 6) ∧
    d0 !! "sun_position" = Some VSunRef ∧
    d1 !! "sun_position" = Some VSunRef ∧
    final_sun (sample_scene Standin.env Examples.two_scenes 5
                 [0.0; 0.0; 7.0]%Q) = [0 # 16; -14 # 16; 7.0]%Q ∧
    final_sun (sample_scene Standin.env Examples.two_scenes 6
                 [0.0; 0.0; 7.0]%Q) = [10 # 16; -12 # 16; 7.0]%Q ∧
    sun' = [10 # 16; -12 # 16; 7.0]%Q ∧
    snapshot sun' d0 !! "sun_position"
      = Some (VFloats [10 # 16; -12 # 16; 7.0]%Q).
Proof.
  pose (r := latent_dataset Standin.env Examples.two_scenes 5).
  assert (returns r = true) as Hr by (vm_compute; reflexivity).
  assert (scene_count r = 2%nat) as Hc by (vm_compute; reflexivity).
  assert (scene_field 0 "seed" r = Some (VInt 5)) as Hs0 by reflexivity.
  assert (scene_field 1 "seed" r = Some (VInt 6)) as Hs1 by reflexivity.
  assert (scene_field 0 "sun_position" r = Some VSunRef) as Hp0 by reflexivity.
  assert (scene_field 1 "sun_position" r = Some VSunRef) as Hp1 by reflexivity.
  assert (final_sun r = [10 # 16; -12 # 16; 7.0]%Q) as Hf
    by (vm_compute; reflexivity).
  fold r. destruct r as [e | [scenes sun']]; [discriminate Hr|].
  destruct scenes as [|d0 [|d1 [|d2 scenes]]]; try discriminate Hc.
  simpl in Hs0, Hs1, Hp0, Hp1, Hf.
  exists d0, d1, sun'. split; [reflexivity|].
  split; [exact Hs0|]. split; [exact Hs1|].
  split; [exact Hp0|]. split; [exact Hp1|].
  split; [vm_compute; reflexivity|]. split; [vm_compute; reflexivity|].
  split; [exact Hf|].
  unfold snapshot. by rewrite lookup_fmap, Hp0, Hf.
Qed.

(** The other half of the lighting branch: a [lighting] that is neither
    "sun" nor "ambient_hdri" yields no scene configuration, and a call
    that requests at least one scene raises [ValueError]. *)
Lemma sample_scene_unknown_lighting {E : External} (OK : numpy_contract E)
    (p : DatasetParameters) seed sun :
  lighting p ≠ "sun" → lighting p ≠ "ambient_hdri" →
  ∃ e, sample_scene E p seed sun = inl e.
Proof.
  intros Hs Ha. apply (sample_scene_stops OK). left. by split.
Qed.

Lemma latent_dataset_unknown_lighting {E : External} (OK : numpy_contract E)
    (p : DatasetParameters) (en : entropy E) :
  lighting p ≠ "sun" → lighting p ≠ "ambient_hdri" →
  1 ≤ num_scenes p → fits_intp (num_scenes p) → manifest_available E p →
  ∃ msg, latent_dataset E p en = inl (ValueError msg).
Proof.
  intros Hs Ha HN Hfit Hm. apply latent_dataset_raises_ValueError; try done.
  left. by split.
Qed.

Example moonlight_raises :
  latent_dataset Standin.env Examples.moonlight 5
  = inl (ValueError
           "Invalid lighting type: lighting can be either 'sun' or 'ambient_hdri'").
Proof. reflexivity. Qed.

(** ** Determinism of the loop body *)

Section Lockstep.
Context {E : External}.

Lemma lockstep_mret {A} (x : A) : lockstep (mret x : M E A).
Proof. by intros st1 st2 Hsim. Qed.

Lemma lockstep_raise {A} (e : exn) : lockstep (@raise E A e).
Proof. by intros st1 st2 Hsim. Qed.

Lemma lockstep_bind {A B} (m : M E A) (f : A → M E B) :
  lockstep m → (∀ x, lockstep (f x)) → lockstep (m ≫= f).
Proof.
  intros Hm Hf st1 st2 Hsim. specialize (Hm st1 st2 Hsim).
  unfold mbind, M_bind.
  destruct (m st1) as [e1 | [x1 st1']], (m st2) as [e2 | [x2 st2']];
    try done.
  destruct Hm as [<- Hsim']. by apply Hf.
Qed.

Lemma lockstep_setitem k (v : value E) :
  v ≠ VSunRef → lockstep (setitem k v).
Proof.
  intros Hv st1 st2 [Hr Hl Hs Href]. unfold setitem. split; [done|].
  split; simpl; [done | by rewrite Hl | done |].
  destruct Href as [? | Href]; [by left | right].
  by apply map_Forall_insert_2.
Qed.

Lemma lockstep_with_rng {A} (f : rng E → A * rng E) : lockstep (with_rng f).
Proof.
  intros st1 st2 [Hr Hl Hs Href]. unfold with_rng. rewrite <- Hr.
  destruct (f (st_rng st1)) as [x r]. split; [done|]. by split.
Qed.

Lemma lockstep_with_rng_result {A} (f : rng E → result (A * rng E)) :
  lockstep (with_rng_result f).
Proof.
  intros st1 st2 [Hr Hl Hs Href]. unfold with_rng_result. rewrite <- Hr.
  destruct (f (st_rng st1)) as [e | [x r]]; [done|]. split; [done|]. by split.
Qed.

Lemma lockstep_getitem {A} (a : list A) k : lockstep (@getitem E A a k).
Proof.
  intros st1 st2 Hsim. unfold getitem. by destruct (a !! k).
Qed.

Lemma lockstep_comprehension {A B} (f : A → M E B) ks :
  (∀ k, lockstep (f k)) → lockstep (comprehension f ks).
Proof.
  intros Hf. induction ks as [|k ks IH]; simpl.
  - apply lockstep_mret.
  - apply lockstep_bind; [apply Hf|]. intros x.
    apply lockstep_bind; [apply IH|]. intros xs. apply lockstep_mret.
Qed.

End Lockstep.

(** Decompose a computation into the steps above. *)
Ltac lockstep_steps :=
  repeat first
    [ apply lockstep_bind; [|intros ?]
    | apply lockstep_setitem; discriminate
    | apply lockstep_with_rng
    | apply lockstep_with_rng_result
    | apply lockstep_getitem
    | apply lockstep_mret
    | apply lockstep_raise
    | apply lockstep_comprehension; intros ?
    | match goal with
      | |- lockstep (if ?c then _ else _) => destruct c
      | |- lockstep (match ?o with inl _ => _ | inr _ => _ end) => destruct o
      end ].

Section LockstepBody.
Context {E : External} (p : DatasetParameters).

Lemma lockstep_set_world : lockstep (set_world E p).
Proof. unfold set_world, get_hdri_id, rng_choice. lockstep_steps. Qed.

Lemma lockstep_set_camera_floor : lockstep (set_camera_floor E p).
Proof. unfold set_camera_floor. lockstep_steps. Qed.

Lemma lockstep_set_objects : lockstep (set_objects E p).
Proof.
  unfold set_objects, set_shapes, set_object_properties, rng_randint,
    rng_choice_size, rng_uniform_size, rng_choice.
  lockstep_steps.
Qed.

Lemma insert_xy_agree (x y : Q) s1 s2 :
  agree_beyond_xy s1 s2 →
  <[1%nat := y]> (<[0%nat := x]> s1) = <[1%nat := y]> (<[0%nat := x]> s2).
Proof.
  intros (H1 & H2 & Hd).
  destruct s1 as [|a1 [|b1 s1]], s2 as [|a2 [|b2 s2]]; simpl in *; try lia.
  assert (s1 = s2) as -> by exact Hd. reflexivity.
Qed.

(** The sun branch assigns x and y before anything reads the list. *)
Lemma lockstep_set_lighting : lockstep (set_lighting E p).
Proof.
  unfold set_lighting.
  destruct (String.eqb (lighting p) "sun"); [|lockstep_steps].
  intros st1 st2 [Hr Hl Hs Href].
  pose proof Hs as (Hlen1 & Hlen2 & Hdrop).
  unfold mbind, M_bind, setitem, rng_uniform, with_rng, sun_setitem.
  cbn [st_rng st_latents st_sun]. rewrite <- Hr, <- Hl.
  destruct (rs_uniform E (-1) 1 (st_rng st1)) as [x r1].
  cbn [st_rng st_latents st_sun].
  rewrite !(proj2 (Nat.ltb_lt 0 _)) by lia.
  cbn [st_rng st_latents st_sun].
  destruct (rs_uniform E (-1) 1 r1) as [y r2].
  cbn [st_rng st_latents st_sun].
  rewrite !(proj2 (Nat.ltb_lt 1 _)) by (rewrite length_insert; lia).
  cbn [st_rng st_latents st_sun].
  destruct (rs_uniform E 0.4 0.7 r2) as [a r3].
  cbn [st_rng st_latents st_sun].
  split; [done|].
  pose proof (insert_xy_agree x y _ _ Hs) as Heq.
  split; cbn [st_rng st_latents st_sun]; [done | done | | by left].
  rewrite Heq. repeat split; rewrite !length_insert; lia.
Qed.

Lemma lockstep_scene_body seed : lockstep (scene_body E p seed).
Proof.
  unfold scene_body.
  repeat match goal with
         | |- lockstep (set_world _ _) => apply lockstep_set_world
         | |- lockstep (set_lighting _ _) => apply lockstep_set_lighting
         | |- lockstep (set_camera_floor _ _) => apply lockstep_set_camera_floor
         | |- lockstep (set_objects _ _) => apply lockstep_set_objects
         | |- lockstep (setitem _ _) => apply lockstep_setitem; discriminate
         | |- lockstep (_ ≫= _) => apply lockstep_bind; [|intros ?]
         end.
Qed.

Lemma snapshot_ref_free (sun : list Q) (d : gmap string (value E)) :
  ref_free d → snapshot sun d = d.
Proof.
  intros Hd. apply map_eq. intros k. unfold snapshot. rewrite lookup_fmap.
  destruct (d !! k) as [v|] eqn:Hk; [|done]. simpl. f_equal.
  specialize (Hd k v Hk). simpl in Hd. by destruct v.
Qed.

Lemma similar_snapshot (st1 st2 : state E) :
  similar st1 st2 →
  snapshot (st_sun st1) (st_latents st1) = snapshot (st_sun st2) (st_latents st2).
Proof.
  intros [Hr Hl Hs [Heq | Href]].
  - by rewrite Heq, Hl.
  - rewrite snapshot_ref_free by done.
    rewrite snapshot_ref_free by (by rewrite <- Hl). done.
Qed.

(** The scene observed depends on the shared list only through what
    lies beyond x and y. *)
Lemma scene_value_agree seed sun1 sun2 :
  agree_beyond_xy sun1 sun2 →
  scene_value E p seed sun1 = scene_value E p seed sun2.
Proof.
  intros Hs. unfold scene_value, sample_scene, mbind, result_bind.
  pose proof (lockstep_scene_body seed
    {| st_rng := RandomState E seed; st_latents := ∅; st_sun := sun1 |}
    {| st_rng := RandomState E seed; st_latents := ∅; st_sun := sun2 |})
    as H.
  destruct (scene_body _ _ _ _) as [e1 | [[] st1]],
           (scene_body _ _ _ _) as [e2 | [[] st2]].
  - f_equal. apply H. split; simpl; [done | done | done | right].
    apply map_Forall_empty.
  - exfalso. apply H. split; simpl; [done | done | done | right].
    apply map_Forall_empty.
  - exfalso. apply H. split; simpl; [done | done | done | right].
    apply map_Forall_empty.
  - simpl. f_equal. apply similar_snapshot, H.
    split; simpl; [done | done | done | right]. apply map_Forall_empty.
Qed.

End LockstepBody.

(** At the moment its sampling returns, a scene is a function of the
    seed, the parameters and the registries in [E]: the only state an
    invocation inherits is the contents of the [sun_position] list,
    whose x and y it overwrites before anything reads them. *)
Lemma scene_at_return_independent_of_list (E : External)
    (p : DatasetParameters) (seed : Z) (sun1 sun2 : list Q) :
  length sun1 = 3%nat → length sun2 = 3%nat → sun1 !! 2%nat = sun2 !! 2%nat →
  scene_value E p seed sun1 = scene_value E p seed sun2.
Proof.
  intros H1 H2 Hz. apply scene_value_agree.
  destruct sun1 as [|x1 [|y1 [|z1 [|]]]]; try discriminate H1.
  destruct sun2 as [|x2 [|y2 [|z2 [|]]]]; try discriminate H2.
  simpl in Hz. injection Hz as ->.
  repeat split; simpl; lia.
Qed.

(** C1, evaluated on two calls with two scenes and sun lighting, the
    same parameters in both.  The first call draws the seeds 4 and 5,
    the second the seeds 5 and 6.  The scene of seed 5 is sampled with
    the same seed and the same parameters in both calls, but the scene
    configurations the two calls deliver for it differ: in the first
    call its [sun_position] reads 0, -14/16 (its own draws, it being
    the last scene), in the second 10/16, -12/16 (the draws of seed 6,
    made into the same list afterwards). *)
Theorem C1_same_seed_two_configurations :
  ∃ a0 a1 sunA b0 b1 sunB,
    latent_dataset Standin.env Examples.two_scenes 4 = inr ([a0; a1], sunA) ∧
    latent_dataset Standin.env Examples.two_scenes 5 = inr ([b0; b1], sunB) ∧
    a1 !! "seed" = Some (VInt 5) ∧ b0 !! "seed" = Some (VInt 5) ∧
    snapshot sunA a1 !! "sun_position"
      = Some (VFloats [0 # 16; -14 # 16; 7.0]%Q) ∧
    snapshot sunB b0 !! "sun_position"
      = Some (VFloats [10 # 16; -12 # 16; 7.0]%Q) ∧
    snapshot sunA a1 ≠ snapshot sunB b0.
Proof.
  pose (rA := latent_dataset Standin.env Examples.two_scenes 4).
  pose (rB := latent_dataset Standin.env Examples.two_scenes 5).
  assert (returns rA = true) as HrA by (vm_compute; reflexivity).
  assert (returns rB = true) as HrB by (vm_compute; reflexivity).
  assert (scene_count rA = 2%nat) as HcA by (vm_compute; reflexivity).
  assert (scene_count rB = 2%nat) as HcB by (vm_compute; reflexivity).
  assert (scene_field 1 "seed" rA = Some (VInt 5)) as HsA by reflexivity.
  assert (scene_field 0 "seed" rB = Some (VInt 5)) as HsB by reflexivity.
  assert (scene_field 1 "sun_position" rA = Some VSunRef) as HpA
    by reflexivity.
  assert (scene_field 0 "sun_position" rB = Some VSunRef) as HpB
    by reflexivity.
  assert (final_sun rA = [0 # 16; -14 # 16; 7.0]%Q) as HfA
    by (vm_compute; reflexivity).
  assert (final_sun rB = [10 # 16; -12 # 16; 7.0]%Q) as HfB
    by (vm_compute; reflexivity).
  fold rA rB.
  destruct rA as [e | [scenesA sunA]]; [discriminate HrA|].
  destruct rB as [e | [scenesB sunB]]; [discriminate HrB|].
  destruct scenesA as [|a0 [|a1 [|a2 scenesA]]]; try discriminate HcA.
  destruct scenesB as [|b0 [|b1 [|b2 scenesB]]]; try discriminate HcB.
  simpl in HsA, HsB, HpA, HpB, HfA, HfB.
  assert (snapshot sunA a1 !! "sun_position"
          = Some (VFloats [0 # 16; -14 # 16; 7.0]%Q)) as HA
    by (unfold snapshot; by rewrite lookup_fmap, HpA, HfA).
  assert (snapshot sunB b0 !! "sun_position"
          = Some (VFloats [10 # 16; -12 # 16; 7.0]%Q)) as HB
    by (unfold snapshot; by rewrite lookup_fmap, HpB, HfB).
  exists a0, a1, sunA, b0, b1, sunB.
  split; [reflexivity|]. split; [reflexivity|].
  split; [exact HsA|]. split; [exact HsB|].
  split; [exact HA|]. split; [exact HB|].
  intros Heq. rewrite Heq, HB in HA. discriminate HA.
Qed.

(** * Further properties of the sampler *)

(** ** The phases of a run that returned *)

Section Decomposition.
Context {E : External} (p : DatasetParameters).

Lemma sample_scene_phases seed sun d sun' :
  sample_scene E p seed sun = inr (d, sun') →
  ∃ x1 st1 x2 st2 x3 st3 x4 st4,
    set_world E p (seeded_state E p seed sun) = inr (x1, st1) ∧
    set_lighting E p st1 = inr (x2, st2) ∧
    set_camera_floor E p st2 = inr (x3, st3) ∧
    set_objects E p st3 = inr (x4, st4) ∧
    d = st_latents st4 ∧ sun' = st_sun st4.
Proof.
  unfold sample_scene.
  destruct (scene_body _ _ _ _) as [e | [[] st']] eqn:H; [discriminate|].
  intros [= <- <-]. unfold scene_body in H. exec H.
  flatten_states. unfold seeded_state, base_fields.
  do 8 eexists.
  split; [eassumption|]. split; [eassumption|]. split; [eassumption|].
  split; [eassumption|]. split; reflexivity.
Qed.

End Decomposition.

Lemma env_with_manifest_numpy m : numpy_contract (env_with_manifest m).
Proof. destruct StandinFacts.env_numpy. by split. Qed.

(** ** The scene count *)

(** With no scene requested, a call whose list arguments pass the checks
    returns the empty list and leaves [sun_position] as it was:
    [lighting], [background_type], [asset_source] and the object-count
    range are looked at only when a scene is sampled. *)
Theorem no_scenes_no_sampling (E : External) (OK : numpy_contract E)
    (p : DatasetParameters) (en : entropy E) :
  num_scenes p = 0 → validated p →
  latent_dataset E p en = inr ([], sun_position p).
Proof.
  intros HN Hv. unfold latent_dataset, mbind, result_bind.
  rewrite (validated_validate p Hv), HN.
  destruct (seeds_total E OK en 2147483647 0) as [seeds Hs]; [lia|].
  unfold seed_generation. rewrite Hs.
  apply (seeds_ok E OK) in Hs as (_ & Hlen & _).
  by destruct seeds.
Qed.

Lemma no_scenes_no_sampling_witness :
  lighting MoreExamples.no_scenes = "moonlight" ∧
  asset_source MoreExamples.no_scenes = "primitives" ∧
  latent_dataset Standin.env MoreExamples.no_scenes 5
  = inr ([], [0.0; 0.0; 7.0]%Q).
Proof.
  split; [reflexivity|]. split; [reflexivity|].
  apply (no_scenes_no_sampling Standin.env StandinFacts.env_numpy
           MoreExamples.no_scenes 5).
  - reflexivity.
  - by apply (validate_inr MoreExamples.no_scenes tt).
Defined.

Lemma distinct_seeds_bounded (U : Z) (seeds : list Z) :
  NoDup seeds → Forall (λ s, 0 ≤ s < U) seeds →
  (length seeds ≤ Z.to_nat U)%nat.
Proof.
  intros Hnd HF. rewrite Forall_forall in HF.
  assert (length (Z.to_nat <$> seeds) ≤ length (seq 0 (Z.to_nat U)))%nat
    as Hle.
  { apply submseteq_length, NoDup_submseteq.
    - apply NoDup_fmap_2_strong; [|done].
      intros x y Hx Hy Heq. apply HF in Hx, Hy. lia.
    - intros n Hn. apply list_elem_of_fmap in Hn as (s & -> & Hs).
      apply HF in Hs. apply elem_of_seq. lia. }
  by rewrite length_fmap, length_seq in Hle.
Qed.

(** A negative scene count, or one above 2147483647, stops the call at
    the seed draw once the parameter checks have passed: no seed list
    of that size exists, the draw raises [ValueError] (for a count that
    fits a C long; a larger one overflows), and that exception is what
    the call raises, no scene having been sampled. *)
Theorem scene_count_out_of_range (E : External) (OK : numpy_contract E)
    (p : DatasetParameters) (en : entropy E) :
  validated p → fits_intp (num_scenes p) →
  num_scenes p < 0 ∨ 2147483647 < num_scenes p →
  ∃ msg,
    gen_choice_no_replace E en 2147483647 (num_scenes p)
    = inl (ValueError msg) ∧
    latent_dataset E p en = inl (ValueError msg).
Proof.
  intros Hv Hfit HN. unfold latent_dataset, mbind, result_bind.
  rewrite (validated_validate p Hv). unfold seed_generation.
  destruct (gen_choice_no_replace E en 2147483647 (num_scenes p))
    as [e | seeds] eqn:Hs.
  - destruct (seeds_raises E OK _ _ _ _ Hs Hfit) as [msg ->]. eauto.
  - exfalso. apply (seeds_ok E OK) in Hs as (H0 & Hlen & Hnd & HF).
    pose proof (distinct_seeds_bounded _ _ Hnd HF). lia.
Qed.

Lemma scene_count_out_of_range_witness :
  num_scenes MoreExamples.negative_count = -1 ∧
  ∃ msg,
    gen_choice_no_replace Standin.env 5 2147483647 (-1)
    = inl (ValueError msg) ∧
    latent_dataset Standin.env MoreExamples.negative_count 5
    = inl (ValueError msg).
Proof.
  split; [reflexivity|].
  apply (scene_count_out_of_range Standin.env StandinFacts.env_numpy
           MoreExamples.negative_count 5).
  - by apply (validate_inr MoreExamples.negative_count tt).
  - unfold fits_intp. simpl. lia.
  - left. simpl. lia.
Defined.

(** ** The HDRI manifest *)



(** ** Exceptions that stop the first scene *)

Section Exceptions.
Context {E : External} (p : DatasetParameters).

Lemma sample_scene_manifest_raises seed sun e :
  hdri_world p = true → HDRI_haven_json E = inl e →
  sample_scene E p seed sun = inl e.
Proof.
  intros Hh Hm.
  unfold sample_scene, scene_body, set_world, get_hdri_id, mbind, M_bind,
    setitem.
  by rewrite Hh, Hm.
Qed.

Lemma sample_scene_unknown_background seed sun :
  hdri_world p = false →
  background_type p ≠ "artificial" → background_type p ≠ "realistic" →
  sample_scene E p seed sun
  = inl (ValueError
           "Invalid background type: background_type can be either 'artificial' or 'realistic'").
Proof.
  intros Hh Ha Hr.
  apply String.eqb_neq in Ha, Hr.
  unfold sample_scene, scene_body, set_world, mbind, M_bind, setitem, with_rng.
  rewrite Hh. cbn [st_rng st_latents st_sun].
  destruct (get_material E (RandomState E seed)) as [m r].
  by rewrite Ha, Hr.
Qed.

(** When the body raises the same exception whatever the seed and the
    list, a call past the checks that requests a scene raises it. *)
Lemma latent_dataset_first_scene (OK : numpy_contract E) (en : entropy E) e :
  validated p → 1 ≤ num_scenes p ≤ 2147483647 →
  (∀ seed sun, sample_scene E p seed sun = inl e) →
  latent_dataset E p en = inl e.
Proof.
  intros Hv HN Hf. unfold latent_dataset, mbind, result_bind.
  rewrite (validated_validate p Hv).
  destruct (seeds_total E OK en 2147483647 (num_scenes p)) as [seeds Hs];
    [lia|].
  unfold seed_generation. rewrite Hs.
  apply (seeds_ok E OK) in Hs as (_ & Hlen & _).
  destruct seeds as [|seed seeds]; [simpl in Hlen; lia|].
  simpl. unfold mbind, result_bind. by rewrite Hf.
Qed.

End Exceptions.

(** In an HDRI world the manifest is read for every scene and nothing
    catches what reading it raises: whatever the class of the
    exception (the file missing, no "assets" in it, ...), the loop
    body raises it for every seed before anything is drawn, and so
    does every call past the checks that requests a scene. *)
Theorem manifest_exception_propagates (E : External) (OK : numpy_contract E)
    (p : DatasetParameters) (en : entropy E) (e : exn) :
  hdri_world p = true → HDRI_haven_json E = inl e →
  (∀ seed sun, sample_scene E p seed sun = inl e) ∧
  (validated p → 1 ≤ num_scenes p ≤ 2147483647 →
   latent_dataset E p en = inl e).
Proof.
  intros Hh Hm. split.
  - intros seed sun. by apply sample_scene_manifest_raises.
  - intros Hv HN. apply latent_dataset_first_scene; try done.
    intros seed sun. by apply sample_scene_manifest_raises.
Qed.

Lemma manifest_exception_propagates_witness :
  numpy_contract
    (env_with_manifest (inl (FileNotFoundError "HDRI_haven.json"))) ∧
  latent_dataset
    (env_with_manifest (inl (FileNotFoundError "HDRI_haven.json")))
    Examples.hdri_scenes 5
  = inl (FileNotFoundError "HDRI_haven.json").
Proof.
  split; [exact (env_with_manifest_numpy _)|].
  apply (proj2 (manifest_exception_propagates
                  (env_with_manifest
                     (inl (FileNotFoundError "HDRI_haven.json")))
                  (env_with_manifest_numpy _) Examples.hdri_scenes 5
                  (FileNotFoundError "HDRI_haven.json")
                  eq_refl eq_refl)).
  - by apply (validate_inr Examples.hdri_scenes tt).
  - simpl. lia.
Defined.

(** On a textured floor ([hdri_world] false) a [background_type] other
    than "artificial" and "realistic" is the first thing that can go
    wrong: the loop body raises exactly this [ValueError] for every seed,
    and so does every call past the checks that requests a scene,
    whatever [lighting] and [asset_source] are. *)
Theorem unknown_background_type (E : External) (OK : numpy_contract E)
    (p : DatasetParameters) (en : entropy E) :
  hdri_world p = false →
  background_type p ≠ "artificial" → background_type p ≠ "realistic" →
  (∀ seed sun,
     sample_scene E p seed sun
     = inl (ValueError
              "Invalid background type: background_type can be either 'artificial' or 'realistic'")) ∧
  (validated p → 1 ≤ num_scenes p ≤ 2147483647 →
   latent_dataset E p en
   = inl (ValueError
            "Invalid background type: background_type can be either 'artificial' or 'realistic'")).
Proof.
  intros Hh Ha Hr. split.
  - intros seed sun. by apply sample_scene_unknown_background.
  - intros Hv HN. apply latent_dataset_first_scene; try done.
    intros seed sun. by apply sample_scene_unknown_background.
Qed.

Lemma unknown_background_type_witness :
  latent_dataset Standin.env MoreExamples.unknown_background 5
  = inl (ValueError
           "Invalid background type: background_type can be either 'artificial' or 'realistic'").
Proof.
  apply (proj2 (unknown_background_type Standin.env StandinFacts.env_numpy
                  MoreExamples.unknown_background 5 eq_refl
                  ltac:(discriminate) ltac:(discriminate))).
  - by apply (validate_inr MoreExamples.unknown_background tt).
  - simpl. lia.
Defined.

(** ** The world branch *)

Section World.
Context {E : External} (p : DatasetParameters).

Lemma set_world_ignores_background_type bt (st : state E) :
  hdri_world p = true →
  set_world E (with_background_type bt p) st = set_world E p st.
Proof.
  intros Hh. unfold set_world. cbn [hdri_world with_background_type].
  by rewrite Hh.
Qed.

Lemma sample_scene_ignores_background_type bt seed sun :
  hdri_world p = true →
  sample_scene E (with_background_type bt p) seed sun
  = sample_scene E p seed sun.
Proof.
  intros Hh. unfold sample_scene, scene_body, mbind, M_bind, setitem.
  cbn [st_rng st_latents st_sun].
  by rewrite set_world_ignores_background_type.
Qed.

Lemma scenes_loop_ignores_background_type bt seeds :
  hdri_world p = true →
  ∀ sun acc,
    scenes_loop E (with_background_type bt p) seeds sun acc
    = scenes_loop E p seeds sun acc.
Proof.
  intros Hh. induction seeds as [|seed seeds IH]; intros sun acc; [done|].
  simpl. rewrite sample_scene_ignores_background_type by done.
  unfold mbind, result_bind.
  destruct (sample_scene E p seed sun) as [e | [d s]]; [done | apply IH].
Qed.

(** The floor branch draws the background material first, then the
    background texture. *)
Lemma set_world_floor (st : state E) x st' :
  set_world E p st = inr (x, st') → hdri_world p = false →
  ∃ t, st_latents st'
       = world_fields p (FloorWorld (get_material E (st_rng st)).1 t)
           (st_latents st) ∧
       st_sun st' = st_sun st ∧
       ((background_type p = "artificial" ∧
         ∃ kind r, rs_choice E TEXTURES (get_material E (st_rng st)).2
                   = inr (kind, r) ∧
                   t = (get_texture E kind r true).1) ∨
        (background_type p = "realistic" ∧
         t = (get_texture E "IMAGE" (get_material E (st_rng st)).2 true).1)).
Proof.
  unfold set_world. intros H Hh. rewrite Hh in H. exec H.
  destruct (String.eqb_spec (background_type p) "artificial") as [Ha|];
    [|destruct (String.eqb_spec (background_type p) "realistic") as [Hr|]];
    exec H; flatten_states;
    repeat match goal with
           | Hm : _ = (_, _) |- _ => rewrite Hm; cbn [fst snd]
           end;
    eexists; (split; [reflexivity|]); (split; [reflexivity|]).
  - left. split; [done|]. eexists _, _. split; [eassumption|].
    match goal with
    | Ht : _ = (?t, _) |- ?t = _ => by rewrite Ht
    end.
  - right. by split.
Qed.

(** What follows the world branch adds its keys on top. *)
Lemma after_world (OK : numpy_contract E) (st1 : state E) x2 st2 x3 st3 x4 st4 :
  set_lighting E p st1 = inr (x2, st2) →
  set_camera_floor E p st2 = inr (x3, st3) →
  set_objects E p st3 = inr (x4, st4) →
  ∃ lt o, st_latents st4
          = object_fields p o
              (camera_floor_fields p (lighting_fields lt (st_latents st1))) ∧
          light_ok p lt (st_sun st1) (st_sun st4) ∧ objects_ok p o.
Proof.
  intros Hl Hc Ho.
  apply (set_lighting_inr OK) in Hl as (lt & Hlt & Hl).
  apply set_camera_floor_inr in Hc as (Hc & Hcs).
  apply (set_objects_inr OK) in Ho as (o & Hok & Ho & Hos).
  exists lt, o. rewrite Ho, Hc, Hl. split; [done|]. split; [|done].
  by rewrite Hos, Hcs.
Qed.

End World.

(** In an HDRI world [background_type] is never read: a call returns,
    or raises, the same with any other value in its place, so that no
    value of it is rejected. *)
Theorem hdri_world_ignores_background_type (E : External)
    (p : DatasetParameters) (bt : string) (en : entropy E) :
  hdri_world p = true →
  latent_dataset E (with_background_type bt p) en = latent_dataset E p en.
Proof.
  intros Hh. unfold latent_dataset, mbind, result_bind.
  change (validate (with_background_type bt p)) with (validate p).
  destruct (validate p) as [e | u]; [done|].
  cbn [num_scenes with_background_type].
  destruct (seed_generation E en (num_scenes p)) as [e | seeds]; [done|].
  by apply scenes_loop_ignores_background_type.
Qed.

Lemma hdri_world_ignores_background_type_witness :
  latent_dataset Standin.env
    (with_background_type "photographic" Examples.hdri_scenes) 5
  = latent_dataset Standin.env Examples.hdri_scenes 5.
Proof.
  apply hdri_world_ignores_background_type. reflexivity.
Defined.

(** On a textured floor the background material is the first draw of the
    seeded generator and the background texture the next: with
    [background_type] "realistic" it is the IMAGE texture, with
    "artificial" a texture of a kind drawn from [TEXTURES], so never
    IMAGE. *)
Theorem background_of_floor_world (E : External) (OK : numpy_contract E)
    (p : DatasetParameters) (seed : Z) (sun : list Q)
    (d : gmap string (value E)) (sun' : list Q) :
  sample_scene E p seed sun = inr (d, sun') → hdri_world p = false →
  d !! "bg_material" = Some (VMaterial (get_material E (RandomState E seed)).1) ∧
  ∃ t, d !! "bg_texture" = Some (VTexture t) ∧
       (background_type p = "realistic" →
        t = (get_texture E "IMAGE" (get_material E (RandomState E seed)).2
               true).1) ∧
       (background_type p = "artificial" →
        ∃ kind r, kind ∈ TEXTURES ∧ kind ≠ "IMAGE" ∧
                  t = (get_texture E kind r true).1).
Proof.
  intros H Hh.
  apply sample_scene_phases in H
    as (x1 & st1 & x2 & st2 & x3 & st3 & x4 & st4 & Hw & Hl & Hc & Ho & -> & _).
  apply set_world_floor in Hw as (t & Hw & _ & Hbg); [|done].
  destruct (after_world p OK _ _ _ _ _ _ _ Hl Hc Ho) as (lt & o & -> & _ & _).
  rewrite Hw. cbn [seeded_state st_rng st_latents].
  split; [by destruct lt|].
  exists t. split; [by destruct lt|].
  destruct Hbg as [(Ha & kind & r & Hk & ->) | (Hr & ->)].
  - split; [intros Hr; rewrite Hr in Ha; discriminate Ha|].
    intros _. exists kind, r.
    apply (choice_ok E OK) in Hk. split; [done|]. split; [|done].
    intros ->. by apply IMAGE_not_in_TEXTURES.
  - split; [done|]. intros Ha. rewrite Ha in Hr. discriminate Hr.
Qed.

Lemma background_of_floor_world_witness :
  numpy_contract Standin.env ∧
  ∃ d sun',
    sample_scene Standin.env MoreExamples.realistic_floor 5 [0.0; 0.0; 7.0]%Q
    = inr (d, sun') ∧
    ∃ t, d !! "bg_texture" = Some (VTexture t) ∧
         t = (get_texture Standin.env "IMAGE"
                (get_material Standin.env (RandomState Standin.env 5)).2
                true).1.
Proof.
  split; [exact StandinFacts.env_numpy|].
  destruct (returns_generated (E:=Standin.env) MoreExamples.realistic_floor 5
              [0.0; 0.0; 7.0]%Q) as (d & sun' & Hd & _ & _);
    [vm_compute; reflexivity|].
  exists d, sun'. split; [exact Hd|].
  destruct (background_of_floor_world Standin.env StandinFacts.env_numpy
              MoreExamples.realistic_floor 5 _ d sun' Hd eq_refl)
    as (_ & t & Ht & Hreal & _).
  exists t. split; [exact Ht | exact (Hreal eq_refl)].
Defined.

(** ** The keys of a scene configuration *)

(** A scene configuration has exactly the keys of [common_keys], and in
    a floor world also [bg_material], [floor_position], [bg_texture]:
    its key set depends on [hdri_world] alone. *)
Theorem keys_of_scene (E : External) (OK : numpy_contract E)
    (p : DatasetParameters) (d : gmap string (value E)) :
  generated E p d →
  dom d = list_to_set
            (common_keys ++ if hdri_world p then [] else floor_keys).
Proof.
  intros Hd.
  apply (scene_dict_generated p OK) in Hd
    as (seed & w & lt & o & -> & Hw & _ & _).
  destruct w, lt; simpl in Hw; destruct Hw as [-> _]; reflexivity.
Qed.

Lemma keys_of_scene_witness :
  numpy_contract Standin.env ∧
  ∃ d, generated Standin.env Examples.hdri_scenes d ∧
       dom d = list_to_set common_keys.
Proof.
  split; [exact StandinFacts.env_numpy|].
  destruct (returns_generated (E:=Standin.env) Examples.hdri_scenes 5
              [0.0; 0.0; 7.0]%Q) as (d & sun' & _ & Hg & _);
    [vm_compute; reflexivity|].
  exists d. split; [exact Hg|].
  rewrite (keys_of_scene Standin.env StandinFacts.env_numpy
             Examples.hdri_scenes d Hg).
  reflexivity.
Defined.

(** ** The objects *)

Section Objects.
Context {E : External} (OK : numpy_contract E).

(** The quaternion comprehension reads both arrays at the index it is
    building. *)
Lemma quaternions_indexwise (axes : list string) (angles : list Q) n :
  ∀ i (st : state E) xs st',
    comprehension (λ k : nat,
        axis ← getitem axes k;
        angle ← getitem angles k;
        mret (get_quaternion E axis angle)) (seq i n) st = inr (xs, st') →
    ∀ j q, xs !! j = Some q →
           ∃ a θ, axes !! (i + j)%nat = Some a ∧
                  angles !! (i + j)%nat = Some θ ∧
                  q = get_quaternion E a θ.
Proof.
  induction n as [|n IH]; intros i st xs st' H j q Hq; simpl in H.
  - apply mret_inr in H as [-> _]. by rewrite lookup_nil in Hq.
  - apply M_bind_inr in H as (x & st1 & Hx & H).
    apply M_bind_inr in H as (ys & st2 & Hys & H).
    apply mret_inr in H as [-> ->].
    destruct j as [|j]; simpl in Hq.
    + injection Hq as <-. exec Hx. subst. rewrite Nat.add_0_r. eauto.
    + destruct (IH _ _ _ _ Hys j q Hq) as (a & θ & Ha & Hθ & ->).
      exists a, θ. by rewrite <- Nat.add_succ_comm.
Qed.

Lemma set_object_properties_quaternions n (st : state E) x st' :
  set_object_properties E n st = inr (x, st') →
  ∃ angles axes quats,
    st_latents st' !! "object_angles_of_rotation" = Some (VFloats angles) ∧
    st_latents st' !! "object_axes_of_rotation" = Some (VStrs axes) ∧
    st_latents st' !! "object_quaternions" = Some (VQuaternions quats) ∧
    ∀ k q, quats !! k = Some q →
           ∃ a θ, axes !! k = Some a ∧ angles !! k = Some θ ∧
                  q = get_quaternion E a θ.
Proof.
  unfold set_object_properties. intros H. exec H.
  match goal with
  | Hq : comprehension _ (range _) _ = inr (?quats, _),
    Ha : rs_uniform_size _ _ _ _ _ = inr (?angles, _),
    Hx : rs_choice_size _ _ _ _ = inr (?axes, _) |- _ =>
      pose proof (quaternions_indexwise axes angles _ _ _ _ _ Hq) as Hidx;
      exists angles, axes, quats
  end.
  repeat match goal with
         | Hc : comprehension _ _ _ = inr _ |- _ =>
             first [ apply quaternions_inr in Hc as (_ & ? & _)
                   | apply (textures_inr OK) in Hc as (_ & _ & ? & _)
                   | apply materials_inr in Hc as (_ & ? & _) ]
         end.
  flatten_states.
  split; [by rewrite !lookup_insert_ne, lookup_insert_eq by done|].
  split; [by rewrite !lookup_insert_ne, lookup_insert_eq by done|].
  split; [by rewrite !lookup_insert_ne, lookup_insert_eq by done|].
  exact Hidx.
Qed.

End Objects.

(** Each entry of [object_quaternions] is [get_quaternion] of the axis
    and the angle stored at the same index of [object_axes_of_rotation]
    and [object_angles_of_rotation]. *)
Theorem quaternions_follow_axes_and_angles (E : External)
    (OK : numpy_contract E) (p : DatasetParameters)
    (d : gmap string (value E)) :
  generated E p d →
  ∃ angles axes quats,
    d !! "object_angles_of_rotation" = Some (VFloats angles) ∧
    d !! "object_axes_of_rotation" = Some (VStrs axes) ∧
    d !! "object_quaternions" = Some (VQuaternions quats) ∧
    length quats = length axes ∧ length quats = length angles ∧
    ∀ k q, quats !! k = Some q →
           ∃ a θ, axes !! k = Some a ∧ angles !! k = Some θ ∧
                  q = get_quaternion E a θ.
Proof.
  intros (seed & sun & sun' & H).
  pose proof H as Hshape.
  apply (sample_scene_inr OK) in Hshape as (w & lt & o & Hd & _ & _ & Ho).
  apply sample_scene_phases in H
    as (x1 & st1 & x2 & st2 & x3 & st3 & x4 & st4 & _ & _ & _ & Hobj & -> & _).
  unfold set_objects in Hobj. exec Hobj.
  apply (set_object_properties_quaternions OK) in Hobj
    as (angles & axes & quats & Hang & Hax & Hq & Hidx).
  exists angles, axes, quats.
  split; [done|]. split; [done|]. split; [done|].
  rewrite Hd in Hang, Hax, Hq.
  assert (angles = ob_angles o ∧ axes = ob_axes o ∧ quats = ob_quaternions o)
    as (-> & -> & ->).
  { destruct w, lt; vm_compute in Hang, Hax, Hq; by simplify_eq. }
  destruct Ho. split; [congruence|]. split; [congruence | done].
Qed.

Lemma quaternions_follow_axes_and_angles_witness :
  numpy_contract Standin.env ∧
  ∃ d, generated Standin.env Examples.two_scenes d ∧
       ∃ angles axes quats,
         d !! "object_quaternions" = Some (VQuaternions quats) ∧
         length quats = length axes ∧ length quats = length angles ∧
         ∀ k q, quats !! k = Some q →
                ∃ a θ, axes !! k = Some a ∧ angles !! k = Some θ ∧
                       q = get_quaternion Standin.env a θ.
Proof.
  split; [exact StandinFacts.env_numpy|].
  destruct (returns_generated (E:=Standin.env) Examples.two_scenes 5
              [0.0; 0.0; 7.0]%Q) as (d & sun' & _ & Hg & _);
    [vm_compute; reflexivity|].
  exists d. split; [exact Hg|].
  destruct (quaternions_follow_axes_and_angles Standin.env
              StandinFacts.env_numpy Examples.two_scenes d Hg)
    as (angles & axes & quats & _ & _ & Hq & Hl1 & Hl2 & Hidx).
  exists angles, axes, quats.
  split; [exact Hq|]. split; [exact Hl1|]. split; [exact Hl2 | exact Hidx].
Defined.

(** Every entry of [object_shapes] is an identifier of the catalog of
    the asset source: one of the ten of [KUBASIC_IDS] for "kubasic", one
    of [GSO_IDS] for "GSO"; and [asset_source] is stored as given. *)
Theorem shapes_from_catalog (E : External) (OK : numpy_contract E)
    (p : DatasetParameters) (d : gmap string (value E)) :
  generated E p d →
  d !! "asset_source" = Some (VStr (asset_source p)) ∧
  ∃ shapes, d !! "object_shapes" = Some (VStrs shapes) ∧
            (asset_source p = "kubasic" →
             Forall (λ s, s ∈ KUBASIC_IDS) shapes) ∧
            (asset_source p = "GSO" → Forall (λ s, s ∈ GSO_IDS E) shapes).
Proof.
  intros Hd.
  apply (scene_dict_generated p OK) in Hd
    as (seed & w & lt & o & -> & _ & Ho & _).
  split; [by destruct w, lt|].
  exists (ob_shapes o). split; [by destruct w, lt|].
  destruct (source_cases p o Ho) as [(Hk & HF & _) | (Hg & HF & _)];
    split; intros Hsrc; try done; congruence.
Qed.

Lemma shapes_from_catalog_witness :
  numpy_contract Standin.env ∧
  ∃ d, generated Standin.env MoreExamples.realistic_floor d ∧
       ∃ shapes, d !! "object_shapes" = Some (VStrs shapes) ∧
                 Forall (λ s, s ∈ ["mug"; "shoe"; "toy_train"]) shapes.
Proof.
  split; [exact StandinFacts.env_numpy|].
  destruct (returns_generated (E:=Standin.env) MoreExamples.realistic_floor 5
              [0.0; 0.0; 7.0]%Q) as (d & sun' & _ & Hg & _);
    [vm_compute; reflexivity|].
  exists d. split; [exact Hg|].
  destruct (shapes_from_catalog Standin.env StandinFacts.env_numpy
              MoreExamples.realistic_floor d Hg)
    as (_ & shapes & Hs & _ & Hgso).
  exists shapes. split; [exact Hs | exact (Hgso eq_refl)].
Defined.

(** ** The sun position *)

(** As read when its sampling returns, the [sun_position] of a scene
    under sun lighting is the list given with x and y replaced by two
    draws from [-1, 1) and z kept. *)
Theorem sun_position_of_scene (E : External) (OK : numpy_contract E)
    (p : DatasetParameters) (seed : Z) (x0 y0 z : Q)
    (v : gmap string (value E)) :
  scene_value E p seed [x0; y0; z] = inr v → lighting p = "sun" →
  ∃ x y, v !! "sun_position" = Some (VFloats [x; y; z]) ∧
         ((-1 <= x)%Q ∧ (x < 1)%Q) ∧ ((-1 <= y)%Q ∧ (y < 1)%Q).
Proof.
  unfold scene_value, mbind, result_bind. intros H Hsun.
  destruct (sample_scene E p seed [x0; y0; z]) as [e | [d sun']] eqn:Hd;
    [discriminate H|].
  injection H as <-.
  apply (sample_scene_inr OK) in Hd as (w & lt & o & -> & _ & Hlt & _).
  destruct lt as [a|]; simpl in Hlt;
    [|destruct Hlt as [Hamb _]; rewrite Hsun in Hamb; discriminate Hamb].
  destruct Hlt as (_ & _ & _ & _ & x & y & -> & Hx & Hy).
  exists x, y. split; [|done].
  unfold snapshot. rewrite lookup_fmap. by destruct w.
Qed.

Lemma sun_position_of_scene_witness :
  numpy_contract Standin.env ∧
  ∃ v, scene_value Standin.env Examples.two_scenes 5 [0.0; 0.0; 7.0]%Q
       = inr v ∧
       ∃ x y, v !! "sun_position" = Some (VFloats [x; y; 7.0]%Q) ∧
              ((-1 <= x)%Q ∧ (x < 1)%Q) ∧ ((-1 <= y)%Q ∧ (y < 1)%Q).
Proof.
  split; [exact StandinFacts.env_numpy|].
  destruct (scene_value Standin.env Examples.two_scenes 5 [0.0; 0.0; 7.0]%Q)
    as [e | v] eqn:Hv.
  - exfalso.
    assert (returns (scene_value Standin.env Examples.two_scenes 5
                       [0.0; 0.0; 7.0]%Q) = true) as Hr
      by (vm_compute; reflexivity).
    rewrite Hv in Hr. discriminate Hr.
  - exists v. split; [reflexivity|].
    exact (sun_position_of_scene Standin.env StandinFacts.env_numpy
             Examples.two_scenes 5 _ _ _ v Hv eq_refl).
Defined.

Section SunAfterCall.
Context {E : External} (OK : numpy_contract E) (p : DatasetParameters).

Lemma scenes_loop_sun seeds : ∀ x0 y0 z acc scenes sun',
  scenes_loop E p seeds [x0; y0; z] acc = inr (scenes, sun') →
  (lighting p = "ambient_hdri" ∨ seeds = [] → sun' = [x0; y0; z]) ∧
  (lighting p = "sun" → seeds ≠ [] →
   ∃ x y, sun' = [x; y; z] ∧
          ((-1 <= x)%Q ∧ (x < 1)%Q) ∧ ((-1 <= y)%Q ∧ (y < 1)%Q)).
Proof.
  induction seeds as [|seed seeds IH]; intros x0 y0 z acc scenes sun' H;
    simpl in H.
  - injection H as <- <-. by split.
  - unfold mbind, result_bind in H.
    destruct (sample_scene E p seed [x0; y0; z]) as [e | [d s1]] eqn:Hs;
      [discriminate H|].
    apply (sample_scene_inr OK) in Hs as (w & lt & o & _ & _ & Hlt & _).
    destruct lt as [a|]; simpl in Hlt.
    + destruct Hlt as (Hsun & _ & _ & _ & x & y & -> & Hx & Hy).
      simpl in H. apply IH in H as [Hsame Hnew]. split.
      * intros [Hamb | Hnil]; [|discriminate Hnil].
        rewrite Hsun in Hamb. discriminate Hamb.
      * intros _ _. destruct seeds as [|seed' seeds'].
        -- exists x, y. split; [by apply Hsame; right | done].
        -- by apply Hnew.
    + destruct Hlt as [Hamb ->].
      apply IH in H as [Hsame Hnew]. split.
      * intros _. apply Hsame. by left.
      * intros Hsun. rewrite Hsun in Hamb. discriminate Hamb.
Qed.

End SunAfterCall.

(** What a returning call leaves in the caller's [sun_position] list
    (for the default argument: in the default itself): nothing changed
    with "ambient_hdri" lighting or no scene requested; with sun
    lighting and at least one scene, x and y overwritten by draws from
    [-1, 1) and z as it was. *)
Theorem sun_position_after_call (E : External) (OK : numpy_contract E)
    (p : DatasetParameters) (en : entropy E)
    (scenes : list (gmap string (value E))) (sun' : list Q) :
  latent_dataset E p en = inr (scenes, sun') →
  ∃ x0 y0 z, sun_position p = [x0; y0; z] ∧
    (lighting p = "ambient_hdri" ∨ num_scenes p = 0 → sun' = [x0; y0; z]) ∧
    (lighting p = "sun" → 1 ≤ num_scenes p →
     ∃ x y, sun' = [x; y; z] ∧
            ((-1 <= x)%Q ∧ (x < 1)%Q) ∧ ((-1 <= y)%Q ∧ (y < 1)%Q)).
Proof.
  unfold latent_dataset, mbind, result_bind. intros H.
  destruct (validate p) as [e | u] eqn:Hv; [discriminate H|].
  apply validate_inr in Hv. pose proof (sun_position_length p Hv) as Hlen.
  destruct (seed_generation E en (num_scenes p)) as [e | seeds] eqn:Hs;
    [discriminate H|].
  apply (seeds_ok E OK) in Hs as (HN & Hsl & _).
  destruct (sun_position p) as [|x0 [|y0 [|z [|]]]]; try discriminate Hlen.
  exists x0, y0, z. split; [done|].
  apply (scenes_loop_sun OK) in H as [Hsame Hnew]. split.
  - intros [Hamb | H0]; apply Hsame; [by left | right].
    rewrite H0 in Hsl. by destruct seeds.
  - intros Hsun H1. apply Hnew; [done|].
    intros ->. simpl in Hsl. lia.
Qed.

Lemma sun_position_after_call_witness :
  numpy_contract Standin.env ∧
  ∃ scenes sun',
    latent_dataset Standin.env Examples.two_scenes 5 = inr (scenes, sun') ∧
    ∃ x y, sun' = [x; y; 7.0]%Q ∧
           ((-1 <= x)%Q ∧ (x < 1)%Q) ∧ ((-1 <= y)%Q ∧ (y < 1)%Q).
Proof.
  split; [exact StandinFacts.env_numpy|].
  destruct (latent_dataset Standin.env Examples.two_scenes 5)
    as [e | [scenes sun']] eqn:Hd.
  - exfalso.
    assert (returns (latent_dataset Standin.env Examples.two_scenes 5) = true)
      as Hr by (vm_compute; reflexivity).
    rewrite Hd in Hr. discriminate Hr.
  - exists scenes, sun'. split; [reflexivity|].
    destruct (sun_position_after_call Standin.env StandinFacts.env_numpy
                Examples.two_scenes 5 scenes sun' Hd)
      as (x0 & y0 & z & Hsun & _ & Hnew).
    injection Hsun as <- <- <-.
    apply Hnew; [reflexivity | simpl; lia].
Defined.

(** With sun lighting all scene configurations of the returned list
    hold the one list object as [sun_position]: read after the call,
    they all show the same position. *)
Theorem sun_position_same_in_all_scenes (E : External)
    (OK : numpy_contract E) (p : DatasetParameters) (en : entropy E)
    (scenes : list (gmap string (value E))) (sun' : list Q) :
  latent_dataset E p en = inr (scenes, sun') → lighting p = "sun" →
  ∀ d1 d2, d1 ∈ scenes → d2 ∈ scenes →
    snapshot sun' d1 !! "sun_position" = Some (VFloats sun') ∧
    snapshot sun' d1 !! "sun_position" = snapshot sun' d2 !! "sun_position".
Proof.
  intros H Hsun d1 d2 H1 H2.
  pose proof (sun_position_aliased OK p en scenes sun' H Hsun) as HF.
  rewrite Forall_forall in HF.
  destruct (HF d1 H1) as [_ ->]. by destruct (HF d2 H2) as [_ ->].
Qed.

Lemma sun_position_same_in_all_scenes_witness :
  numpy_contract Standin.env ∧
  ∃ scenes sun',
    latent_dataset Standin.env Examples.two_scenes 5 = inr (scenes, sun') ∧
    length scenes = 2%nat ∧
    ∀ d1 d2, d1 ∈ scenes → d2 ∈ scenes →
      snapshot sun' d1 !! "sun_position" = snapshot sun' d2 !! "sun_position".
Proof.
  split; [exact StandinFacts.env_numpy|].
  destruct (latent_dataset Standin.env Examples.two_scenes 5)
    as [e | [scenes sun']] eqn:Hd.
  - exfalso.
    assert (returns (latent_dataset Standin.env Examples.two_scenes 5) = true)
      as Hr by (vm_compute; reflexivity).
    rewrite Hd in Hr. discriminate Hr.
  - exists scenes, sun'. split; [reflexivity|]. split.
    { assert (scene_count (latent_dataset Standin.env Examples.two_scenes 5)
              = 2%nat) as Hc by (vm_compute; reflexivity).
      rewrite Hd in Hc. exact Hc. }
    intros d1 d2 H1 H2.
    exact (proj2 (sun_position_same_in_all_scenes Standin.env
                    StandinFacts.env_numpy Examples.two_scenes 5 scenes sun'
                    Hd eq_refl d1 d2 H1 H2)).
Defined.

(** * The renderer on the sampler's configurations *)

Section RenderRules.
Context {E : External} (G : Engine E).

Lemma outcome_bind {A B} (m : RM G A) (f : A → RM G B) s Err Post :
  outcome m s Err (λ x s', outcome (f x) s' Err Post) →
  outcome (m ≫= f) s Err Post.
Proof.
  unfold outcome, mbind, RM_bind. by destruct (m s) as [[e | x] s'].
Qed.

Lemma outcome_ret {A} (x : A) s Err (Post : A → rstate G → Prop) :
  Post x s → outcome (mret x) s Err Post.
Proof. done. Qed.

Lemma outcome_mono {A} (m : RM G A) s (Err Err' : render_exn → rstate G → Prop)
    (Post Post' : A → rstate G → Prop) :
  outcome m s Err Post →
  (∀ e s', Err e s' → Err' e s') →
  (∀ x s', Post x s' → Post' x s') →
  outcome m s Err' Post'.
Proof.
  unfold outcome. destruct (m s) as [[e | x] s']; auto.
Qed.

Lemma outcome_get k en C v Err (Post : rvalue G → rstate G → Prop) :
  C !! k = Some v →
  Post v {| r_engine := en; r_config := C |} →
  outcome (config_get G k) {| r_engine := en; r_config := C |} Err Post.
Proof.
  intros Hk HP. unfold outcome, config_get. simpl. by rewrite Hk.
Qed.

Lemma outcome_call name args en C Err (Post : handle G → rstate G → Prop) :
  (∀ msg, call G name args en = inl msg →
          Err (EngineError msg) {| r_engine := en; r_config := C |}) →
  (∀ h en', call G name args en = inr (h, en') →
            Post h {| r_engine := en'; r_config := C |}) →
  outcome (engine_call G name args) {| r_engine := en; r_config := C |}
          Err Post.
Proof.
  intros He HP. unfold outcome, engine_call. simpl.
  destruct (call G name args en) as [msg | [h en']] eqn:Hc; auto.
Qed.

End RenderRules.

Ltac raised := first
  [ by eexists _, _, _, _
  | split; [by eexists _, _, _, _ | done]
  | split; [left; by eexists _, _, _, _ | done] ].

Ltac render_step :=
  lazymatch goal with
  | |- outcome (mbind _ _) _ _ _ => apply outcome_bind
  | |- outcome (config_get _ _) _ _ _ =>
      eapply outcome_get; [eassumption | cbv beta]
  | |- outcome (engine_call _ _ _) _ _ _ =>
      apply outcome_call; [intros ? ?; raised | intros ? ? _; cbv beta]
  | |- outcome (mret _) _ _ _ => apply outcome_ret; cbv beta
  end.

Section RenderPhases.
Context {E : External} (G : Engine E).
Context (C : gmap string (rvalue G)) (hdri : bool) (lit : string) (n : Z).
Context (HR : renderable C hdri lit n).

Lemma render_open_ok en :
  outcome (render_open G) {| r_engine := en; r_config := C |}
          (engine_raised G C) (λ _ s', r_config s' = C).
Proof.
  destruct (rd_seed _ _ _ _ HR) as [? ?].
  destruct (rd_resolution _ _ _ _ HR) as [? ?].
  unfold render_open, engine_raised. repeat render_step. done.
Qed.

Lemma render_camera_ok w en :
  outcome (render_camera G w) {| r_engine := en; r_config := C |}
          (engine_raised G C) (λ _ s', r_config s' = C).
Proof.
  destruct (rd_camera_focal_length _ _ _ _ HR) as [? ?].
  destruct (rd_camera_sensor_width _ _ _ _ HR) as [? ?].
  destruct (rd_camera_position _ _ _ _ HR) as [? ?].
  destruct (rd_camera_look_at _ _ _ _ HR) as [? ?].
  unfold render_camera, engine_raised. repeat render_step. done.
Qed.

(** [background_hdri] is bound after the world is built exactly when
    the world is an HDRI dome. *)
Lemma render_world_ok w en :
  outcome (render_world G w) {| r_engine := en; r_config := C |}
          (engine_raised G C) (λ bg s', r_config s' = C ∧
                         if hdri then is_Some bg else bg = None).
Proof.
  destruct (rd_seed _ _ _ _ HR) as [? ?].
  pose proof (rd_hdri_world _ _ _ _ HR).
  unfold render_world, engine_raised. do 2 render_step.
  render_step. simpl truth. render_step.
  destruct hdri.
  - destruct (rd_hdri_id _ _ _ _ HR) as [? ?]; [done|].
    destruct (rd_floor_friction _ _ _ _ HR) as [? ?]; [done|].
    destruct (rd_floor_restitution _ _ _ _ HR) as [? ?]; [done|].
    repeat render_step. by split.
  - destruct (rd_bg_material _ _ _ _ HR) as [? ?]; [done|].
    destruct (rd_floor_scale _ _ _ _ HR) as [? ?]; [done|].
    destruct (rd_floor_position _ _ _ _ HR) as [? ?]; [done|].
    destruct (rd_bg_texture _ _ _ _ HR) as [? ?]; [done|].
    repeat render_step. by split.
Qed.

Lemma render_lights_ok w bg en :
  (lit = "ambient_hdri" → is_Some bg) →
  outcome (render_lights G w bg) {| r_engine := en; r_config := C |}
          (engine_raised G C) (λ _ s', r_config s' = C).
Proof.
  intros Hbg. pose proof (rd_lighting _ _ _ _ HR).
  unfold render_lights, engine_raised. do 2 render_step.
  render_step. simpl equals. render_step.
  destruct (String.eqb_spec lit "ambient_hdri") as [Hl | Hl].
  - destruct (Hbg Hl) as [h ->]. simpl local. repeat render_step. done.
  - destruct (rd_sun_position _ _ _ _ HR) as [? ?]; [done|].
    destruct (rd_ambient_illumination _ _ _ _ HR) as [? ?]; [done|].
    repeat render_step. done.
Qed.

(** With no [background_hdri], ambient lighting stops at line 137. *)
Lemma render_lights_unbound w en :
  lit = "ambient_hdri" →
  outcome (render_lights G w None) {| r_engine := en; r_config := C |}
          (λ e s', e = UnboundLocalError "background_hdri" ∧ r_config s' = C)
          (λ _ _, False).
Proof.
  intros Hl. pose proof (rd_lighting _ _ _ _ HR) as Hlit. rewrite Hl in Hlit.
  unfold render_lights. do 2 render_step.
  render_step. simpl equals. render_step. simpl.
  apply outcome_bind. by unfold outcome.
Qed.

Lemma outcome_item {A} (xs : list A) (f : A → arg E (handle G)) i en Err
    (Post : arg E (handle G) → rstate G → Prop) :
  (i < length xs)%nat →
  (∀ x, xs !! i = Some x → Post (f x) {| r_engine := en; r_config := C |}) →
  outcome (at_index G xs i f) {| r_engine := en; r_config := C |} Err Post.
Proof.
  intros Hi HP. destruct (lookup_lt_is_Some_2 xs i Hi) as [x Hx].
  unfold at_index. rewrite Hx. by apply HP.
Qed.

Lemma render_object_ok w i en :
  (i < Z.to_nat n)%nat →
  outcome (render_object G w i) {| r_engine := en; r_config := C |}
          (engine_raised G C) (λ _ s', r_config s' = C).
Proof.
  intros Hi.
  destruct (rd_seed _ _ _ _ HR) as [? ?].
  destruct (rd_asset_source _ _ _ _ HR) as [? ?].
  destruct (rd_object_shapes _ _ _ _ HR) as (? & ? & ?).
  destruct (rd_object_scales _ _ _ _ HR) as (? & ? & ?).
  destruct (rd_object_materials _ _ _ _ HR) as (? & ? & ?).
  destruct (rd_object_textures _ _ _ _ HR) as (? & ? & ?).
  destruct (rd_object_quaternions _ _ _ _ HR) as (? & ? & ?).
  destruct (rd_spawn_region _ _ _ _ HR) as [? ?].
  unfold render_object, engine_raised.
  repeat first
    [ render_step
    | progress simpl equals
    | progress simpl item
    | apply outcome_item; [lia | intros ? _; cbv beta] ].
  done.
Qed.

Lemma render_objects_ok w indices : ∀ positions en,
  Forall (λ i, (i < Z.to_nat n)%nat) indices →
  outcome (render_objects G w indices positions)
          {| r_engine := en; r_config := C |}
          (engine_raised G C)
          (λ ps s', r_config s' = C ∧
                    length ps = (length positions + length indices)%nat).
Proof.
  induction indices as [| i indices IH]; intros positions en Hall; simpl.
  - apply outcome_ret. split; [done | lia].
  - apply Forall_cons in Hall as [Hi Hall].
    apply outcome_bind.
    eapply outcome_mono; [by apply render_object_ok | done |].
    intros position [en' C'] HC. simpl in HC. subst C'.
    eapply outcome_mono; [by apply IH | done |].
    intros ps s' [? Hlen]. split; [done|].
    rewrite Hlen, length_app. simpl. lia.
Qed.

End RenderPhases.

Section RenderFrame.
Context {E : External} (G : Engine E).

Lemma outcome_set k v en C Err (Post : unit → rstate G → Prop) :
  Post tt {| r_engine := en; r_config := <[k := v]> C |} →
  outcome (config_set G k v) {| r_engine := en; r_config := C |} Err Post.
Proof. done. Qed.

Lemma render_frame_ok w en C :
  outcome (render_frame G w) {| r_engine := en; r_config := C |}
          (λ e _, raised_by_call G e)
          (λ _ s', ∃ lo hi,
             r_config s' = <["depth_scaling" := DepthScaling G lo hi]> C).
Proof.
  unfold render_frame.
  repeat first [render_step | apply outcome_set].
  by eexists _, _.
Qed.

(** A renderable configuration outside the floor world with ambient
    lighting gets [render_scene] through all its own reads. *)
Lemma render_scene_renderable C hdri lit n en :
  renderable C hdri lit n →
  hdri = true ∨ lit ≠ "ambient_hdri" →
  outcome (render_scene G) {| r_engine := en; r_config := C |}
          (λ e _, raised_by_call G e)
          (λ _ s', ∃ ps lo hi,
             length ps = Z.to_nat n ∧
             r_config s' = <["depth_scaling" := DepthScaling G lo hi]>
                             (<["object_positions" := Positions G ps]> C)).
Proof.
  intros HR Hcase. pose proof (rd_num_objects _ _ _ _ HR).
  unfold render_scene.
  apply outcome_bind.
  eapply outcome_mono; [by eapply render_open_ok | by intros ? ? [? ?] |].
  intros w [en1 C1] HC; simpl in HC; subst C1.
  apply outcome_bind.
  eapply outcome_mono; [by eapply render_camera_ok | by intros ? ? [? ?] |].
  intros _ [en2 C2] HC; simpl in HC; subst C2.
  apply outcome_bind.
  eapply outcome_mono; [by eapply render_world_ok | by intros ? ? [? ?] |].
  intros bg [en3 C3] [HC Hbg]; simpl in HC; subst C3.
  apply outcome_bind.
  eapply outcome_mono;
    [eapply render_lights_ok; [done|] | by intros ? ? [? ?] |].
  { intros Hl. destruct Hcase as [-> | ?]; done. }
  intros _ [en4 C4] HC; simpl in HC; subst C4.
  do 2 render_step. render_step. simpl range_of. render_step.
  apply outcome_bind.
  eapply outcome_mono;
    [eapply render_objects_ok; [done|] | by intros ? ? [? ?] |].
  { apply Forall_forall. intros i Hi%elem_of_seq. lia. }
  intros ps [en5 C5] [HC Hlen]; simpl in HC; subst C5.
  apply outcome_bind. apply outcome_set.
  eapply outcome_mono; [apply render_frame_ok | done |].
  intros _ s' (lo & hi & Hs'). exists ps, lo, hi. split; [|done].
  rewrite Hlen. unfold range. rewrite length_seq. simpl. lia.
Qed.

End RenderFrame.

Section RenderGenerated.
Context {E : External} (OK : numpy_contract E) (G : Engine E).
Context (p : DatasetParameters).

Lemma config_of_lookup sun (d : gmap string (value E)) k :
  config_of G sun d !! k = (λ v, Sampled G (deref sun v)) <$> d !! k.
Proof.
  unfold config_of, snapshot. rewrite !lookup_fmap. by destruct (d !! k).
Qed.

(** What the sampler returns is what the renderer reads: every key on
    the renderer's path is there, and the per-object sequences have
    [num_objects] entries. *)
Lemma generated_renderable d sun :
  generated E p d →
  ∃ n, d !! "num_objects" = Some (VInt n) ∧
       renderable (config_of G sun d) (hdri_world p) (lighting p) n.
Proof.
  intros Hd.
  apply (scene_dict_generated p OK) in Hd
    as (seed & w & lt & o & -> & Hw & Ho & Hlt).
  exists (ob_num o). split; [by destruct w, lt|].
  destruct Ho.
  assert (lighting p = match lt with SunLit _ => "sun"
                        | AmbientHdriLit => "ambient_hdri" end) as Hl
    by (destruct lt; tauto).
  destruct w, lt; simpl in Hw; destruct Hw as [Hh _]; rewrite Hh, Hl;
    (split; try discriminate; intros;
     rewrite ?config_of_lookup;
     first [ by eexists
           | reflexivity
           | eexists; rewrite config_of_lookup; split; [reflexivity | done]
           | eexists; rewrite config_of_lookup; reflexivity
           | done ]).
Qed.

End RenderGenerated.

Section RenderOutcomes.
Context {E : External} (G : Engine E).

(** A floor world has no [background_hdri] for the ambient lighting to
    take. *)
Lemma render_scene_floor_ambient C n en :
  renderable C false "ambient_hdri" n →
  outcome (render_scene G) {| r_engine := en; r_config := C |}
          (λ e s', (raised_by_call G e ∨
                    e = UnboundLocalError "background_hdri") ∧
                   r_config s' = C)
          (λ _ _, False).
Proof.
  intros HR. unfold render_scene.
  apply outcome_bind.
  eapply outcome_mono; [by eapply render_open_ok | by intros ? ? [? ?]; auto |].
  intros w [en1 C1] HC; simpl in HC; subst C1.
  apply outcome_bind.
  eapply outcome_mono;
    [by eapply render_camera_ok | by intros ? ? [? ?]; auto |].
  intros _ [en2 C2] HC; simpl in HC; subst C2.
  apply outcome_bind.
  eapply outcome_mono;
    [by eapply render_world_ok | by intros ? ? [? ?]; auto |].
  intros bg [en3 C3] [HC ->]; simpl in HC; subst C3.
  apply outcome_bind.
  eapply outcome_mono;
    [by eapply render_lights_unbound | by intros ? ? [? ?]; auto | done].
Qed.

Lemma not_raised_by_call e : every_call_returns G → ¬ raised_by_call G e.
Proof.
  intros Hall (name & args & en & msg & Hc & _).
  destruct (Hall name args en) as (h & en' & Hr). congruence.
Qed.

End RenderOutcomes.

Lemma counting_engine_total (E : External) :
  every_call_returns (counting_engine E).
Proof. intros name args en. by eexists _, _. Qed.

(** With an engine whose calls all return, [render_scene] returns on
    every configuration of the sampler outside the floor world with
    ambient lighting. *)
Lemma render_scene_returns {E : External} (OK : numpy_contract E)
    (G : Engine E) (p : DatasetParameters) (d : gmap string (value E))
    (sun : list Q) (en : engine G) :
  generated E p d →
  hdri_world p = true ∨ lighting p = "sun" →
  every_call_returns G →
  ∃ frame,
    (render_scene G {| r_engine := en; r_config := config_of G sun d |}).1
    = inr frame.
Proof.
  intros Hd Hcase Hall.
  destruct (generated_renderable OK G p d sun Hd) as (n & _ & HR).
  pose proof (render_scene_renderable G _ _ _ n en HR) as Hout.
  unfold outcome in Hout.
  destruct (render_scene G _) as [[e | x] s'].
  - exfalso. eapply not_raised_by_call; [exact Hall|].
    apply Hout. destruct Hcase as [? | ->]; [by left | by right].
  - by exists x.
Qed.

(** ** The floor world with ambient lighting *)

(** The sampler accepts [hdri_world] false with [lighting]
    "ambient_hdri", and [render_scene] cannot render what it then
    returns: the floor branch never assigns [background_hdri], which
    line 137 reads.  On every such configuration [render_scene] does
    not return; it raises [UnboundLocalError] unless a call of the
    engine has raised before, and leaves [config] as it was. *)
Theorem render_scene_unbound_background_hdri (E : External)
    (OK : numpy_contract E) (G : Engine E) (p : DatasetParameters)
    (d : gmap string (value E)) (sun : list Q) (en : engine G) :
  generated E p d →
  hdri_world p = false →
  lighting p = "ambient_hdri" →
  let s := {| r_engine := en; r_config := config_of G sun d |} in
  outcome (render_scene G) s
          (λ e s', (raised_by_call G e ∨
                    e = UnboundLocalError "background_hdri") ∧
                   r_config s' = config_of G sun d)
          (λ _ _, False) ∧
  (every_call_returns G →
   (render_scene G s).1 = inl (UnboundLocalError "background_hdri")).
Proof.
  intros Hd Hh Hl s.
  destruct (generated_renderable OK G p d sun Hd) as (n & _ & HR).
  rewrite Hh, Hl in HR.
  pose proof (render_scene_floor_ambient G _ n en HR) as Hout.
  split; [exact Hout|].
  intros Hall. unfold outcome in Hout. fold s in Hout.
  destruct (render_scene G s) as [[e | x] s']; [|done].
  destruct Hout as [[Hc | ->] _]; [|done].
  by apply not_raised_by_call in Hc.
Qed.

Lemma render_scene_unbound_background_hdri_witness :
  numpy_contract Standin.env ∧
  every_call_returns (counting_engine Standin.env) ∧
  ∃ d, generated Standin.env MoreExamples.floor_ambient d ∧
       (render_scene (counting_engine Standin.env)
          {| r_engine := (0%nat : engine (counting_engine Standin.env));
             r_config := config_of (counting_engine Standin.env)
                           [0.0; 0.0; 7.0]%Q d |}).1
       = inl (UnboundLocalError "background_hdri").
Proof.
  split; [exact StandinFacts.env_numpy|].
  assert (every_call_returns (counting_engine Standin.env)) as Hall
    by (intros name args en; by eexists _, _).
  split; [exact Hall|].
  destruct (returns_generated (E:=Standin.env) MoreExamples.floor_ambient 5
              [0.0; 0.0; 7.0]%Q) as (d & sun' & _ & Hg & _);
    [vm_compute; reflexivity|].
  exists d. split; [exact Hg|].
  exact (proj2 (render_scene_unbound_background_hdri Standin.env
                  StandinFacts.env_numpy (counting_engine Standin.env)
                  MoreExamples.floor_ambient d [0.0; 0.0; 7.0]%Q 0%nat
                  Hg eq_refl eq_refl) Hall).
Defined.

(** ** Every other configuration *)

(** On every other configuration the sampler returns (an HDRI world, or
    lighting by the sun), [render_scene] raises no exception of its
    own: each key it reads is present, each per-object sequence reaches
    every index below [num_objects], and [background_hdri] is bound
    where it is read.  An exception can only come out of a call of the
    engine, and if every call returns, so does [render_scene]. *)
Theorem render_scene_reads_succeed (E : External) (OK : numpy_contract E)
    (G : Engine E) (p : DatasetParameters) (d : gmap string (value E))
    (sun : list Q) (en : engine G) :
  generated E p d →
  hdri_world p = true ∨ lighting p = "sun" →
  let s := {| r_engine := en; r_config := config_of G sun d |} in
  outcome (render_scene G) s (λ e _, raised_by_call G e) (λ _ _, True) ∧
  (every_call_returns G → ∃ frame, (render_scene G s).1 = inr frame).
Proof.
  intros Hd Hcase s.
  destruct (generated_renderable OK G p d sun Hd) as (n & _ & HR).
  assert (outcome (render_scene G) s (λ e _, raised_by_call G e) (λ _ _, True))
    as Hout.
  { eapply outcome_mono; [eapply render_scene_renderable; [exact HR|] | done..].
    destruct Hcase as [? | ->]; [by left | by right]. }
  split; [exact Hout|].
  intros Hall. unfold outcome in Hout.
  destruct (render_scene G s) as [[e | x] s']; [|by exists x].
  by apply not_raised_by_call in Hout.
Qed.

Lemma render_scene_reads_succeed_witness :
  numpy_contract Standin.env ∧
  every_call_returns (counting_engine Standin.env) ∧
  ∃ d, generated Standin.env MoreExamples.hdri_sun d ∧
       ∃ frame,
         (render_scene (counting_engine Standin.env)
            {| r_engine := (0%nat : engine (counting_engine Standin.env));
               r_config := config_of (counting_engine Standin.env)
                             [0.0; 0.0; 7.0]%Q d |}).1 = inr frame.
Proof.
  split; [exact StandinFacts.env_numpy|].
  assert (every_call_returns (counting_engine Standin.env)) as Hall
    by (intros name args en; by eexists _, _).
  split; [exact Hall|].
  destruct (returns_generated (E:=Standin.env) MoreExamples.hdri_sun 5
              [0.0; 0.0; 7.0]%Q) as (d & sun' & _ & Hg & _);
    [vm_compute; reflexivity|].
  exists d. split; [exact Hg|].
  exact (proj2 (render_scene_reads_succeed Standin.env
                  StandinFacts.env_numpy (counting_engine Standin.env)
                  MoreExamples.hdri_sun d [0.0; 0.0; 7.0]%Q 0%nat
                  Hg (or_introl eq_refl)) Hall).
Defined.

(** When [render_scene] returns on a configuration of the sampler, the
    [config] it returns is the one it received with two keys added:
    [object_positions], one position for each of the [num_objects]
    objects, and [depth_scaling].  No key it received is changed. *)
Theorem render_scene_returned_config (E : External) (OK : numpy_contract E)
    (G : Engine E) (p : DatasetParameters) (d : gmap string (value E))
    (sun : list Q) (en : engine G) :
  generated E p d →
  outcome (render_scene G)
          {| r_engine := en; r_config := config_of G sun d |}
          (λ _ _, True)
          (λ _ s', ∃ n ps lo hi,
             d !! "num_objects" = Some (VInt n) ∧
             length ps = Z.to_nat n ∧
             r_config s' =
               <["depth_scaling" := DepthScaling G lo hi]>
                 (<["object_positions" := Positions G ps]>
                    (config_of G sun d))).
Proof.
  intros Hd.
  destruct (generated_renderable OK G p d sun Hd) as (n & Hn & HR).
  destruct (hdri_world p) eqn:Hh;
    [|destruct (String.eqb_spec (lighting p) "ambient_hdri") as [Hl | Hl]].
  - eapply outcome_mono;
      [eapply render_scene_renderable; [exact HR | by left] | done |].
    intros _ s' (ps & lo & hi & Hlen & Hs'). by exists n, ps, lo, hi.
  - rewrite Hl in HR.
    eapply outcome_mono; [by eapply render_scene_floor_ambient | done..].
  - eapply outcome_mono;
      [eapply render_scene_renderable; [exact HR | by right] | done |].
    intros _ s' (ps & lo & hi & Hlen & Hs'). by exists n, ps, lo, hi.
Qed.

Lemma render_scene_returned_config_witness :
  numpy_contract Standin.env ∧
  ∃ d, generated Standin.env Examples.two_scenes d ∧
       outcome (render_scene (counting_engine Standin.env))
          {| r_engine := (0%nat : engine (counting_engine Standin.env));
             r_config := config_of (counting_engine Standin.env)
                           [0.0; 0.0; 7.0]%Q d |}
          (λ _ _, True)
          (λ _ s', ∃ n ps lo hi,
             d !! "num_objects" = Some (VInt n) ∧
             length ps = Z.to_nat n ∧
             r_config s' =
               <["depth_scaling" :=
                   DepthScaling (counting_engine Standin.env) lo hi]>
                 (<["object_positions" :=
                      Positions (counting_engine Standin.env) ps]>
                    (config_of (counting_engine Standin.env)
                       [0.0; 0.0; 7.0]%Q d))).
Proof.
  split; [exact StandinFacts.env_numpy|].
  destruct (returns_generated (E:=Standin.env) Examples.two_scenes 5
              [0.0; 0.0; 7.0]%Q) as (d & sun' & _ & Hg & _);
    [vm_compute; reflexivity|].
  exists d. split; [exact Hg|].
  exact (render_scene_returned_config Standin.env StandinFacts.env_numpy
           (counting_engine Standin.env) Examples.two_scenes d
           [0.0; 0.0; 7.0]%Q 0%nat Hg).
Defined.

(** ** What [render_scene] assigns and what it reads *)

Section RenderFrameRules.
Context {E : External} (G : Engine E).

Lemma truth_stateless v : stateless (truth G v).
Proof. destruct v as [[] | |]; by eexists. Qed.

Lemma equals_stateless v s : stateless (equals G v s).
Proof. destruct v as [[] | |]; by eexists. Qed.

Lemma range_of_stateless v : stateless (range_of G v).
Proof. destruct v as [[] | |]; by eexists. Qed.

Lemma at_index_stateless {A} (xs : list A) i f : stateless (at_index G xs i f).
Proof. unfold at_index. destruct (xs !! i); by eexists. Qed.

Lemma item_stateless v i : stateless (item G v i).
Proof.
  destruct v as [[] | |]; simpl;
    first [apply at_index_stateless | by eexists].
Qed.

Lemma local_stateless {A} name (x : option A) : stateless (local G name x).
Proof. destruct x; by eexists. Qed.

Lemma ret_stateless {A} (x : A) : stateless (mret x : RM G A).
Proof. by eexists. Qed.

(** *** Assignments *)

Lemma touches_bind {A B} K (m : RM G A) (f : A → RM G B) :
  touches_only K m → (∀ x, touches_only K (f x)) →
  touches_only K (m ≫= f).
Proof.
  intros Hm Hf s k Hk. specialize (Hm s k Hk).
  unfold mbind, RM_bind. destruct (m s) as [[e | x] s']; simpl in *; [done|].
  rewrite <- Hm. by apply Hf.
Qed.

Lemma touches_stateless {A} K (m : RM G A) : stateless m → touches_only K m.
Proof. intros [r Hr] s k _. by rewrite Hr. Qed.

Lemma touches_get K k : touches_only K (config_get G k).
Proof.
  intros s k' _. unfold config_get. by destruct (r_config s !! k).
Qed.

Lemma touches_call K name args : touches_only K (engine_call G name args).
Proof.
  intros s k' _. unfold engine_call.
  by destruct (call G name args (r_engine s)) as [msg | [h en']].
Qed.

Lemma touches_set K k v : k ∈ K → touches_only K (config_set G k v).
Proof.
  intros Hk s k' Hk'. simpl. apply lookup_insert_ne. by intros <-.
Qed.

End RenderFrameRules.

Ltac touches :=
  repeat first
    [ apply touches_bind; [|intros ?]
    | apply touches_get
    | apply touches_call
    | apply touches_stateless;
      first [ apply truth_stateless | apply equals_stateless
            | apply range_of_stateless | apply item_stateless
            | apply local_stateless | apply ret_stateless ]
    | match goal with |- touches_only _ (if ?b then _ else _) => destruct b end ].

Section RenderAssigns.
Context {E : External} (G : Engine E) (K : list string).

Lemma render_open_touches : touches_only K (render_open G).
Proof. unfold render_open. touches. Qed.

Lemma render_camera_touches w : touches_only K (render_camera G w).
Proof. unfold render_camera. touches. Qed.

Lemma render_world_touches w : touches_only K (render_world G w).
Proof. unfold render_world. touches. Qed.

Lemma render_lights_touches w bg : touches_only K (render_lights G w bg).
Proof. unfold render_lights. touches. Qed.

Lemma render_object_touches w i : touches_only K (render_object G w i).
Proof. unfold render_object. touches. Qed.

Lemma render_objects_touches w indices : ∀ positions,
  touches_only K (render_objects G w indices positions).
Proof.
  induction indices as [| i indices IH]; intros positions; simpl.
  - apply touches_stateless, ret_stateless.
  - apply touches_bind; [apply render_object_touches | intros ?; apply IH].
Qed.

Lemma render_frame_touches w :
  "depth_scaling" ∈ K → touches_only K (render_frame G w).
Proof.
  intros HK. unfold render_frame.
  repeat first [ apply touches_set; exact HK | progress touches ].
Qed.

Lemma render_scene_touches :
  "object_positions" ∈ K → "depth_scaling" ∈ K →
  touches_only K (render_scene G).
Proof.
  intros H1 H2. unfold render_scene.
  apply touches_bind; [apply render_open_touches | intros w].
  apply touches_bind; [apply render_camera_touches | intros _].
  apply touches_bind; [apply render_world_touches | intros bg].
  apply touches_bind; [apply render_lights_touches | intros _].
  apply touches_bind; [apply touches_get | intros num_objects].
  apply touches_bind;
    [apply touches_stateless, range_of_stateless | intros indices].
  apply touches_bind; [apply render_objects_touches | intros positions].
  apply touches_bind; [by apply touches_set | intros _].
  by apply render_frame_touches.
Qed.

End RenderAssigns.

(** Whatever [config] it is given, whether it returns or raises and
    whatever the engine does, [render_scene] leaves every key other
    than [object_positions] and [depth_scaling] as it found it: present
    with the same value, or absent. *)
Theorem render_scene_assigns_two_keys (E : External) (G : Engine E)
    (s : rstate G) (k : string) :
  k ≠ "object_positions" → k ≠ "depth_scaling" →
  r_config (render_scene G s).2 !! k = r_config s !! k.
Proof.
  intros H1 H2.
  apply (render_scene_touches G ["object_positions"; "depth_scaling"]).
  - apply list_elem_of_here.
  - apply list_elem_of_further, list_elem_of_here.
  - rewrite !elem_of_cons, elem_of_nil. tauto.
Qed.

Lemma render_scene_assigns_two_keys_witness :
  ∃ d, generated Standin.env Examples.two_scenes d ∧
       let s : rstate (counting_engine Standin.env) :=
         {| r_engine := (0%nat : engine (counting_engine Standin.env));
            r_config := config_of _ [0.0; 0.0; 7.0]%Q d |} in
       (∃ frame, (render_scene (counting_engine Standin.env) s).1
                 = inr frame) ∧
       r_config (render_scene (counting_engine Standin.env) s).2
         !! "lighting"
       = Some (Sampled _ (VStr "sun")).
Proof.
  destruct (returns_generated (E:=Standin.env) Examples.two_scenes 5
              [0.0; 0.0; 7.0]%Q) as (d & sun' & _ & Hg & _);
    [vm_compute; reflexivity|].
  exists d. split; [exact Hg|]. intros s. split.
  - apply (render_scene_returns StandinFacts.env_numpy _ Examples.two_scenes);
      [exact Hg | by right | apply counting_engine_total].
  - rewrite (render_scene_assigns_two_keys Standin.env
               (counting_engine Standin.env) s "lighting"); [|done..].
    destruct (generated_renderable StandinFacts.env_numpy
                (counting_engine Standin.env) Examples.two_scenes d
                [0.0; 0.0; 7.0]%Q Hg) as (n & _ & HR).
    exact (rd_lighting _ _ _ _ HR).
Defined.

(** *** Reads *)

Section RenderIgnoreRules.
Context {E : External} (G : Engine E) (k : string).

Lemma ignores_bind {A B} (m : RM G A) (f : A → RM G B) s :
  ignores_at k m s →
  (∀ x s', m s = (inr x, s') → ignores_at k (f x) s') →
  ignores_at k (m ≫= f) s.
Proof.
  intros Hm Hf v. unfold mbind, RM_bind. rewrite (Hm v).
  destruct (m s) as [[e | x] s'] eqn:Hms; simpl; [done|].
  by apply Hf.
Qed.

Lemma ignores_stateless {A} (m : RM G A) s : stateless m → ignores_at k m s.
Proof. intros [r Hr] v. by rewrite !Hr. Qed.

Lemma ignores_get k' s : k' ≠ k → ignores_at k (config_get G k') s.
Proof.
  intros Hk v. unfold config_get. simpl.
  rewrite lookup_insert_ne by done. by destruct (r_config s !! k').
Qed.

Lemma ignores_set k' v' s : k' ≠ k → ignores_at k (config_set G k' v') s.
Proof.
  intros Hk v. unfold config_set, with_key. simpl.
  by rewrite insert_insert_ne.
Qed.

Lemma ignores_call name args s : ignores_at k (engine_call G name args) s.
Proof.
  intros v. unfold engine_call. simpl.
  by destruct (call G name args (r_engine s)) as [msg | [h en']].
Qed.

End RenderIgnoreRules.

Ltac keys_in :=
  solve [repeat first [apply list_elem_of_here | apply list_elem_of_further]].

(** [k] is none of the keys of a shorter list, given that it is none of
    those of a longer one. *)
Ltac sub_keys Hk :=
  let H := fresh in
  intros H; apply Hk; unfold render_keys;
  repeat (apply elem_of_cons in H as [-> | H]; [keys_in|]);
  by apply elem_of_nil in H.

Ltac key_ne Hk :=
  let H := fresh in
  intros H; apply Hk; first [rewrite <- H | rewrite H];
  unfold render_keys; keys_in.

Ltac ignores Hk :=
  repeat first
    [ apply ignores_bind; [|intros ? ? _]
    | apply ignores_get; key_ne Hk
    | apply ignores_call
    | apply ignores_stateless;
      first [ apply truth_stateless | apply equals_stateless
            | apply range_of_stateless | apply item_stateless
            | apply local_stateless | apply ret_stateless ]
    | match goal with
      | |- ignores_at _ (if ?b then _ else _) _ => destruct b
      end ].

Section RenderReads.
Context {E : External} (G : Engine E).

Lemma render_open_ignores k s :
  k ∉ ["seed"; "resolution"] → ignores_at k (render_open G) s.
Proof. intros Hk. unfold render_open. ignores Hk. Qed.

Lemma render_camera_ignores k w s :
  k ∉ ["camera_focal_length"; "camera_sensor_width"; "camera_position";
       "camera_look_at"] →
  ignores_at k (render_camera G w) s.
Proof. intros Hk. unfold render_camera. ignores Hk. Qed.

Lemma render_world_ignores k w s :
  k ∉ ["hdri_world"; "hdri_id"; "floor_friction"; "floor_restitution";
       "bg_material"; "seed"; "floor_scale"; "floor_position";
       "bg_texture"] →
  ignores_at k (render_world G w) s.
Proof. intros Hk. unfold render_world. ignores Hk. Qed.

(** The floor branch reads neither [hdri_id] nor the floor's friction
    and restitution. *)
Lemma render_world_ignores_floor k w s :
  r_config s !! "hdri_world" = Some (Sampled G (VBool false)) →
  k ∉ ["hdri_world"; "bg_material"; "seed"; "floor_scale"; "floor_position";
       "bg_texture"] →
  ignores_at k (render_world G w) s.
Proof.
  intros Hw Hk. unfold render_world.
  apply ignores_bind; [apply ignores_get; key_ne Hk|].
  intros v s1 Hget. unfold config_get in Hget. rewrite Hw in Hget.
  injection Hget as <- <-.
  apply ignores_bind; [apply ignores_stateless, truth_stateless|].
  intros b s2 Hb. injection Hb as <- <-.
  ignores Hk.
Qed.

Lemma render_lights_ignores k w bg s :
  k ∉ ["lighting"; "sun_position"; "ambient_illumination"] →
  ignores_at k (render_lights G w bg) s.
Proof. intros Hk. unfold render_lights. ignores Hk. Qed.

Lemma render_object_ignores k w i s :
  k ∉ ["seed"; "asset_source"; "object_shapes"; "object_scales";
       "object_materials"; "object_textures"; "object_quaternions";
       "spawn_region"] →
  ignores_at k (render_object G w i) s.
Proof. intros Hk. unfold render_object. ignores Hk. Qed.

Lemma render_objects_ignores k w indices : ∀ positions s,
  k ∉ ["seed"; "asset_source"; "object_shapes"; "object_scales";
       "object_materials"; "object_textures"; "object_quaternions";
       "spawn_region"] →
  ignores_at k (render_objects G w indices positions) s.
Proof.
  induction indices as [| i indices IH]; intros positions s Hk; simpl.
  - apply ignores_stateless, ret_stateless.
  - apply ignores_bind; [by apply render_object_ignores|].
    intros ? ? _. by apply IH.
Qed.

Lemma render_frame_ignores k w s :
  k ≠ "depth_scaling" → ignores_at k (render_frame G w) s.
Proof.
  intros Hk. unfold render_frame.
  repeat first
    [ apply ignores_set; congruence
    | apply ignores_bind; [|intros ? ? _]
    | apply ignores_call
    | apply ignores_stateless, ret_stateless ].
Qed.

(** [render_scene] depends on a key only where one of its phases
    does; the world is built from the [config] the function was
    called with. *)
Lemma render_scene_ignores k s :
  k ∉ ["seed"; "resolution"; "camera_focal_length"; "camera_sensor_width";
       "camera_position"; "camera_look_at"; "lighting"; "sun_position";
       "ambient_illumination"; "num_objects"; "asset_source";
       "object_shapes"; "object_scales"; "object_materials";
       "object_textures"; "object_quaternions"; "spawn_region";
       "object_positions"; "depth_scaling"] →
  (∀ w s', r_config s' = r_config s → ignores_at k (render_world G w) s') →
  ignores_at k (render_scene G) s.
Proof.
  intros Hk Hworld. unfold render_scene.
  apply ignores_bind; [apply render_open_ignores; sub_keys Hk|].
  intros w s1 H1.
  assert (r_config s1 = r_config s) as HC1.
  { apply map_eq. intros k'.
    pose proof (render_open_touches G [] s k' (not_elem_of_nil _)) as Ht.
    by rewrite H1 in Ht. }
  apply ignores_bind; [apply render_camera_ignores; sub_keys Hk|].
  intros [] s2 H2.
  assert (r_config s2 = r_config s) as HC2.
  { rewrite <- HC1. apply map_eq. intros k'.
    pose proof (render_camera_touches G [] w s1 k' (not_elem_of_nil _)) as Ht.
    by rewrite H2 in Ht. }
  apply ignores_bind; [by apply Hworld|].
  intros bg s3 _.
  apply ignores_bind; [apply render_lights_ignores; sub_keys Hk|].
  intros [] s4 _.
  apply ignores_bind; [apply ignores_get; key_ne Hk|].
  intros num_objects s5 _.
  apply ignores_bind; [apply ignores_stateless, range_of_stateless|].
  intros indices s6 _.
  apply ignores_bind; [apply render_objects_ignores; sub_keys Hk|].
  intros positions s7 _.
  apply ignores_bind; [apply ignores_set; key_ne Hk|].
  intros [] s8 _.
  apply render_frame_ignores. key_ne Hk.
Qed.

End RenderReads.

(** [render_scene] reads no key but those of [render_keys].  Whatever
    is stored under another key beforehand (among the sampler's keys:
    [velocity_range], [object_angles_of_rotation] and
    [object_axes_of_rotation]), the outcome and the engine are the
    same, and the key holds that value afterwards. *)
Theorem render_scene_reads_only_its_keys (E : External) (G : Engine E)
    (k : string) (v : rvalue G) (s : rstate G) :
  k ∉ render_keys →
  render_scene G (with_key k v s)
  = ((render_scene G s).1, with_key k v (render_scene G s).2).
Proof.
  intros Hk. revert v. fold (ignores_at k (render_scene G) s).
  apply render_scene_ignores; [sub_keys Hk|].
  intros w s' _. apply render_world_ignores. sub_keys Hk.
Qed.

Lemma render_scene_reads_only_its_keys_witness :
  ∃ d, generated Standin.env Examples.two_scenes d ∧
       let v : rvalue (counting_engine Standin.env) :=
         Sampled _ (VFloatss [[-1.0; -1.0; 0.0]; [1.0; 1.0; 0.0]]%Q) in
       let s : rstate (counting_engine Standin.env) :=
         {| r_engine := (0%nat : engine (counting_engine Standin.env));
            r_config := config_of _ [0.0; 0.0; 7.0]%Q d |} in
       ("velocity_range" ∉ render_keys) ∧
       (∃ frame, (render_scene (counting_engine Standin.env) s).1
                 = inr frame) ∧
       render_scene (counting_engine Standin.env)
         (with_key "velocity_range" v s)
       = ((render_scene (counting_engine Standin.env) s).1,
          with_key "velocity_range" v
            (render_scene (counting_engine Standin.env) s).2).
Proof.
  destruct (returns_generated (E:=Standin.env) Examples.two_scenes 5
              [0.0; 0.0; 7.0]%Q) as (d & sun' & _ & Hg & _);
    [vm_compute; reflexivity|].
  exists d. split; [exact Hg|]. intros v s.
  assert ("velocity_range" ∉ render_keys) as Hk.
  { unfold render_keys.
    repeat (apply not_elem_of_cons; split; [discriminate|]).
    apply not_elem_of_nil. }
  split; [exact Hk|]. split.
  - apply (render_scene_returns StandinFacts.env_numpy _ Examples.two_scenes);
      [exact Hg | by right | apply counting_engine_total].
  - exact (render_scene_reads_only_its_keys Standin.env
             (counting_engine Standin.env) "velocity_range" v s Hk).
Defined.

(** In a floor world ([hdri_world] false) [render_scene] reads neither
    [floor_friction] nor [floor_restitution] nor [hdri_id]: the floor
    cube is created without them, and what they hold changes neither
    the outcome nor the engine. *)
Theorem floor_world_ignores_friction (E : External) (G : Engine E)
    (k : string) (v : rvalue G) (s : rstate G) :
  r_config s !! "hdri_world" = Some (Sampled G (VBool false)) →
  k ∈ ["floor_friction"; "floor_restitution"; "hdri_id"] →
  render_scene G (with_key k v s)
  = ((render_scene G s).1, with_key k v (render_scene G s).2).
Proof.
  intros Hw Hk. revert v. fold (ignores_at k (render_scene G) s).
  assert (k ∉ ["seed"; "resolution"; "camera_focal_length";
               "camera_sensor_width"; "camera_position"; "camera_look_at";
               "hdri_world"; "bg_material"; "floor_scale"; "floor_position";
               "bg_texture"; "lighting"; "sun_position";
               "ambient_illumination"; "num_objects"; "asset_source";
               "object_shapes"; "object_scales"; "object_materials";
               "object_textures"; "object_quaternions"; "spawn_region";
               "object_positions"; "depth_scaling"]) as Hk'.
  { repeat (apply elem_of_cons in Hk as [-> | Hk];
            [repeat (apply not_elem_of_cons; split; [discriminate|]);
             apply not_elem_of_nil|]).
    by apply elem_of_nil in Hk. }
  apply render_scene_ignores; [sub_keys Hk'|].
  intros w s' HC. apply render_world_ignores_floor.
  - by rewrite HC.
  - sub_keys Hk'.
Qed.

Lemma floor_world_ignores_friction_witness :
  ∃ d, generated Standin.env Examples.two_scenes d ∧
       let v : rvalue (counting_engine Standin.env) :=
         Sampled _ (VFloat 0.9%Q) in
       let s : rstate (counting_engine Standin.env) :=
         {| r_engine := (0%nat : engine (counting_engine Standin.env));
            r_config := config_of _ [0.0; 0.0; 7.0]%Q d |} in
       r_config s !! "hdri_world" = Some (Sampled _ (VBool false)) ∧
       r_config s !! "floor_friction" = Some (Sampled _ (VFloat 0.3%Q)) ∧
       (∃ frame, (render_scene (counting_engine Standin.env) s).1
                 = inr frame) ∧
       render_scene (counting_engine Standin.env)
         (with_key "floor_friction" v s)
       = ((render_scene (counting_engine Standin.env) s).1,
          with_key "floor_friction" v
            (render_scene (counting_engine Standin.env) s).2).
Proof.
  destruct (returns_generated (E:=Standin.env) Examples.two_scenes 5
              [0.0; 0.0; 7.0]%Q) as (d & sun' & _ & Hg & _);
    [vm_compute; reflexivity|].
  exists d. split; [exact Hg|]. intros v s.
  destruct (generated_renderable StandinFacts.env_numpy
              (counting_engine Standin.env) Examples.two_scenes d
              [0.0; 0.0; 7.0]%Q Hg) as (n & _ & HR).
  pose proof (rd_hdri_world _ _ _ _ HR) as Hw.
  split; [exact Hw|]. split.
  { unfold s. cbn [r_config]. rewrite config_of_lookup.
    apply (scene_dict_generated Examples.two_scenes StandinFacts.env_numpy)
      in Hg as (seed & w & lt & o & -> & _).
    by destruct w, lt. }
  split.
  - apply (render_scene_returns StandinFacts.env_numpy _ Examples.two_scenes);
      [exact Hg | by right | apply counting_engine_total].
  - apply (floor_world_ignores_friction Standin.env
             (counting_engine Standin.env) "floor_friction" v s Hw).
    apply list_elem_of_here.
Defined.
